(** * Matching and ranking engine of the AI résumé analyzer

    A shallow embedding of the matching core under
    [ai-resume-linkedin-analyzer/src/matching] ([job_matcher.py],
    [ranking_algorithm.py], [similarity_scorer.py], [embeddings.py]) and of the
    data classes it uses ([models/resume.py], [models/job.py],
    [models/match_result.py]).

    Conventions of the embedding:
    - Python floats are idealised as exact rationals [Q]; equality of scores is
      [Qeq] ([==]).
    - Python [str] is [string]; [str.lower] acts on the ASCII letters.
    - a Python [set] of strings is a [gset string]; iterating it visits
      [elements], in an order the program does not control (as in Python).
    - a [dict] that is only looked up is a [gmap]; a [dict] whose [items()] are
      iterated is an insertion-ordered association list.
    - a function that can raise, or that catches exceptions, lives in the
      [result] monad.
    - calls into [openai] and [numpy.linalg] are oracles collected in [Env].
    - a one-dimensional NumPy array is a [list Q], an array of rows the list
      of its rows; a value that may be [None] instead is an [option].
    - [loguru] logging is output only and left out. *)

Set Warnings "-abstract-large-number".

From Stdlib Require Import QArith Qminmax String Ascii List ZArith Lia Lqa.
From Stdlib Require Import Permutation Sorted.
From stdpp Require Import gmap strings list fin_maps.
Import ListNotations.

Local Open Scope string_scope.
Local Open Scope Q_scope.
Local Open Scope list_scope.

(** ** Python primitives *)

(** Exceptions the modelled code can meet. *)
Inductive exn : Type :=
  | KeyError (key : string)
  | ValueError (msg : string)
  | AttributeError (msg : string)
  | APIError (msg : string).

Inductive result (A : Type) : Type :=
  | Ok (a : A)
  | Raise (e : exn).
Arguments Ok {A} a.
Arguments Raise {A} e.

#[global] Instance result_ret : MRet result := fun A a => Ok a.

#[global] Instance result_bind : MBind result := fun A B k m =>
  match m with
  | Ok a => k a
  | Raise e => Raise e
  end.

(** [try: body except Exception as e: handler(e)]. *)
Definition try_except {A : Type} (body : result A) (handler : exn -> result A)
  : result A :=
  match body with
  | Ok a => Ok a
  | Raise e => handler e
  end.

(** The builtins [min(a, b)] and [max(a, b)] on two arguments: the first
    argument is kept unless the second is strictly smaller (larger). *)
Definition Qltb (a b : Q) : bool := negb (Qle_bool b a).

Definition py_min (a b : Q) : Q := if Qltb b a then b else a.
Definition py_max (a b : Q) : Q := if Qltb a b then b else a.

(** [str.lower()], on ASCII letters. *)
Definition lower_char (c : ascii) : ascii :=
  let n := nat_of_ascii c in
  if ((65 <=? n)%nat && (n <=? 90)%nat)%bool then ascii_of_nat (n + 32) else c.

Fixpoint lower (s : string) : string :=
  match s with
  | EmptyString => EmptyString
  | String c s' => String (lower_char c) (lower s')
  end.

(** [a in b] on strings: [a] occurs in [b] as a contiguous substring. *)
Fixpoint str_in (a b : string) : bool :=
  (String.prefix a b ||
   match b with
   | EmptyString => false
   | String _ b' => str_in a b'
   end)%bool.

(** Truth value of a string: non-empty. *)
Definition str_truthy (s : string) : bool :=
  match s with
  | EmptyString => false
  | String _ _ => true
  end.

(** [c.isspace()] for the ASCII range. *)
Definition is_space (c : ascii) : bool :=
  let n := nat_of_ascii c in
  (((9 <=? n)%nat && (n <=? 13)%nat) || ((28 <=? n)%nat && (n <=? 32)%nat))%bool.

(** [not text.strip()]: every character is white space. *)
Fixpoint all_space (s : string) : bool :=
  match s with
  | EmptyString => true
  | String c s' => (is_space c && all_space s')%bool
  end.

(** [text[:n]] on strings. *)
Definition str_take (n : nat) (s : string) : string := String.substring 0 n s.

(** [l[:k]] on lists, for any integer [k]: a negative [k] counts from the
    end. *)
Definition slice_to {A : Type} (k : Z) (l : list A) : list A :=
  if (0 <=? k)%Z then firstn (Z.to_nat k) l
  else firstn (Z.to_nat (Z.of_nat (List.length l) + k)) l.

(** [sorted(l, key=key, reverse=True)]: a stable sort into non-increasing key
    order.  [insert_desc] places [x] in front of the first element whose key
    does not exceed the key of [x], so [x] stays ahead of the equal keys that
    followed it in the input. *)
Section Sorted.
Context {A : Type} (key : A -> Q).

Fixpoint insert_desc (x : A) (l : list A) : list A :=
  match l with
  | [] => [x]
  | y :: l' =>
      if Qle_bool (key y) (key x) then x :: y :: l'
      else y :: insert_desc x l'
  end.

Fixpoint sorted_reverse (l : list A) : list A :=
  match l with
  | [] => []
  | x :: l' => insert_desc x (sorted_reverse l')
  end.

(** [a] may stand before [b]: its key is at least the key of [b]. *)
Definition desc (a b : A) : Prop := key b <= key a.
End Sorted.

(** An insertion-ordered [dict]: [d[k] = v] replaces the value of a present
    key in place and appends a new key at the end. *)
Fixpoint dict_set (k v : string) (d : list (string * string))
  : list (string * string) :=
  match d with
  | [] => [(k, v)]
  | (k', v') :: d' =>
      if String.eqb k k' then (k, v) :: d' else (k', v') :: dict_set k v d'
  end.

(** [{s.lower(): s for s in xs}] with its [items()] order. *)
Definition dict_lower_items (xs : list string) : list (string * string) :=
  fold_left (fun d s => dict_set (lower s) s d) xs [].

(** [{s.lower(): s for s in xs}] for look-ups only. *)
Definition dict_lower (xs : list string) : gmap string string :=
  fold_left (fun d s => <[lower s := s]> d) xs ∅.

(** [{s.lower() for s in xs}]. *)
Definition set_lower (xs : list string) : gset string :=
  list_to_set (map lower xs).

(** ** Oracles for the external libraries *)

Record Env : Type := {
  (** [openai.embeddings.create(model=..., input=...).data[0].embedding];
      [Raise] when the call, or reading the response, raises. *)
  openai_embeddings_create : string -> string -> result (list Q);
  (** [np.linalg.norm] of a one-dimensional array. *)
  np_linalg_norm : list Q -> Q
}.

(** ** Data classes *)

(** [models/job.py], the fields the matching engine reads. *)
Record Job : Type := {
  job_id : string;
  title : string;
  company : string;
  remote : bool;
  description : string;
  requirements : string;
  experience_required : string;
  education_required : string;
  required_skills : list string
}.

(** [models/resume.py], the fields the matching engine reads.  The entries of
    [experience] and [education] are dictionaries with string values. *)
Record Resume : Type := {
  resume_id : string;
  summary : string;
  experience : list (gmap string string);
  education : list (gmap string string);
  skills : list string
}.

(** [entry.get(key, '')]. *)
Definition dict_get (entry : gmap string string) (key : string) : string :=
  default "" (entry !! key).

(** [Resume.get_total_experience_years]. *)
Definition get_total_experience_years (self : Resume) : Q :=
  match experience self with
  | [] => 0
  | _ => inject_Z (Z.of_nat (List.length (experience self))) * 2.5
  end.

(** [models/match_result.py].  [match_id] and [matched_date] are drawn from
    [uuid4()] and [datetime.now()] and play no part in matching; [resume_id]
    is [mr_resume_id] here. *)
Record MatchResult : Type := {
  mr_resume_id : string;
  job : option Job;
  overall_score : Q;
  skills_match_score : Q;
  experience_match_score : Q;
  education_match_score : Q;
  semantic_similarity_score : Q;
  location_match_score : Q;
  matched_skills : list string;
  missing_skills : list string;
  explanation : string;
  confidence_level : string
}.

(** [match.overall_score = s]. *)
Definition set_overall_score (m : MatchResult) (s : Q) : MatchResult :=
  {| mr_resume_id := mr_resume_id m;
     job := job m;
     overall_score := s;
     skills_match_score := skills_match_score m;
     experience_match_score := experience_match_score m;
     education_match_score := education_match_score m;
     semantic_similarity_score := semantic_similarity_score m;
     location_match_score := location_match_score m;
     matched_skills := matched_skills m;
     missing_skills := missing_skills m;
     explanation := explanation m;
     confidence_level := confidence_level m |}.

(** ** [similarity_scorer.py] *)

Module SimilarityScorer.

(** [np.dot] of two one-dimensional arrays. *)
Definition np_dot (vec1 vec2 : list Q) : result Q :=
  if (List.length vec1 =? List.length vec2)%nat
  then Ok (fold_left (fun acc p => acc + fst p * snd p) (combine vec1 vec2) 0)
  else Raise (ValueError "shapes not aligned").

(** [cosine_similarity].  The arrays handed over are one-dimensional, so
    [flatten] is never taken; [None] in place of an array has no [ndim]. *)
Definition cosine_similarity (E : Env) (vec1 vec2 : option (list Q))
  : result Q :=
  match vec1, vec2 with
  | Some v1, Some v2 =>
      dot_product ← np_dot v1 v2;
      let norm1 := np_linalg_norm E v1 in
      let norm2 := np_linalg_norm E v2 in
      if (Qeq_bool norm1 0 || Qeq_bool norm2 0)%bool then Ok 0
      else
        let similarity := dot_product / (norm1 * norm2) in
        Ok (py_max 0 (py_min 1 similarity))
  | _, _ => Raise (AttributeError "'NoneType' object has no attribute 'ndim'")
  end.

End SimilarityScorer.

(** ** [embeddings.py] *)

Module EmbeddingGenerator.

Record t : Type := {
  provider : string;
  model : string;
  dimension : nat
}.

Definition __init__ (provider model : string) : t :=
  {| provider := provider; model := model; dimension := 1536 |}.

(** [np.zeros(n)]. *)
Definition np_zeros (n : nat) : list Q := repeat 0 n.

(** [generate_embedding].  With a provider other than ["openai"] the [try]
    block does nothing and the function falls off its end, returning
    [None]. *)
Definition generate_embedding (E : Env) (self : t) (text : string)
  : result (option (list Q)) :=
  if (negb (str_truthy text) || all_space text)%bool
  then Ok (Some (np_zeros (dimension self)))
  else
    try_except
      (if String.eqb (provider self) "openai"
       then
         embedding ← openai_embeddings_create E (model self)
                       (str_take 8000 text);
         Ok (Some embedding)
       else Ok None)
      (fun e => Ok (Some (np_zeros (dimension self)))).

(** The shape of one row handed to [np.array]: [None] is a scalar object, a
    vector has its length. *)
Definition row_shape (row : option (list Q)) : option nat :=
  match row with
  | Some v => Some (List.length v)
  | None => None
  end.

(** The rows stack into one array when they all have the shape of the
    first. *)
Definition homogeneous (rows : list (option (list Q))) : bool :=
  match rows with
  | [] => true
  | row :: rows' =>
      forallb (fun row' => bool_decide (row_shape row' = row_shape row)) rows'
  end.

(** [np.array(rows)] on a list of rows.  Rows of one shape are stacked, the
    rows of the array being the rows given; rows of different lengths, or
    [None] next to a vector, make NumPy (from 1.24 on) raise [ValueError]
    for the inhomogeneous shape. *)
Definition np_array (rows : list (option (list Q)))
  : result (list (option (list Q))) :=
  if homogeneous rows then Ok rows
  else Raise (ValueError "inhomogeneous shape").

(** [generate_batch_embeddings]: the list comprehension calls
    [generate_embedding] on each text, in order; the list is then turned into
    one array. *)
Definition generate_batch_embeddings (E : Env) (self : t) (texts : list string)
  : result (list (option (list Q))) :=
  embeddings ← mapM (generate_embedding E self) texts;
  np_array embeddings.

End EmbeddingGenerator.

(** ** [ranking_algorithm.py] *)

(** The dataclass [RankingWeights]; its fields carry the prefix [w_] to keep
    them apart from the fields of [Resume]. *)
Record RankingWeights : Type := {
  w_skills : Q;
  w_experience : Q;
  w_education : Q;
  w_semantic : Q
}.

Module RankingAlgorithm.

Record t : Type := { default_weights : RankingWeights }.

Definition __init__ : t :=
  {| default_weights :=
       {| w_skills := 0.35; w_experience := 0.25;
          w_education := 0.15; w_semantic := 0.25 |} |}.

(** Truth value of an optional dictionary: neither [None] nor empty. *)
Definition weights_truthy (custom_weights : option (gmap string Q)) : bool :=
  match custom_weights with
  | None => false
  | Some cw => negb (size cw =? 0)%nat
  end.

(** [custom_weights.get(key, dflt)]. *)
Definition weights_get (custom_weights : option (gmap string Q))
    (key : string) (dflt : Q) : Q :=
  match custom_weights with
  | None => dflt
  | Some cw => default dflt (cw !! key)
  end.

Definition _get_weights (self : t) (custom_weights : option (gmap string Q))
  : RankingWeights :=
  if negb (weights_truthy custom_weights) then default_weights self
  else
    {| w_skills :=
         weights_get custom_weights "skills" (w_skills (default_weights self));
       w_experience :=
         weights_get custom_weights "experience"
           (w_experience (default_weights self));
       w_education :=
         weights_get custom_weights "education"
           (w_education (default_weights self));
       w_semantic :=
         weights_get custom_weights "semantic"
           (w_semantic (default_weights self)) |}.

Definition _calculate_weighted_score (m : MatchResult)
    (weights : RankingWeights) : Q :=
  let score :=
    skills_match_score m * w_skills weights +
    experience_match_score m * w_experience weights +
    education_match_score m * w_education weights +
    semantic_similarity_score m * w_semantic weights in
  py_max 0 (py_min 100 score).

(** [rank_matches]: every match gets its weighted score, then the matches
    are sorted by it, highest first. *)
Definition rank_matches (self : t) (matches : list MatchResult)
    (custom_weights : option (gmap string Q)) : list MatchResult :=
  match matches with
  | [] => []
  | _ =>
      let weights := _get_weights self custom_weights in
      let matches :=
        map (fun m => set_overall_score m
                        (_calculate_weighted_score m weights)) matches in
      sorted_reverse overall_score matches
  end.

(** [get_top_k]. *)
Definition get_top_k (self : t) (matches : list MatchResult) (k : Z)
    (threshold : Q) : list MatchResult :=
  let filtered :=
    List.filter (fun m => Qle_bool threshold (overall_score m)) matches in
  let ranked := rank_matches self filtered None in
  slice_to k ranked.

(** [d.get(key)] on a dictionary given by its items. *)
Fixpoint items_lookup {V : Type} (key : string) (d : list (string * V))
  : option V :=
  match d with
  | [] => None
  | (k, v) :: d' => if String.eqb key k then Some v else items_lookup key d'
  end.

(** The [component_map] dictionary of [rank_by_component]. *)
Definition component_map : list (string * (MatchResult -> Q)) :=
  [("skills", skills_match_score);
   ("experience", experience_match_score);
   ("education", education_match_score);
   ("semantic", semantic_similarity_score);
   ("overall", overall_score)].

(** [rank_by_component]: an unknown component is replaced by ['overall'],
    then [component_map[component]] is the sort key. *)
Definition rank_by_component (self : t) (matches : list MatchResult)
    (component : string) : result (list MatchResult) :=
  let component :=
    match items_lookup component component_map with
    | Some _ => component
    | None => "overall"
    end in
  match items_lookup component component_map with
  | Some key => Ok (sorted_reverse key matches)
  | None => Raise (KeyError component)
  end.

End RankingAlgorithm.

(** ** [job_matcher.py] *)

Module MatchingConfig.

(** [MatchingConfig] after its [__post_init__]: [weights] is a dictionary. *)
Record t : Type := {
  similarity_threshold : Q;
  top_k : Z;
  weights : gmap string Q
}.

(** The dataclass constructor followed by [__post_init__]: a [weights] left
    at [None] becomes the default dictionary. *)
Definition __post_init__ (similarity_threshold : Q) (top_k : Z)
    (weights : option (gmap string Q)) : t :=
  {| similarity_threshold := similarity_threshold;
     top_k := top_k;
     weights :=
       match weights with
       | None =>
           <["skills" := 0.35]> (<["experience" := 0.25]>
             (<["education" := 0.15]> (<["semantic" := 0.25]> ∅)))
       | Some w => w
       end |}.

(** [MatchingConfig()]. *)
Definition default : t := __post_init__ 0.7 10 None.

End MatchingConfig.

(** [d[key]] on a dictionary of numbers. *)
Definition weights_index (d : gmap string Q) (key : string) : result Q :=
  match d !! key with
  | Some v => Ok v
  | None => Raise (KeyError key)
  end.

(** *** The pattern of [_parse_experience_years]

    [re.findall(r'(\d+)\+?\s*(?:years?|yrs?)', text)[0]]: the digits of the
    leftmost match.  At a given start the greedy [\d+] takes the whole run of
    digits, and neither it nor [\+?] nor [\s*] can match after giving
    characters back, since the character given back is none of what may
    follow. *)
Definition is_digit (c : ascii) : bool :=
  let n := nat_of_ascii c in ((48 <=? n)%nat && (n <=? 57)%nat)%bool.

Fixpoint span_digits (s : string) : string * string :=
  match s with
  | EmptyString => (EmptyString, EmptyString)
  | String c s' =>
      if is_digit c
      then let '(digits, rest) := span_digits s' in (String c digits, rest)
      else (EmptyString, s)
  end.

Definition drop_plus (s : string) : string :=
  match s with
  | String "+"%char s' => s'
  | _ => s
  end.

Fixpoint drop_space (s : string) : string :=
  match s with
  | EmptyString => EmptyString
  | String c s' => if is_space c then drop_space s' else s
  end.

Definition match_years_at (s : string) : option string :=
  let '(digits, rest) := span_digits s in
  if str_truthy digits then
    let rest := drop_space (drop_plus rest) in
    if (String.prefix "year" rest || String.prefix "yr" rest)%bool
    then Some digits else None
  else None.

Fixpoint find_years (s : string) : option string :=
  match s with
  | EmptyString => None
  | String _ s' =>
      match match_years_at s with
      | Some digits => Some digits
      | None => find_years s'
      end
  end.

(** [int(digits)] on a string of decimal digits. *)
Definition int_of_digits (digits : string) : Z :=
  fold_left (fun acc c => (10 * acc + Z.of_nat (nat_of_ascii c - 48))%Z)
    (list_ascii_of_string digits) 0%Z.

Module JobMatcher.

Record t : Type := {
  config : MatchingConfig.t;
  embedding_gen : EmbeddingGenerator.t;
  ranker : RankingAlgorithm.t
}.

Definition __init__ (config : option MatchingConfig.t) : t :=
  {| config := match config with
               | Some c => c
               | None => MatchingConfig.default
               end;
     embedding_gen :=
       EmbeddingGenerator.__init__ "openai" "text-embedding-3-small";
     ranker := RankingAlgorithm.__init__ |}.

Definition _prepare_resume_for_embedding (resume : Resume) : string :=
  let parts := [] in
  let parts :=
    if str_truthy (summary resume)
    then parts ++ ["Summary: " +:+ summary resume] else parts in
  let parts :=
    match skills resume with
    | [] => parts
    | _ => parts ++ ["Skills: " +:+ String.concat ", " (skills resume)]
    end in
  let parts :=
    match experience resume with
    | [] => parts
    | _ =>
        let exp_texts :=
          map (fun exp =>
                 let exp_text :=
                   dict_get exp "title" +:+ " at " +:+ dict_get exp "company" in
                 if str_truthy (dict_get exp "description")
                 then exp_text +:+ ". " +:+ dict_get exp "description"
                 else exp_text)
              (experience resume) in
        parts ++ ["Experience: " +:+ String.concat " " exp_texts]
    end in
  let parts :=
    match education resume with
    | [] => parts
    | _ =>
        let edu_texts :=
          map (fun e =>
                 dict_get e "degree" +:+ " from " +:+ dict_get e "institution")
              (education resume) in
        parts ++ ["Education: " +:+ String.concat " " edu_texts]
    end in
  String.concat " " parts.

Definition _prepare_job_for_embedding (job : Job) : string :=
  let parts := ["Title: " +:+ title job; "Company: " +:+ company job] in
  let parts :=
    if str_truthy (description job)
    then parts ++ ["Description: " +:+ description job] else parts in
  let parts :=
    match required_skills job with
    | [] => parts
    | _ =>
        parts ++
        ["Required Skills: " +:+ String.concat ", " (required_skills job)]
    end in
  let parts :=
    if str_truthy (requirements job)
    then parts ++ ["Requirements: " +:+ requirements job] else parts in
  String.concat " " parts.

Definition _generate_resume_embedding (E : Env) (self : t) (resume : Resume)
  : result (option (list Q)) :=
  let resume_text := _prepare_resume_for_embedding resume in
  EmbeddingGenerator.generate_embedding E (embedding_gen self) resume_text.

Definition _generate_job_embedding (E : Env) (self : t) (job : Job)
  : result (option (list Q)) :=
  let job_text := _prepare_job_for_embedding job in
  EmbeddingGenerator.generate_embedding E (embedding_gen self) job_text.

(** The test of the inner loops of [_calculate_skills_match] and
    [_identify_missing_skills]: some résumé skill contains the required
    skill or is contained in it. *)
Definition partial_with (resume_skills_lower : gset string)
    (req_skill : string) : bool :=
  existsb (fun res_skill =>
             (str_in req_skill res_skill || str_in res_skill req_skill)%bool)
          (elements resume_skills_lower).

Definition _calculate_skills_match (resume_skills required_skills : list string)
  : Q :=
  match required_skills with
  | [] => 1
  | _ =>
      match resume_skills with
      | [] => 0
      | _ =>
          let resume_skills_lower := set_lower resume_skills in
          let required_skills_lower := set_lower required_skills in
          let exact_matches := resume_skills_lower ∩ required_skills_lower in
          let partial_matches :=
            fold_left
              (fun partial_matches req_skill =>
                 if bool_decide (req_skill ∉ exact_matches) then
                   if partial_with resume_skills_lower req_skill
                   then partial_matches + 0.5
                   else partial_matches
                 else partial_matches)
              (elements required_skills_lower) 0 in
          let total_matches :=
            inject_Z (Z.of_nat (size exact_matches)) + partial_matches in
          let match_ratio :=
            total_matches / inject_Z (Z.of_nat (size required_skills_lower)) in
          py_min match_ratio 1
      end
  end.

Definition _parse_experience_years (exp_text : string) : Z :=
  match find_years (lower exp_text) with
  | Some digits => int_of_digits digits
  | None => 0%Z
  end.

Definition _calculate_experience_match (resume : Resume) (job : Job) : Q :=
  if negb (str_truthy (experience_required job)) then 1
  else
    let resume_years := (Z.of_nat (List.length (experience resume)) * 2)%Z in
    let required_years := _parse_experience_years (experience_required job) in
    if (required_years <=? resume_years)%Z then 1
    else if Qle_bool (inject_Z required_years * 0.7) (inject_Z resume_years)
    then 0.8
    else if Qle_bool (inject_Z required_years * 0.5) (inject_Z resume_years)
    then 0.6
    else 0.4.

(** The [degree_levels] dictionary, in its [items()] order. *)
Definition degree_levels : list (string * Z) :=
  [("phd", 5%Z); ("doctorate", 5%Z); ("master", 4%Z); ("mba", 4%Z);
   ("bachelor", 3%Z); ("bachelors", 3%Z); ("associate", 2%Z);
   ("high school", 1%Z)].

Definition _calculate_education_match (resume : Resume) (job : Job) : Q :=
  if negb (str_truthy (education_required job)) then 1
  else
    match education resume with
    | [] => 0.5
    | _ =>
        let resume_level :=
          fold_left
            (fun resume_level edu =>
               let degree := lower (dict_get edu "degree") in
               fold_left
                 (fun resume_level '(key, level) =>
                    if str_in key degree then Z.max resume_level level
                    else resume_level)
                 degree_levels resume_level)
            (education resume) 0%Z in
        let req_edu_lower := lower (education_required job) in
        let required_level :=
          match List.find (fun '(key, level) => str_in key req_edu_lower)
                  degree_levels with
          | Some (_, level) => level
          | None => 0%Z
          end in
        if (required_level <=? resume_level)%Z then 1
        else if (required_level - 1 <=? resume_level)%Z then 0.7
        else 0.5
    end.

Definition _calculate_location_match (resume : Resume) (job : Job) : Q :=
  if remote job then 1 else 0.8.

Definition _get_matched_skills (resume_skills required_skills : list string)
  : list string :=
  let resume_skills_lower := dict_lower resume_skills in
  let required_skills_lower := set_lower required_skills in
  fold_left
    (fun matched req_skill_lower =>
       match resume_skills_lower !! req_skill_lower with
       | Some s => matched ++ [s]
       | None => matched
       end)
    (elements required_skills_lower) [].

Definition _identify_missing_skills (resume_skills required_skills : list string)
  : list string :=
  let resume_skills_lower := set_lower resume_skills in
  let required_skills_lower := dict_lower_items required_skills in
  fold_left
    (fun missing '(req_skill_lower, req_skill) =>
       if bool_decide (req_skill_lower ∉ resume_skills_lower) then
         let found_partial := partial_with resume_skills_lower req_skill_lower in
         if negb found_partial then missing ++ [req_skill] else missing
       else missing)
    required_skills_lower [].

Definition _generate_match_explanation
    (skills_score experience_score education_score semantic_score : Q)
  : string :=
  let explanations := [] in
  let explanations :=
    if Qle_bool 0.8 skills_score
    then explanations ++ ["Excellent skills match"]
    else if Qle_bool 0.6 skills_score
    then explanations ++ ["Good skills match"]
    else explanations ++ ["Skills match needs improvement"] in
  let explanations :=
    if Qle_bool 0.8 experience_score
    then explanations ++ ["Strong experience alignment"]
    else if Qle_bool 0.6 experience_score
    then explanations ++ ["Moderate experience match"]
    else explanations in
  let explanations :=
    if Qle_bool 0.8 education_score
    then explanations ++ ["Education requirements met"] else explanations in
  let explanations :=
    if Qle_bool 0.7 semantic_score
    then explanations ++ ["High semantic similarity"] else explanations in
  String.concat ". " explanations +:+ ".".

Definition _calculate_confidence (overall_score : Q) : string :=
  if Qle_bool 85 overall_score then "Very High"
  else if Qle_bool 75 overall_score then "High"
  else if Qle_bool 60 overall_score then "Medium"
  else "Low".

Definition _calculate_match (E : Env) (self : t) (resume : Resume)
    (resume_embedding : option (list Q)) (job : Job)
    (job_embedding : option (list Q)) : result MatchResult :=
  semantic_score ←
    SimilarityScorer.cosine_similarity E resume_embedding job_embedding;
  let skills_score :=
    _calculate_skills_match (skills resume) (required_skills job) in
  let experience_score := _calculate_experience_match resume job in
  let education_score := _calculate_education_match resume job in
  let location_score := _calculate_location_match resume job in
  weight_semantic ← weights_index (MatchingConfig.weights (config self)) "semantic";
  weight_skills ← weights_index (MatchingConfig.weights (config self)) "skills";
  weight_experience ← weights_index (MatchingConfig.weights (config self)) "experience";
  weight_education ← weights_index (MatchingConfig.weights (config self)) "education";
  let overall_score :=
    (semantic_score * weight_semantic +
     skills_score * weight_skills +
     experience_score * weight_experience +
     education_score * weight_education) * 100 in
  let explanation :=
    _generate_match_explanation skills_score experience_score
      education_score semantic_score in
  let missing_skills :=
    _identify_missing_skills (skills resume) (required_skills job) in
  Ok {| mr_resume_id := resume_id resume;
        job := Some job;
        overall_score := overall_score;
        skills_match_score := skills_score * 100;
        experience_match_score := experience_score * 100;
        education_match_score := education_score * 100;
        semantic_similarity_score := semantic_score * 100;
        location_match_score := location_score * 100;
        matched_skills :=
          _get_matched_skills (skills resume) (required_skills job);
        missing_skills := missing_skills;
        explanation := explanation;
        confidence_level := _calculate_confidence overall_score |}.

(** The scoring loop of [match_resume_to_jobs]: a job whose
    [_calculate_match] raises is passed over ([except Exception: continue]). *)
Fixpoint score_all (E : Env) (self : t) (resume : Resume)
    (resume_embedding : option (list Q))
    (pairs : list (Job * option (list Q))) (matches : list MatchResult)
  : result (list MatchResult) :=
  match pairs with
  | [] => Ok matches
  | (job, job_embedding) :: pairs' =>
      matches ←
        try_except
          (match_result ←
             _calculate_match E self resume resume_embedding job job_embedding;
           Ok (matches ++ [match_result]))
          (fun e => Ok matches);
      score_all E self resume resume_embedding pairs' matches
  end.

(** [top_k or self.config.top_k]. *)
Definition top_k_or (top_k : option Z) (dflt : Z) : Z :=
  match top_k with
  | None => dflt
  | Some k => if (k =? 0)%Z then dflt else k
  end.

Definition match_resume_to_jobs (E : Env) (self : t) (resume : Resume)
    (jobs : list Job) (top_k : option Z) : result (list MatchResult) :=
  match jobs with
  | [] => Ok []
  | _ =>
      let top_k := top_k_or top_k (MatchingConfig.top_k (config self)) in
      resume_embedding ← _generate_resume_embedding E self resume;
      job_embeddings ← mapM (_generate_job_embedding E self) jobs;
      matches ←
        score_all E self resume resume_embedding
          (combine jobs job_embeddings) [];
      let ranked_matches :=
        RankingAlgorithm.rank_matches (ranker self) matches
          (Some (MatchingConfig.weights (config self))) in
      let filtered_matches :=
        List.filter
          (fun m =>
             Qle_bool (MatchingConfig.similarity_threshold (config self) * 100)
                      (overall_score m))
          ranked_matches in
      Ok (slice_to top_k filtered_matches)
  end.

(** The loop of [find_similar_jobs]: the target itself is passed over, every
    other job of the pool is embedded and compared with the target.  Nothing
    is caught here. *)
Fixpoint similarities_loop (E : Env) (self : t) (target_job : Job)
    (target_embedding : option (list Q)) (job_pool : list Job)
    (similarities : list (Job * Q)) : result (list (Job * Q)) :=
  match job_pool with
  | [] => Ok similarities
  | job :: job_pool' =>
      if String.eqb (job_id job) (job_id target_job)
      then similarities_loop E self target_job target_embedding job_pool'
             similarities
      else
        job_embedding ← _generate_job_embedding E self job;
        similarity ←
          SimilarityScorer.cosine_similarity E target_embedding job_embedding;
        similarities_loop E self target_job target_embedding job_pool'
          (similarities ++ [(job, similarity)])
  end.

Definition find_similar_jobs (E : Env) (self : t) (target_job : Job)
    (job_pool : list Job) (top_k : Z) : result (list (Job * Q)) :=
  target_embedding ← _generate_job_embedding E self target_job;
  similarities ←
    similarities_loop E self target_job target_embedding job_pool [];
  let similarities := sorted_reverse snd similarities in
  Ok (slice_to top_k similarities).

End JobMatcher.

(** ** Methods of the data classes *)

(** [MatchResult.is_strong_match(threshold)]; the default threshold is 75. *)
Definition is_strong_match (self : MatchResult) (threshold : Q) : bool :=
  Qle_bool threshold (overall_score self).

(** [MatchResult.is_good_match(threshold)]; the default threshold is 60. *)
Definition is_good_match (self : MatchResult) (threshold : Q) : bool :=
  Qle_bool threshold (overall_score self).

(** [MatchResult.get_skills_gap]. *)
Definition get_skills_gap (self : MatchResult) : nat :=
  List.length (missing_skills self).

(** [MatchResult.get_skills_match_ratio]. *)
Definition get_skills_match_ratio (self : MatchResult) : Q :=
  let total :=
    (List.length (matched_skills self) + List.length (missing_skills self))%nat in
  if (total =? 0)%nat then 0
  else inject_Z (Z.of_nat (List.length (matched_skills self))) /
       inject_Z (Z.of_nat total).

(** [Job.has_skill]. *)
Definition has_skill (self : Job) (skill : string) : bool :=
  let skill_lower := lower skill in
  existsb (fun s => str_in skill_lower (lower s)) (required_skills self).

(** The [degree_hierarchy] dictionary of [Resume.get_highest_degree], in its
    [items()] order. *)
Definition degree_hierarchy : list (string * Z) :=
  [("phd", 5%Z); ("doctorate", 5%Z); ("doctoral", 5%Z);
   ("master", 4%Z); ("masters", 4%Z); ("mba", 4%Z); ("ms", 4%Z); ("ma", 4%Z);
   ("bachelor", 3%Z); ("bachelors", 3%Z); ("bs", 3%Z); ("ba", 3%Z);
   ("associate", 2%Z);
   ("diploma", 1%Z); ("certificate", 1%Z)].

(** The inner loop of [get_highest_degree] on one education entry. *)
Definition highest_step (highest : string * Z) (edu : gmap string string)
  : string * Z :=
  let degree := lower (dict_get edu "degree") in
  fold_left
    (fun highest '(key, level) =>
       if (str_in key degree && (snd highest <? level)%Z)%bool
       then (dict_get edu "degree", level)
       else highest)
    degree_hierarchy highest.

(** [Resume.get_highest_degree]. *)
Definition get_highest_degree (self : Resume) : string :=
  match education self with
  | [] => ""
  | _ => fst (fold_left highest_step (education self) ("", 0%Z))
  end.

(** ** Reference definitions

    The quantities the specification names, written from its wording, to
    compare the code against. *)

(** The weighted linear combination of the four sub-scores of a match. *)
Definition weighted_sum (m : MatchResult) (w : RankingWeights) : Q :=
  skills_match_score m * w_skills w +
  experience_match_score m * w_experience w +
  education_match_score m * w_education w +
  semantic_similarity_score m * w_semantic w.

(** [x] brought into the interval from [lo] to [hi]. *)
Definition clamp (lo hi x : Q) : Q := Qmax lo (Qmin hi x).

(** A required skill has an exact match when it equals, ignoring case, a
    candidate skill: it belongs to the lower-cased candidate set [S]. *)
Definition exact_match (S : gset string) (r : string) : Prop := r ∈ S.

(** A required skill has a partial match when it has no exact match and is a
    substring of, or has as a substring, some candidate skill. *)
Definition partial_match (S : gset string) (r : string) : Prop :=
  (r ∉ S) ∧ set_Exists (fun s => str_in r s = true ∨ str_in s r = true) S.

#[global] Instance exact_match_dec S r : Decision (exact_match S r).
Proof. unfold exact_match. apply _. Defined.

#[global] Instance partial_match_dec S r : Decision (partial_match S r).
Proof. unfold partial_match. apply _. Defined.

Definition exact_count (S R : gset string) : nat :=
  size (filter (exact_match S) R).

Definition partial_count (S R : gset string) : nat :=
  size (filter (partial_match S) R).

(** The skills sub-score of candidate set [S] against required set [R], both
    lower-cased. *)
Definition skills_score_spec (S R : gset string) : Q :=
  if decide (R = ∅) then 1
  else
    Qmin 1 ((inject_Z (Z.of_nat (exact_count S R)) +
             0.5 * inject_Z (Z.of_nat (partial_count S R))) /
            inject_Z (Z.of_nat (size R))).

(** The experience step function, on the candidate's and the required number
    of years. *)
Definition experience_score_spec (candidate_years : Q) (required_years : option Q)
  : Q :=
  match required_years with
  | None => 1
  | Some required =>
      if Qle_bool required candidate_years then 1
      else if Qle_bool (0.7 * required) candidate_years then 0.8
      else if Qle_bool (0.5 * required) candidate_years then 0.6
      else 0.4
  end.

(** A match with its overall score recomputed under the weights [w], as the
    ranking does to every match before sorting. *)
Definition rescore (w : RankingWeights) (m : MatchResult) : MatchResult :=
  set_overall_score m (RankingAlgorithm._calculate_weighted_score m w).

(** Ties on the overall score are broken by the skills sub-score: of two
    results with equal overall score, one with a strictly higher skills
    sub-score never comes second. *)
Definition ties_broken_by_skills (out : list MatchResult) : Prop :=
  forall (i j : nat) (a b : MatchResult),
    (i < j)%nat -> nth_error out i = Some a -> nth_error out j = Some b ->
    overall_score a == overall_score b ->
    skills_match_score b <= skills_match_score a.

(** The jobs of a pool whose scoring raises: the ones the scoring loop passes
    over. *)
Definition skipped_jobs (E : Env) (self : JobMatcher.t) (resume : Resume)
    (resume_embedding : option (list Q))
    (pairs : list (Job * option (list Q))) : list Job :=
  omap (fun '(job, job_embedding) =>
          match JobMatcher._calculate_match E self resume resume_embedding
                  job job_embedding with
          | Ok _ => None
          | Raise _ => Some job
          end) pairs.

(** The matches of the jobs whose scoring succeeds, in the order of the
    pool. *)
Definition scored_jobs (E : Env) (self : JobMatcher.t) (resume : Resume)
    (resume_embedding : option (list Q))
    (pairs : list (Job * option (list Q))) : list MatchResult :=
  omap (fun '(job, job_embedding) =>
          match JobMatcher._calculate_match E self resume resume_embedding
                  job job_embedding with
          | Ok m => Some m
          | Raise _ => None
          end) pairs.

(** The sort key [rank_by_component] uses for a component name. *)
Definition component_of (component : string) : MatchResult -> Q :=
  if String.eqb component "skills" then skills_match_score
  else if String.eqb component "experience" then experience_match_score
  else if String.eqb component "education" then education_match_score
  else if String.eqb component "semantic" then semantic_similarity_score
  else overall_score.

(** The posting [j] with its [remote] flag set to [b]. *)
Definition with_remote (j : Job) (b : bool) : Job :=
  {| job_id := job_id j; title := title j; company := company j;
     remote := b;
     description := description j; requirements := requirements j;
     experience_required := experience_required j;
     education_required := education_required j;
     required_skills := required_skills j |}.

(** No character of [s] is a decimal digit. *)
Fixpoint no_digit (s : string) : bool :=
  match s with
  | EmptyString => true
  | String c s' => (negb (is_digit c) && no_digit s')%bool
  end.

(** Every character of [s] is a decimal digit. *)
Fixpoint all_digits (s : string) : bool :=
  match s with
  | EmptyString => true
  | String c s' => (is_digit c && all_digits s')%bool
  end.

(** The first character of [s], if any, is not a digit. *)
Definition starts_without_digit (s : string) : Prop :=
  match s with
  | EmptyString => True
  | String c _ => is_digit c = false
  end.

(** The highest level among the keys of [degree_levels] that occur in
    [degree], or [acc] if that is higher. *)
Definition degree_level_in (degree : string) (acc : Z) : Z :=
  fold_left
    (fun resume_level '(key, level) =>
       if str_in key degree then Z.max resume_level level else resume_level)
    JobMatcher.degree_levels acc.

(** The level of a list of education entries: the highest level any of
    their degrees reaches, 0 when none names a known degree. *)
Definition resume_level_of (edus : list (gmap string string)) : Z :=
  fold_left
    (fun resume_level edu =>
       degree_level_in (lower (dict_get edu "degree")) resume_level)
    edus 0%Z.

(** The level a requirement text asks for: that of the first key of
    [degree_levels] occurring in it, 0 when there is none. *)
Definition required_level_of (text : string) : Z :=
  match List.find (fun '(key, level) => str_in key (lower text))
          JobMatcher.degree_levels with
  | Some (_, level) => level
  | None => 0%Z
  end.

(** ** Concrete scenarios *)

Module Scenario.

(** A norm oracle: the square root of the sum of squares, exact whenever
    that sum is the square of a rational, as it is for every vector used
    below. *)
Definition sqrt_exact (x : Q) : Q :=
  let r := Qred x in Z.sqrt (Qnum r) # Pos.sqrt (Qden r).

Definition norm (v : list Q) : Q :=
  sqrt_exact (fold_left (fun acc x => acc + x * x) v 0).

(** The embedding service is down: every call raises. *)
Definition env_down : Env :=
  {| openai_embeddings_create := fun _ _ => Raise (APIError "unavailable");
     np_linalg_norm := norm |}.

(** The embedding service answers with two-dimensional vectors, except for
    the posting titled ["Bad"], which gets a three-dimensional one. *)
Definition env_mixed : Env :=
  {| openai_embeddings_create := fun _ input =>
       if String.prefix "Title: Bad" input then Ok [1; 0; 0] else Ok [1; 0];
     np_linalg_norm := norm |}.

Definition mk_job (id : string) (skills : list string)
    (experience_required education_required : string) : Job :=
  {| job_id := id; title := id; company := "ACME"; remote := false;
     description := ""; requirements := "";
     experience_required := experience_required;
     education_required := education_required;
     required_skills := skills |}.

(** A candidate with one skill, two positions and a bachelor's degree. *)
Definition resume0 : Resume :=
  {| resume_id := "r0"; summary := "";
     experience := [∅; ∅];
     education := [{["degree" := "Bachelor of Science"]}];
     skills := ["Python"] |}.

Definition job90 : Job := mk_job "J90" ["Python"] "" "".
Definition job73 : Job := mk_job "J73" ["python"] "8 years" "PhD".
Definition job40 : Job := mk_job "J40" ["Rust"] "" "".
Definition job_good : Job := mk_job "Good" ["Python"] "" "".
Definition job_bad : Job := mk_job "Bad" ["Python"] "" "".
Definition job5 : Job := mk_job "J5" [] "5 years" "".

Definition weights_of (skills experience education semantic : Q)
  : gmap string Q :=
  <["skills" := skills]> (<["experience" := experience]>
    (<["education" := education]> (<["semantic" := semantic]> ∅))).

(** The weights of the specification's scenario; they sum to 1. *)
Definition weights73 : gmap string Q := weights_of 0.5 0.3 0.1 0.1.

(** Weights summing to 0.95. *)
Definition weights095 : gmap string Q := weights_of 0.45 0.3 0.1 0.1.

(** Weights with a negative entry. *)
Definition weights_neg : gmap string Q := weights_of 1.5 (-0.5) 0 0.

Definition matcher (similarity_threshold : Q) (top_k : Z)
    (weights : gmap string Q) : JobMatcher.t :=
  JobMatcher.__init__
    (Some (MatchingConfig.__post_init__ similarity_threshold top_k
             (Some weights))).

(** A bare match with the given identifier and sub-scores. *)
Definition mk_match (id : string) (skills experience education semantic : Q)
  : MatchResult :=
  {| mr_resume_id := "r0"; job := Some (mk_job id [] "" "");
     overall_score := 0;
     skills_match_score := skills;
     experience_match_score := experience;
     education_match_score := education;
     semantic_similarity_score := semantic;
     location_match_score := 80;
     matched_skills := []; missing_skills := [];
     explanation := ""; confidence_level := "Medium" |}.

(** The identifier of the job of a match. *)
Definition id_of (m : MatchResult) : string :=
  match job m with
  | Some j => job_id j
  | None => ""
  end.

(** What a call returned, reduced to the job identifier and the overall
    score (in lowest terms) of each result. *)
Definition report (r : result (list MatchResult)) : result (list (string * Q)) :=
  match r with
  | Ok out => Ok (map (fun m => (id_of m, Qred (overall_score m))) out)
  | Raise e => Raise e
  end.

End Scenario.

(** * Properties *)

(** ** Arithmetic of the builtins *)

Lemma Qltb_true (a b : Q) : Qltb a b = true <-> a < b.
Proof.
  unfold Qltb. rewrite negb_true_iff.
  destruct (Qle_bool b a) eqn:Hle.
  - apply Qle_bool_iff in Hle. split; [discriminate | intros Hlt].
    exfalso. exact (Qlt_not_le _ _ Hlt Hle).
  - split; [intros _ | reflexivity].
    apply Qnot_le_lt. intros Hle'. apply Qle_bool_iff in Hle'. congruence.
Qed.

Lemma Qltb_false (a b : Q) : Qltb a b = false <-> b <= a.
Proof.
  unfold Qltb. rewrite negb_false_iff. apply Qle_bool_iff.
Qed.

Lemma Qle_bool_false (a b : Q) : Qle_bool a b = false <-> b < a.
Proof.
  rewrite <- Qltb_true. unfold Qltb. rewrite negb_true_iff. reflexivity.
Qed.

Lemma py_min_Qmin (a b : Q) : py_min a b == Qmin a b.
Proof.
  unfold py_min. destruct (Qltb b a) eqn:H.
  - apply Qltb_true in H. symmetry. apply Q.min_r. apply Qlt_le_weak, H.
  - apply Qltb_false in H. symmetry. apply Q.min_l, H.
Qed.

Lemma py_max_Qmax (a b : Q) : py_max a b == Qmax a b.
Proof.
  unfold py_max. destruct (Qltb a b) eqn:H.
  - apply Qltb_true in H. symmetry. apply Q.max_r. apply Qlt_le_weak, H.
  - apply Qltb_false in H. symmetry. apply Q.max_l, H.
Qed.

#[global] Instance clamp_proper : Proper (Qeq ==> Qeq ==> Qeq ==> Qeq) clamp.
Proof.
  intros lo lo' Hlo hi hi' Hhi x x' Hx. unfold clamp.
  rewrite Hlo, Hhi, Hx. reflexivity.
Qed.

Lemma py_clamp (lo hi x : Q) : py_max lo (py_min hi x) == clamp lo hi x.
Proof.
  unfold clamp. rewrite py_max_Qmax. rewrite py_min_Qmin. reflexivity.
Qed.

Lemma clamp_bounds (lo hi x : Q) : lo <= hi -> lo <= clamp lo hi x <= hi.
Proof.
  intros Hlh. unfold clamp. split.
  - apply Q.le_max_l.
  - apply Q.max_lub; [exact Hlh | apply Q.le_min_l].
Qed.

Lemma py_clamp_bounds (lo hi x : Q) :
  lo <= hi -> lo <= py_max lo (py_min hi x) <= hi.
Proof.
  intros Hlh. rewrite py_clamp. apply clamp_bounds, Hlh.
Qed.

(** ** The stable descending sort *)

Section SortedFacts.
Context {A : Type} (key : A -> Q).

Lemma insert_desc_perm (x : A) (l : list A) :
  Permutation (insert_desc key x l) (x :: l).
Proof.
  induction l as [|y l IH]; simpl.
  - reflexivity.
  - destruct (Qle_bool (key y) (key x)).
    + reflexivity.
    + rewrite IH. apply perm_swap.
Qed.

Lemma sorted_reverse_perm (l : list A) :
  Permutation (sorted_reverse key l) l.
Proof.
  induction l as [|x l IH]; simpl.
  - reflexivity.
  - rewrite insert_desc_perm. apply perm_skip, IH.
Qed.

Lemma insert_desc_sorted (x : A) (l : list A) :
  StronglySorted (desc key) l -> StronglySorted (desc key) (insert_desc key x l).
Proof.
  induction 1 as [|y l Hs IH Hall]; simpl.
  - constructor; constructor.
  - destruct (Qle_bool (key y) (key x)) eqn:Hle.
    + apply Qle_bool_iff in Hle.
      constructor; [constructor; assumption |].
      constructor; [exact Hle |].
      eapply Forall_impl; [exact Hall |].
      intros z Hz. unfold desc in *. eapply Qle_trans; eassumption.
    + apply Qle_bool_false in Hle.
      constructor; [exact IH |].
      eapply Permutation_Forall.
      * symmetry. apply insert_desc_perm.
      * constructor; [apply Qlt_le_weak, Hle | exact Hall].
Qed.

Lemma sorted_reverse_sorted (l : list A) :
  StronglySorted (desc key) (sorted_reverse key l).
Proof.
  induction l as [|x l IH]; simpl.
  - constructor.
  - apply insert_desc_sorted, IH.
Qed.

(** Stability: among the elements of any one key, insertion and sorting
    keep the order of the input. *)
Lemma insert_desc_stable (q : Q) (x : A) (l : list A) :
  List.filter (fun m => Qeq_bool (key m) q) (insert_desc key x l) =
  List.filter (fun m => Qeq_bool (key m) q) (x :: l).
Proof.
  induction l as [|y l IH]; simpl.
  - reflexivity.
  - destruct (Qle_bool (key y) (key x)) eqn:Hle; [reflexivity |].
    apply Qle_bool_false in Hle. simpl in *. rewrite IH.
    destruct (Qeq_bool (key x) q) eqn:Hx; [| reflexivity].
    destruct (Qeq_bool (key y) q) eqn:Hy; [| reflexivity].
    apply Qeq_bool_iff in Hx, Hy. exfalso.
    rewrite Hx, Hy in Hle. exact (Qlt_irrefl _ Hle).
Qed.

Lemma sorted_reverse_stable (q : Q) (l : list A) :
  List.filter (fun m => Qeq_bool (key m) q) (sorted_reverse key l) =
  List.filter (fun m => Qeq_bool (key m) q) l.
Proof.
  induction l as [|x l IH]; simpl.
  - reflexivity.
  - rewrite insert_desc_stable. simpl. rewrite IH. reflexivity.
Qed.
End SortedFacts.

(** ** The ranking algorithm *)

Lemma weighted_score_clamp (m : MatchResult) (w : RankingWeights) :
  RankingAlgorithm._calculate_weighted_score m w == clamp 0 100 (weighted_sum m w).
Proof.
  unfold RankingAlgorithm._calculate_weighted_score. apply py_clamp.
Qed.

Lemma weighted_score_bounds (m : MatchResult) (w : RankingWeights) :
  0 <= RankingAlgorithm._calculate_weighted_score m w <= 100.
Proof.
  unfold RankingAlgorithm._calculate_weighted_score.
  apply py_clamp_bounds. discriminate.
Qed.

Lemma rank_matches_unfold (self : RankingAlgorithm.t) (ms : list MatchResult)
    (cw : option (gmap string Q)) :
  RankingAlgorithm.rank_matches self ms cw =
  sorted_reverse overall_score
    (map (rescore (RankingAlgorithm._get_weights self cw)) ms).
Proof.
  destruct ms; reflexivity.
Qed.

Lemma rank_matches_perm (self : RankingAlgorithm.t) (ms : list MatchResult)
    (cw : option (gmap string Q)) :
  Permutation (RankingAlgorithm.rank_matches self ms cw)
    (map (rescore (RankingAlgorithm._get_weights self cw)) ms).
Proof.
  rewrite rank_matches_unfold. apply sorted_reverse_perm.
Qed.

Lemma rank_matches_In (self : RankingAlgorithm.t) (ms : list MatchResult)
    (cw : option (gmap string Q)) (r : MatchResult) :
  In r (RankingAlgorithm.rank_matches self ms cw) <->
  exists m, In m ms /\ r = rescore (RankingAlgorithm._get_weights self cw) m.
Proof.
  split.
  - intros Hin.
    apply (Permutation_in _ (rank_matches_perm self ms cw)) in Hin.
    apply in_map_iff in Hin. destruct Hin as (m & Hr & Hm). eauto.
  - intros (m & Hm & ->).
    apply (Permutation_in _ (Permutation_sym (rank_matches_perm self ms cw))).
    apply in_map, Hm.
Qed.

(** C2, as the code has it.  The output of the ranking is sorted
    non-increasing by overall score, it is a rearrangement of the rescored
    input, and results of equal overall score keep the order they had in the
    input: the sort is stable and looks at no other field. *)
Theorem C2_rank_sorted_and_stable (self : RankingAlgorithm.t)
    (ms : list MatchResult) (cw : option (gmap string Q)) :
  let out := RankingAlgorithm.rank_matches self ms cw in
  let scored := map (rescore (RankingAlgorithm._get_weights self cw)) ms in
  StronglySorted (fun a b => overall_score b <= overall_score a) out /\
  Permutation out scored /\
  forall q : Q,
    List.filter (fun m => Qeq_bool (overall_score m) q) out =
    List.filter (fun m => Qeq_bool (overall_score m) q) scored.
Proof.
  simpl. rewrite rank_matches_unfold. split; [| split].
  - apply (sorted_reverse_sorted overall_score).
  - apply sorted_reverse_perm.
  - intros q. apply sorted_reverse_stable.
Qed.

(** C2, as stated, fails.  Two matches reach the same overall score 39 under
    the default weights; the one with the lower skills sub-score comes first
    in the input and stays first in the output.  Two matches equal in both
    scores stay in input order, whatever their job identifiers. *)
Lemma C2_ties_not_broken_by_skills :
  let out :=
    RankingAlgorithm.rank_matches RankingAlgorithm.__init__
      [Scenario.mk_match "A" 40 100 0 0; Scenario.mk_match "B" 60 72 0 0] None in
  map Scenario.id_of out = ["A"; "B"] /\
  Forall (fun m => overall_score m == 39) out /\
  map skills_match_score out = [40; 60] /\
  ~ ties_broken_by_skills out /\
  map Scenario.id_of
    (RankingAlgorithm.rank_matches RankingAlgorithm.__init__
       [Scenario.mk_match "Z" 40 100 0 0; Scenario.mk_match "A" 40 100 0 0]
       None) = ["Z"; "A"].
Proof.
  simpl. split; [reflexivity |]. split.
  - repeat constructor.
  - split; [reflexivity |]. split; [| reflexivity].
    intros H.
    specialize (H 0%nat 1%nat _ _ (Nat.lt_0_succ 0) eq_refl eq_refl).
    simpl in H. assert (Hle : 60 <= 40) by (apply H; reflexivity).
    revert Hle. apply Qlt_not_le. reflexivity.
Qed.

(** ** Cosine similarity *)

Lemma np_dot_same_length (v1 v2 : list Q) :
  List.length v1 = List.length v2 ->
  exists d, SimilarityScorer.np_dot v1 v2 = Ok d.
Proof.
  intros Hlen. unfold SimilarityScorer.np_dot.
  rewrite Hlen, Nat.eqb_refl. eauto.
Qed.

Lemma np_dot_Ok_length (v1 v2 : list Q) (d : Q) :
  SimilarityScorer.np_dot v1 v2 = Ok d -> List.length v1 = List.length v2.
Proof.
  unfold SimilarityScorer.np_dot.
  destruct (List.length v1 =? List.length v2)%nat eqn:Hlen; [| discriminate].
  intros _. apply Nat.eqb_eq, Hlen.
Qed.

(** What a successful call computed. *)
Lemma cosine_similarity_Ok_inv (E : Env) (a b : option (list Q)) (s : Q) :
  SimilarityScorer.cosine_similarity E a b = Ok s ->
  exists v1 v2 d,
    a = Some v1 /\ b = Some v2 /\ SimilarityScorer.np_dot v1 v2 = Ok d /\
    ((np_linalg_norm E v1 == 0 \/ np_linalg_norm E v2 == 0) /\ s = 0 \/
     ~ np_linalg_norm E v1 == 0 /\ ~ np_linalg_norm E v2 == 0 /\
     s = py_max 0 (py_min 1 (d / (np_linalg_norm E v1 * np_linalg_norm E v2)))).
Proof.
  unfold SimilarityScorer.cosine_similarity.
  destruct a as [v1|]; [| discriminate]. destruct b as [v2|]; [| discriminate].
  destruct (SimilarityScorer.np_dot v1 v2) as [d|e] eqn:Hdot; [| discriminate].
  simpl. intros H. exists v1, v2, d.
  split; [reflexivity |]. split; [reflexivity |]. split; [exact Hdot |].
  destruct (Qeq_bool (np_linalg_norm E v1) 0) eqn:H1; simpl in H.
  - left. apply Qeq_bool_iff in H1. split; [tauto | congruence].
  - destruct (Qeq_bool (np_linalg_norm E v2) 0) eqn:H2.
    + left. apply Qeq_bool_iff in H2. split; [tauto | congruence].
    + right. apply Qeq_bool_neq in H1. apply Qeq_bool_neq in H2.
      repeat split; [assumption | assumption | congruence].
Qed.

Lemma cosine_similarity_Ok_bounds (E : Env) (a b : option (list Q)) (s : Q) :
  SimilarityScorer.cosine_similarity E a b = Ok s -> 0 <= s <= 1.
Proof.
  intros H. apply cosine_similarity_Ok_inv in H.
  destruct H as (v1 & v2 & d & _ & _ & _ & [[_ ->] | (_ & _ & ->)]).
  - split; discriminate.
  - apply py_clamp_bounds. discriminate.
Qed.

(** What a successful [_calculate_match] computed. *)
Lemma _calculate_match_Ok_inv (E : Env) (self : JobMatcher.t) (resume : Resume)
    (remb : option (list Q)) (j : Job) (jemb : option (list Q))
    (m : MatchResult) :
  JobMatcher._calculate_match E self resume remb j jemb = Ok m ->
  exists sem wse wsk wex wed,
    SimilarityScorer.cosine_similarity E remb jemb = Ok sem /\
    MatchingConfig.weights (JobMatcher.config self) !! "semantic" = Some wse /\
    MatchingConfig.weights (JobMatcher.config self) !! "skills" = Some wsk /\
    MatchingConfig.weights (JobMatcher.config self) !! "experience" = Some wex /\
    MatchingConfig.weights (JobMatcher.config self) !! "education" = Some wed /\
    job m = Some j /\
    semantic_similarity_score m = sem * 100 /\
    skills_match_score m =
      JobMatcher._calculate_skills_match (skills resume) (required_skills j) * 100 /\
    experience_match_score m =
      JobMatcher._calculate_experience_match resume j * 100 /\
    education_match_score m =
      JobMatcher._calculate_education_match resume j * 100 /\
    matched_skills m =
      JobMatcher._get_matched_skills (skills resume) (required_skills j) /\
    missing_skills m =
      JobMatcher._identify_missing_skills (skills resume) (required_skills j) /\
    overall_score m =
      (sem * wse +
       JobMatcher._calculate_skills_match (skills resume) (required_skills j) * wsk +
       JobMatcher._calculate_experience_match resume j * wex +
       JobMatcher._calculate_education_match resume j * wed) * 100.
Proof.
  unfold JobMatcher._calculate_match, weights_index.
  destruct (SimilarityScorer.cosine_similarity E remb jemb) as [sem|] eqn:Hcos;
    [| discriminate].
  simpl.
  destruct (MatchingConfig.weights (JobMatcher.config self) !! "semantic")
    as [wse|]; [| discriminate]. simpl.
  destruct (MatchingConfig.weights (JobMatcher.config self) !! "skills")
    as [wsk|]; [| discriminate]. simpl.
  destruct (MatchingConfig.weights (JobMatcher.config self) !! "experience")
    as [wex|]; [| discriminate]. simpl.
  destruct (MatchingConfig.weights (JobMatcher.config self) !! "education")
    as [wed|]; [| discriminate]. simpl.
  intros H. injection H as <-.
  exists sem, wse, wsk, wex, wed. repeat (split; [reflexivity |]). reflexivity.
Qed.

(** C10.  On two vectors of equal dimension [cosine_similarity] returns, and
    its result lies between 0 and 1.  It is exactly 0 as soon as either norm
    is 0, so the division only happens with a non-zero denominator; otherwise
    it is the quotient clamped to the interval from 0 to 1, hence 0 for a
    negative cosine.  The semantic sub-score that [_calculate_match] derives
    from it lies between 0 and 100. *)
Theorem C10_cosine_similarity_guarded_and_bounded :
  (forall (E : Env) (v1 v2 : list Q),
     List.length v1 = List.length v2 ->
     exists s d,
       SimilarityScorer.np_dot v1 v2 = Ok d /\
       SimilarityScorer.cosine_similarity E (Some v1) (Some v2) = Ok s /\
       0 <= s <= 1 /\
       (np_linalg_norm E v1 == 0 \/ np_linalg_norm E v2 == 0 -> s = 0) /\
       (~ np_linalg_norm E v1 == 0 -> ~ np_linalg_norm E v2 == 0 ->
        ~ np_linalg_norm E v1 * np_linalg_norm E v2 == 0 /\
        s == clamp 0 1 (d / (np_linalg_norm E v1 * np_linalg_norm E v2))) /\
       (d / (np_linalg_norm E v1 * np_linalg_norm E v2) < 0 -> s == 0)) /\
  (forall (E : Env) (self : JobMatcher.t) (resume : Resume)
          (remb : option (list Q)) (j : Job) (jemb : option (list Q))
          (m : MatchResult),
     JobMatcher._calculate_match E self resume remb j jemb = Ok m ->
     0 <= semantic_similarity_score m <= 100).
Proof.
  split.
  - intros E v1 v2 Hlen.
    destruct (np_dot_same_length v1 v2 Hlen) as [d Hd].
    set (n1 := np_linalg_norm E v1). set (n2 := np_linalg_norm E v2).
    assert (Hcos : exists s,
               SimilarityScorer.cosine_similarity E (Some v1) (Some v2) = Ok s).
    { unfold SimilarityScorer.cosine_similarity. rewrite Hd. simpl.
      destruct (_ || _)%bool; eauto. }
    destruct Hcos as [s Hs]. exists s, d.
    split; [exact Hd |]. split; [exact Hs |].
    split; [eapply cosine_similarity_Ok_bounds, Hs |].
    apply cosine_similarity_Ok_inv in Hs.
    destruct Hs as (v1' & v2' & d' & [= <-] & [= <-] & Hd' & Hcase).
    rewrite Hd in Hd'. injection Hd' as <-. fold n1 n2 in Hcase.
    destruct Hcase as [[Hz ->] | (Hn1 & Hn2 & ->)].
    + split; [reflexivity |]. split.
      * intros H1 H2. tauto.
      * reflexivity.
    + split; [tauto |]. split.
      * intros _ _. split; [| apply py_clamp].
        intros Hprod. apply Qmult_integral in Hprod. tauto.
      * intros Hneg. rewrite py_clamp. unfold clamp.
        rewrite Q.min_r by (apply Qlt_le_weak; eapply Qlt_trans;
                            [exact Hneg | reflexivity]).
        apply Q.max_l. apply Qlt_le_weak, Hneg.
  - intros E self resume remb j jemb m Hm.
    apply _calculate_match_Ok_inv in Hm.
    destruct Hm as (sem & wse & wsk & wex & wed & Hcos & _ & _ & _ & _ & _ &
                    -> & _).
    apply cosine_similarity_Ok_bounds in Hcos. destruct Hcos as [H0 H1].
    split; lra.
Qed.

Lemma C10_cosine_similarity_guarded_and_bounded_witness :
  exists s d,
    SimilarityScorer.np_dot [1; 0] [0; 0] = Ok d /\
    SimilarityScorer.cosine_similarity Scenario.env_down
      (Some [1; 0]) (Some [0; 0]) = Ok s /\
    0 <= s <= 1 /\ s = 0.
Proof.
  destruct C10_cosine_similarity_guarded_and_bounded as [H _].
  destruct (H Scenario.env_down [1; 0] [0; 0] eq_refl)
    as (s & d & Hd & Hs & Hb & Hz & _).
  exists s, d. repeat (split; [assumption |]).
  apply Hz. right. reflexivity.
Defined.

(** ** Experience *)

(** The requirement as the step function reads it: absent when the posting
    has no requirement text, otherwise the parsed number of years. *)
Lemma experience_match_step (resume : Resume) (j : Job) :
  JobMatcher._calculate_experience_match resume j ==
  experience_score_spec
    (inject_Z (Z.of_nat (List.length (experience resume))) * 2)
    (if str_truthy (experience_required j)
     then Some (inject_Z (JobMatcher._parse_experience_years
                            (experience_required j)))
     else None).
Proof.
  unfold JobMatcher._calculate_experience_match, experience_score_spec.
  destruct (str_truthy (experience_required j)); simpl; [| reflexivity].
  set (n := Z.of_nat (List.length (experience resume))).
  set (r := JobMatcher._parse_experience_years (experience_required j)).
  assert (Hn : inject_Z (n * 2) == inject_Z n * 2).
  { rewrite inject_Z_mult. reflexivity. }
  destruct (r <=? n * 2)%Z eqn:H1.
  - apply Z.leb_le in H1. rewrite Zle_Qle, Hn in H1.
    apply Qle_bool_iff in H1. rewrite H1. reflexivity.
  - apply Z.leb_gt in H1. rewrite Zlt_Qlt, Hn in H1.
    apply Qle_bool_false in H1. rewrite H1.
    destruct (Qle_bool (inject_Z r * 0.7) (inject_Z (n * 2))) eqn:H2.
    + apply Qle_bool_iff in H2. rewrite Hn in H2.
      assert (H2' : Qle_bool (0.7 * inject_Z r) (inject_Z n * 2) = true)
        by (apply Qle_bool_iff; lra).
      rewrite H2'. reflexivity.
    + apply Qle_bool_false in H2. rewrite Hn in H2.
      assert (H2' : Qle_bool (0.7 * inject_Z r) (inject_Z n * 2) = false)
        by (apply Qle_bool_false; lra).
      rewrite H2'.
      destruct (Qle_bool (inject_Z r * 0.5) (inject_Z (n * 2))) eqn:H3.
      * apply Qle_bool_iff in H3. rewrite Hn in H3.
        assert (H3' : Qle_bool (0.5 * inject_Z r) (inject_Z n * 2) = true)
          by (apply Qle_bool_iff; lra).
        rewrite H3'. reflexivity.
      * apply Qle_bool_false in H3. rewrite Hn in H3.
        assert (H3' : Qle_bool (0.5 * inject_Z r) (inject_Z n * 2) = false)
          by (apply Qle_bool_false; lra).
        rewrite H3'. reflexivity.
Qed.

(** C7.  The experience sub-score is the step function of the specification,
    and it is 1 without a requirement, but the years fed to it are two per
    experience entry, not two and a half: a candidate with two entries is
    credited 4 years against a requirement of 5 and scores 0.8, where
    [Resume.get_total_experience_years] credits 5 years, for which the step
    function gives 1. *)
Theorem C7_experience_counts_two_years_per_entry :
  (forall (resume : Resume) (j : Job),
     JobMatcher._calculate_experience_match resume j ==
     experience_score_spec
       (inject_Z (Z.of_nat (List.length (experience resume))) * 2)
       (if str_truthy (experience_required j)
        then Some (inject_Z (JobMatcher._parse_experience_years
                               (experience_required j)))
        else None)) /\
  List.length (experience Scenario.resume0) = 2%nat /\
  JobMatcher._parse_experience_years (experience_required Scenario.job5) = 5%Z /\
  JobMatcher._calculate_experience_match Scenario.resume0 Scenario.job5 == 0.8 /\
  get_total_experience_years Scenario.resume0 == 5 /\
  experience_score_spec (get_total_experience_years Scenario.resume0)
    (Some 5) == 1.
Proof.
  split; [exact experience_match_step |].
  repeat split; vm_compute; reflexivity.
Qed.

(** ** The embedding generator never raises *)

Lemma generate_embedding_total (E : Env) (self : EmbeddingGenerator.t)
    (text : string) :
  exists v, EmbeddingGenerator.generate_embedding E self text = Ok v.
Proof.
  unfold EmbeddingGenerator.generate_embedding.
  destruct (negb (str_truthy text) || all_space text)%bool; [eauto |].
  destruct (String.eqb (EmbeddingGenerator.provider self) "openai");
    [| simpl; eauto].
  destruct (openai_embeddings_create E (EmbeddingGenerator.model self)
              (str_take 8000 text)); simpl; eauto.
Qed.

Lemma generate_embedding_blank (E : Env) (self : EmbeddingGenerator.t)
    (text : string) :
  all_space text = true ->
  EmbeddingGenerator.generate_embedding E self text =
  Ok (Some (EmbeddingGenerator.np_zeros (EmbeddingGenerator.dimension self))).
Proof.
  intros Hb. unfold EmbeddingGenerator.generate_embedding.
  rewrite Hb, orb_true_r. reflexivity.
Qed.

Lemma all_space_truthy (text : string) :
  all_space text = false -> str_truthy text = true.
Proof. destruct text; [discriminate | reflexivity]. Qed.

Lemma generate_embedding_failure (E : Env) (self : EmbeddingGenerator.t)
    (text : string) (e : exn) :
  EmbeddingGenerator.provider self = "openai" ->
  all_space text = false ->
  openai_embeddings_create E (EmbeddingGenerator.model self)
    (str_take 8000 text) = Raise e ->
  EmbeddingGenerator.generate_embedding E self text =
  Ok (Some (EmbeddingGenerator.np_zeros (EmbeddingGenerator.dimension self))).
Proof.
  intros Hp Hb Hcall. unfold EmbeddingGenerator.generate_embedding.
  rewrite Hb, (all_space_truthy _ Hb), Hp, Hcall. reflexivity.
Qed.

Lemma generate_embedding_success (E : Env) (self : EmbeddingGenerator.t)
    (text : string) (v : list Q) :
  EmbeddingGenerator.provider self = "openai" ->
  all_space text = false ->
  openai_embeddings_create E (EmbeddingGenerator.model self)
    (str_take 8000 text) = Ok v ->
  EmbeddingGenerator.generate_embedding E self text = Ok (Some v).
Proof.
  intros Hp Hb Hcall. unfold EmbeddingGenerator.generate_embedding.
  rewrite Hb, (all_space_truthy _ Hb), Hp, Hcall. reflexivity.
Qed.

(** ** Batches *)

(** The list comprehension of [generate_batch_embeddings] never raises: it
    yields one embedding per text, each what [generate_embedding] returns. *)
Lemma generate_embeddings_pointwise (E : Env) (self : EmbeddingGenerator.t)
    (texts : list string) :
  exists vs,
    mapM (EmbeddingGenerator.generate_embedding E self) texts = Ok vs /\
    Forall2 (fun text v =>
               EmbeddingGenerator.generate_embedding E self text = Ok v)
      texts vs.
Proof.
  induction texts as [|text texts (vs & Hvs & HF)]; simpl.
  - exists []. split; [reflexivity | constructor].
  - destruct (generate_embedding_total E self text) as [v Hv].
    rewrite Hv. simpl. rewrite Hvs. simpl.
    exists (v :: vs). split; [reflexivity | constructor; assumption].
Qed.

(** A batch is [np.array] applied to the embeddings of its texts. *)
Lemma generate_batch_embeddings_np_array (E : Env)
    (self : EmbeddingGenerator.t) (texts : list string) :
  exists vs,
    Forall2 (fun text v =>
               EmbeddingGenerator.generate_embedding E self text = Ok v)
      texts vs /\
    EmbeddingGenerator.generate_batch_embeddings E self texts =
    EmbeddingGenerator.np_array vs.
Proof.
  destruct (generate_embeddings_pointwise E self texts) as (vs & Hm & HF).
  exists vs. split; [exact HF |].
  unfold EmbeddingGenerator.generate_batch_embeddings. rewrite Hm. reflexivity.
Qed.

Lemma homogeneous_same_shape (rows : list (option (list Q)))
    (shape : option nat) :
  Forall (fun row => EmbeddingGenerator.row_shape row = shape) rows ->
  EmbeddingGenerator.homogeneous rows = true.
Proof.
  intros Hall. destruct rows as [|row rows]; [reflexivity |].
  apply List.Forall_cons_iff in Hall. destruct Hall as [Hrow Hrows]. simpl.
  apply forallb_forall. intros row' Hin.
  apply bool_decide_eq_true_2.
  rewrite Hrow. exact (proj1 (List.Forall_forall _ _) Hrows row' Hin).
Qed.

Lemma homogeneous_shape (rows : list (option (list Q))) :
  EmbeddingGenerator.homogeneous rows = true ->
  exists shape,
    Forall (fun row => EmbeddingGenerator.row_shape row = shape) rows.
Proof.
  destruct rows as [|row rows]; simpl; intros Hh.
  - exists None. constructor.
  - exists (EmbeddingGenerator.row_shape row).
    constructor; [reflexivity |].
    apply List.Forall_forall. intros row' Hin.
    eapply bool_decide_eq_true_1.
    exact (proj1 (forallb_forall _ _) Hh row' Hin).
Qed.

(** With every call to the service failing, the batch is one zero vector per
    text, whatever the texts. *)
Lemma generate_batch_embeddings_down (E : Env) (self : EmbeddingGenerator.t)
    (texts : list string) :
  EmbeddingGenerator.provider self = "openai" ->
  (forall text, In text texts -> all_space text = false ->
     exists e,
       openai_embeddings_create E (EmbeddingGenerator.model self)
         (str_take 8000 text) = Raise e) ->
  EmbeddingGenerator.generate_batch_embeddings E self texts =
  Ok (map (fun _ =>
             Some (EmbeddingGenerator.np_zeros (EmbeddingGenerator.dimension self)))
        texts).
Proof.
  intros Hp Hdown.
  set (zeros := Some (EmbeddingGenerator.np_zeros
                        (EmbeddingGenerator.dimension self))).
  assert (Hm : mapM (EmbeddingGenerator.generate_embedding E self) texts =
               Ok (map (fun _ => zeros) texts)).
  { induction texts as [|text texts IH]; [reflexivity |]. simpl.
    assert (Hv : EmbeddingGenerator.generate_embedding E self text = Ok zeros).
    { destruct (all_space text) eqn:Hb.
      - apply generate_embedding_blank, Hb.
      - destruct (Hdown text (or_introl eq_refl) Hb) as [e He].
        eapply generate_embedding_failure; eassumption. }
    rewrite Hv. simpl.
    rewrite IH by (intros t Hin; apply Hdown; right; exact Hin).
    reflexivity. }
  unfold EmbeddingGenerator.generate_batch_embeddings. rewrite Hm. simpl.
  unfold EmbeddingGenerator.np_array.
  rewrite (homogeneous_same_shape _ (EmbeddingGenerator.row_shape zeros));
    [reflexivity |].
  apply List.Forall_forall. intros row Hin.
  apply in_map_iff in Hin. destruct Hin as (t & <- & _). reflexivity.
Qed.

(** A batch raises only in [np.array], on embeddings of different shapes. *)
Lemma generate_batch_embeddings_Raise (E : Env) (self : EmbeddingGenerator.t)
    (texts : list string) (e : exn) :
  EmbeddingGenerator.generate_batch_embeddings E self texts = Raise e ->
  e = ValueError "inhomogeneous shape" /\
  exists vs,
    Forall2 (fun text v =>
               EmbeddingGenerator.generate_embedding E self text = Ok v)
      texts vs /\
    EmbeddingGenerator.homogeneous vs = false.
Proof.
  destruct (generate_batch_embeddings_np_array E self texts) as (vs & HF & ->).
  unfold EmbeddingGenerator.np_array.
  destruct (EmbeddingGenerator.homogeneous vs) eqn:Hh; [discriminate |].
  intros [= <-]. split; [reflexivity |]. exists vs. split; [exact HF | exact Hh].
Qed.

(** ** The orchestrator *)

(** The embeddings of a job pool: one per job, each the embedding of its
    job. *)
Lemma job_embeddings_total (E : Env) (self : JobMatcher.t) (jobs : list Job) :
  exists jembs,
    mapM (JobMatcher._generate_job_embedding E self) jobs = Ok jembs /\
    List.length jembs = List.length jobs /\
    forall j e, In (j, e) (combine jobs jembs) ->
                JobMatcher._generate_job_embedding E self j = Ok e.
Proof.
  induction jobs as [|j jobs (jembs & Hm & Hlen & Hall)]; simpl.
  - exists []. repeat split. intros j e [].
  - destruct (generate_embedding_total E (JobMatcher.embedding_gen self)
                (JobMatcher._prepare_job_for_embedding j)) as [v Hv].
    change (JobMatcher._generate_job_embedding E self j = Ok v) in Hv.
    rewrite Hv. simpl. rewrite Hm. simpl. exists (v :: jembs).
    split; [reflexivity |]. split; [simpl; congruence |].
    intros j' e' [[= <- <-] | Hin]; [exact Hv | apply Hall, Hin].
Qed.

(** The scoring loop in closed form: it never aborts, and it appends the
    matches of the jobs whose scoring succeeds, in pool order. *)
Lemma score_all_scored_jobs (E : Env) (self : JobMatcher.t) (resume : Resume)
    (remb : option (list Q)) (pairs : list (Job * option (list Q)))
    (acc : list MatchResult) :
  JobMatcher.score_all E self resume remb pairs acc =
  Ok (acc ++ scored_jobs E self resume remb pairs).
Proof.
  revert acc. induction pairs as [|[j e] pairs IH]; intros acc; simpl.
  - rewrite app_nil_r. reflexivity.
  - destruct (JobMatcher._calculate_match E self resume remb j e) as [m|x];
      simpl; rewrite IH.
    + rewrite <- app_assoc. reflexivity.
    + reflexivity.
Qed.

Lemma scored_jobs_In (E : Env) (self : JobMatcher.t) (resume : Resume)
    (remb : option (list Q)) (pairs : list (Job * option (list Q)))
    (m : MatchResult) :
  In m (scored_jobs E self resume remb pairs) <->
  exists j e, In (j, e) pairs /\
              JobMatcher._calculate_match E self resume remb j e = Ok m.
Proof.
  induction pairs as [|[j e] pairs IH]; simpl.
  - split; [intros [] | intros (j & e & [] & _)].
  - unfold scored_jobs in *. simpl.
    destruct (JobMatcher._calculate_match E self resume remb j e) as [m'|x] eqn:Hc.
    + simpl. rewrite IH. split.
      * intros [<- | (j' & e' & Hin & Hm)]; [exists j, e | exists j', e']; tauto.
      * intros (j' & e' & [[= <- <-] | Hin] & Hm).
        -- left. congruence.
        -- right. eauto.
    + rewrite IH. split.
      * intros (j' & e' & Hin & Hm). exists j', e'. tauto.
      * intros (j' & e' & [[= <- <-] | Hin] & Hm); [congruence | eauto].
Qed.

(** [match_resume_to_jobs] in closed form: it always returns, and what it
    returns is the ranking of the successfully scored jobs, filtered by the
    threshold and cut at [top_k]. *)
Lemma match_resume_to_jobs_closed (E : Env) (self : JobMatcher.t)
    (resume : Resume) (jobs : list Job) (top_k : option Z) :
  exists remb jembs,
    JobMatcher._generate_resume_embedding E self resume = Ok remb /\
    mapM (JobMatcher._generate_job_embedding E self) jobs = Ok jembs /\
    (forall j e, In (j, e) (combine jobs jembs) ->
                 JobMatcher._generate_job_embedding E self j = Ok e) /\
    (forall j, In j jobs -> exists e, In (j, e) (combine jobs jembs)) /\
    JobMatcher.match_resume_to_jobs E self resume jobs top_k =
    Ok (slice_to
          (JobMatcher.top_k_or top_k (MatchingConfig.top_k (JobMatcher.config self)))
          (List.filter
             (fun m =>
                Qle_bool
                  (MatchingConfig.similarity_threshold (JobMatcher.config self) * 100)
                  (overall_score m))
             (RankingAlgorithm.rank_matches (JobMatcher.ranker self)
                (scored_jobs E self resume remb (combine jobs jembs))
                (Some (MatchingConfig.weights (JobMatcher.config self)))))).
Proof.
  destruct (generate_embedding_total E (JobMatcher.embedding_gen self)
              (JobMatcher._prepare_resume_for_embedding resume)) as [remb Hr].
  change (JobMatcher._generate_resume_embedding E self resume = Ok remb) in Hr.
  destruct (job_embeddings_total E self jobs) as (jembs & Hm & Hlen & Hall).
  exists remb, jembs. split; [exact Hr |]. split; [exact Hm |].
  split; [exact Hall |]. split.
  - intros j Hin. clear Hm Hall. revert jembs Hlen.
    induction jobs as [|j' jobs IH]; intros jembs Hlen; [destruct Hin |].
    destruct jembs as [|e jembs]; [discriminate |]. simpl.
    destruct Hin as [<- | Hin]; [eauto |].
    destruct (IH Hin jembs) as [e' He']; [simpl in Hlen; congruence | eauto].
  - unfold JobMatcher.match_resume_to_jobs.
    destruct jobs as [|j jobs].
    + simpl. unfold slice_to. destruct (0 <=? _)%Z; rewrite firstn_nil; reflexivity.
    + cbv beta iota zeta. rewrite Hr.
      unfold mbind at 1, result_bind at 1. cbv beta iota.
      rewrite Hm. simpl.
      rewrite score_all_scored_jobs. reflexivity.
Qed.

Lemma slice_to_In {A : Type} (k : Z) (l : list A) (x : A) :
  In x (slice_to k l) -> In x l.
Proof.
  unfold slice_to. destruct (0 <=? k)%Z; intros Hin.
  - rewrite <- (firstn_skipn (Z.to_nat k) l). apply in_or_app. left. exact Hin.
  - rewrite <- (firstn_skipn (Z.to_nat (Z.of_nat (List.length l) + k)) l).
    apply in_or_app. left. exact Hin.
Qed.

Lemma slice_to_length {A : Type} (k : Z) (l : list A) :
  (0 <= k)%Z -> (Z.of_nat (List.length (slice_to k l)) <= k)%Z.
Proof.
  intros Hk. unfold slice_to.
  destruct (0 <=? k)%Z eqn:Hle; [| apply Z.leb_gt in Hle; lia].
  pose proof (firstn_le_length (Z.to_nat k) l). lia.
Qed.

Lemma match_resume_to_jobs_total (E : Env) (self : JobMatcher.t)
    (resume : Resume) (jobs : list Job) (top_k : option Z) :
  exists out, JobMatcher.match_resume_to_jobs E self resume jobs top_k = Ok out.
Proof.
  destruct (match_resume_to_jobs_closed E self resume jobs top_k)
    as (remb & jembs & _ & _ & _ & _ & H).
  eauto.
Qed.

(** C4, as the code has it.  [match_resume_to_jobs] always returns.  With
    [ranked] the ranking of the matches of the pool's jobs that were scored,
    what it returns is [ranked] with every match whose overall score is
    strictly below [similarity_threshold * 100] dropped (the threshold is a
    fraction between 0 and 1) and every other match kept, then cut at
    [top_k]; so it has at most [top_k] entries when [top_k] is not negative,
    and it holds every match of [ranked] at or above the bound when [top_k]
    is at least the length of [ranked].  With [top_k = 2], threshold 0.5 and
    three matches scoring 90, 73 and 40 the result is the matches scoring 90
    and 73, in that order. *)
Theorem C4_threshold_fraction_then_top_k :
  (forall (E : Env) (self : JobMatcher.t) (resume : Resume) (jobs : list Job)
          (top_k : option Z),
     let k :=
       JobMatcher.top_k_or top_k (MatchingConfig.top_k (JobMatcher.config self)) in
     let thr := MatchingConfig.similarity_threshold (JobMatcher.config self) in
     exists out ranked remb jembs,
       JobMatcher._generate_resume_embedding E self resume = Ok remb /\
       mapM (JobMatcher._generate_job_embedding E self) jobs = Ok jembs /\
       ranked =
         RankingAlgorithm.rank_matches (JobMatcher.ranker self)
           (scored_jobs E self resume remb (combine jobs jembs))
           (Some (MatchingConfig.weights (JobMatcher.config self))) /\
       JobMatcher.match_resume_to_jobs E self resume jobs top_k = Ok out /\
       StronglySorted (fun a b => overall_score b <= overall_score a) ranked /\
       out = slice_to k
               (List.filter (fun m => Qle_bool (thr * 100) (overall_score m))
                  ranked) /\
       (forall m,
          In m (List.filter (fun m => Qle_bool (thr * 100) (overall_score m))
                  ranked) <->
          In m ranked /\ thr * 100 <= overall_score m) /\
       (forall m, In m out -> In m ranked /\ thr * 100 <= overall_score m) /\
       ((Z.of_nat (List.length ranked) <= k)%Z ->
        forall m, In m ranked -> thr * 100 <= overall_score m -> In m out) /\
       ((0 <= k)%Z -> (Z.of_nat (List.length out) <= k)%Z)) /\
  Scenario.report
    (JobMatcher.match_resume_to_jobs Scenario.env_down
       (Scenario.matcher 0 10 Scenario.weights73) Scenario.resume0
       [Scenario.job73; Scenario.job40; Scenario.job90] None)
  = Ok [("J90", 90); ("J73", 73); ("J40", 40)] /\
  Scenario.report
    (JobMatcher.match_resume_to_jobs Scenario.env_down
       (Scenario.matcher 0.5 2 Scenario.weights73) Scenario.resume0
       [Scenario.job73; Scenario.job40; Scenario.job90] None)
  = Ok [("J90", 90); ("J73", 73)].
Proof.
  split; [| split; vm_compute; reflexivity].
  intros E self resume jobs top_k k thr.
  destruct (match_resume_to_jobs_closed E self resume jobs top_k)
    as (remb & jembs & Hr & Hm & _ & _ & H).
  fold k thr in H.
  set (ranked := RankingAlgorithm.rank_matches _ _ _) in H.
  assert (Hfilter :
            forall m,
              In m (List.filter
                      (fun m => Qle_bool (thr * 100) (overall_score m)) ranked)
              <-> In m ranked /\ thr * 100 <= overall_score m).
  { intros m. rewrite filter_In, Qle_bool_iff. reflexivity. }
  eexists. exists ranked, remb, jembs.
  split; [exact Hr |]. split; [exact Hm |]. split; [reflexivity |].
  split; [exact H |].
  split; [unfold ranked; rewrite rank_matches_unfold;
          apply (sorted_reverse_sorted overall_score) |].
  split; [reflexivity |]. split; [exact Hfilter |]. split; [| split].
  - intros m Hin. apply slice_to_In in Hin. apply Hfilter, Hin.
  - intros Hk m Hin Hle.
    assert (Hlen : (Z.of_nat
                      (List.length
                         (List.filter
                            (fun m => Qle_bool (thr * 100) (overall_score m))
                            ranked)) <= k)%Z).
    { pose proof (filter_length_le
                    (fun m => Qle_bool (thr * 100) (overall_score m)) ranked).
      lia. }
    unfold slice_to.
    destruct (0 <=? k)%Z eqn:H0; [| apply Z.leb_gt in H0; lia].
    rewrite firstn_all2 by lia. apply Hfilter. split; assumption.
  - apply slice_to_length.
Qed.

Lemma C4_threshold_fraction_then_top_k_witness :
  exists out,
    JobMatcher.match_resume_to_jobs Scenario.env_down
      (Scenario.matcher 0.5 2 Scenario.weights73) Scenario.resume0
      [Scenario.job73; Scenario.job40; Scenario.job90] None = Ok out /\
    (Z.of_nat (List.length out) <= 2)%Z.
Proof.
  destruct C4_threshold_fraction_then_top_k as [H _].
  destruct (H Scenario.env_down (Scenario.matcher 0.5 2 Scenario.weights73)
              Scenario.resume0 [Scenario.job73; Scenario.job40; Scenario.job90]
              None)
    as (out & ranked & remb & jembs & _ & _ & _ & Hout & _ & _ & _ & _ & _ & Hlen).
  exists out. split; [exact Hout |]. apply Hlen. vm_compute. discriminate.
Defined.

(** C4, as stated, fails.  The three matches score 90, 73 and 40; with the
    threshold given as 50 on the 0 to 100 scale and [top_k = 2] the result is
    empty, because the code compares the scores against 50 * 100. *)
Lemma C4_threshold_50_drops_every_match :
  Scenario.report
    (JobMatcher.match_resume_to_jobs Scenario.env_down
       (Scenario.matcher 0 10 Scenario.weights73) Scenario.resume0
       [Scenario.job73; Scenario.job40; Scenario.job90] None)
  = Ok [("J90", 90); ("J73", 73); ("J40", 40)] /\
  JobMatcher.match_resume_to_jobs Scenario.env_down
    (Scenario.matcher 50 2 Scenario.weights73) Scenario.resume0
    [Scenario.job73; Scenario.job40; Scenario.job90] None
  = Ok [].
Proof.
  split; vm_compute; reflexivity.
Qed.

Lemma weights_truthy_lookup (cw : gmap string Q) (key : string) (v : Q) :
  cw !! key = Some v -> RankingAlgorithm.weights_truthy (Some cw) = true.
Proof.
  intros Hk. unfold RankingAlgorithm.weights_truthy.
  apply negb_true_iff, Nat.eqb_neq. intros Hsz.
  apply map_size_empty_iff in Hsz. subst cw.
  rewrite lookup_empty in Hk. discriminate.
Qed.

Lemma rank_matches_length (self : RankingAlgorithm.t) (ms : list MatchResult)
    (cw : option (gmap string Q)) :
  List.length (RankingAlgorithm.rank_matches self ms cw) = List.length ms.
Proof.
  rewrite (Permutation_length (rank_matches_perm self ms cw)).
  apply length_map.
Qed.

Lemma weights_truthy_nonempty (cw : gmap string Q) :
  cw <> ∅ -> RankingAlgorithm.weights_truthy (Some cw) = true.
Proof.
  intros Hne. unfold RankingAlgorithm.weights_truthy.
  apply negb_true_iff, Nat.eqb_neq. intros Hsz.
  apply Hne, map_size_empty_iff, Hsz.
Qed.

(** C5, as the code has it.  No weight map is ever rejected.  A configuration
    keeps the weights it is given, and takes the default dictionary when it
    is given none.  The ranking reads the weights as they are: a map holding
    the four keys gives their four values, a map that is not empty gives for
    each key its value or, the key missing, the default weight of that key,
    and an empty or absent map gives the default weights.  The ranking
    returns a ranking of all the matches it was given, its only safeguard
    being the clamping of each overall score; and [match_resume_to_jobs]
    returns for every configuration. *)
Theorem C5_weights_are_never_validated :
  (forall (thr : Q) (k : Z) (w : gmap string Q),
     MatchingConfig.weights (MatchingConfig.__post_init__ thr k (Some w)) = w) /\
  (forall (self : RankingAlgorithm.t) (cw : gmap string Q) (a b c d : Q),
     cw !! "skills" = Some a -> cw !! "experience" = Some b ->
     cw !! "education" = Some c -> cw !! "semantic" = Some d ->
     RankingAlgorithm._get_weights self (Some cw) =
     {| w_skills := a; w_experience := b; w_education := c; w_semantic := d |}) /\
  (forall (self : RankingAlgorithm.t) (cw : gmap string Q),
     cw <> ∅ ->
     RankingAlgorithm._get_weights self (Some cw) =
     {| w_skills :=
          default (w_skills (RankingAlgorithm.default_weights self))
            (cw !! "skills");
        w_experience :=
          default (w_experience (RankingAlgorithm.default_weights self))
            (cw !! "experience");
        w_education :=
          default (w_education (RankingAlgorithm.default_weights self))
            (cw !! "education");
        w_semantic :=
          default (w_semantic (RankingAlgorithm.default_weights self))
            (cw !! "semantic") |}) /\
  (forall (self : RankingAlgorithm.t) (cw : gmap string Q),
     cw <> ∅ ->
     let w := RankingAlgorithm._get_weights self (Some cw) in
     let d := RankingAlgorithm.default_weights self in
     (cw !! "skills" = None -> w_skills w = w_skills d) /\
     (cw !! "experience" = None -> w_experience w = w_experience d) /\
     (cw !! "education" = None -> w_education w = w_education d) /\
     (cw !! "semantic" = None -> w_semantic w = w_semantic d)) /\
  (forall self : RankingAlgorithm.t,
     RankingAlgorithm._get_weights self (Some ∅) =
     RankingAlgorithm.default_weights self /\
     RankingAlgorithm._get_weights self None =
     RankingAlgorithm.default_weights self) /\
  (forall (thr : Q) (k : Z),
     let w := MatchingConfig.weights (MatchingConfig.__post_init__ thr k None) in
     w !! "skills" = Some 0.35 /\ w !! "experience" = Some 0.25 /\
     w !! "education" = Some 0.15 /\ w !! "semantic" = Some 0.25 /\
     size w = 4%nat /\
     RankingAlgorithm._get_weights RankingAlgorithm.__init__ (Some w) =
     RankingAlgorithm.default_weights RankingAlgorithm.__init__) /\
  (forall (self : RankingAlgorithm.t) (ms : list MatchResult)
          (cw : option (gmap string Q)),
     List.length (RankingAlgorithm.rank_matches self ms cw) = List.length ms /\
     Forall (fun r => 0 <= overall_score r <= 100)
       (RankingAlgorithm.rank_matches self ms cw)) /\
  (forall (E : Env) (self : JobMatcher.t) (resume : Resume) (jobs : list Job)
          (top_k : option Z),
     exists out,
       JobMatcher.match_resume_to_jobs E self resume jobs top_k = Ok out).
Proof.
  assert (Hget :
            forall (self : RankingAlgorithm.t) (cw : gmap string Q),
              cw <> ∅ ->
              RankingAlgorithm._get_weights self (Some cw) =
              {| w_skills :=
                   default (w_skills (RankingAlgorithm.default_weights self))
                     (cw !! "skills");
                 w_experience :=
                   default (w_experience (RankingAlgorithm.default_weights self))
                     (cw !! "experience");
                 w_education :=
                   default (w_education (RankingAlgorithm.default_weights self))
                     (cw !! "education");
                 w_semantic :=
                   default (w_semantic (RankingAlgorithm.default_weights self))
                     (cw !! "semantic") |}).
  { intros self cw Hne. unfold RankingAlgorithm._get_weights.
    rewrite (weights_truthy_nonempty cw Hne). reflexivity. }
  split; [reflexivity |]. split; [| split; [exact Hget |]].
  - intros self cw a b c d Ha Hb Hc Hd.
    unfold RankingAlgorithm._get_weights.
    rewrite (weights_truthy_lookup cw _ _ Ha). simpl.
    rewrite Ha, Hb, Hc, Hd. reflexivity.
  - split; [| split; [| split; [| split]]].
    + intros self cw Hne w d. unfold w. rewrite (Hget self cw Hne). simpl.
      repeat split; intros ->; reflexivity.
    + intros self. split; reflexivity.
    + intros thr k w. repeat split; vm_compute; reflexivity.
    + intros self ms cw. split; [apply rank_matches_length |].
      apply List.Forall_forall. intros r Hin.
      apply rank_matches_In in Hin. destruct Hin as (m & _ & ->).
      apply weighted_score_bounds.
    + apply match_resume_to_jobs_total.
Qed.

Lemma C5_weights_are_never_validated_witness :
  RankingAlgorithm._get_weights RankingAlgorithm.__init__
    (Some Scenario.weights095) =
  {| w_skills := 0.45; w_experience := 0.3;
     w_education := 0.1; w_semantic := 0.1 |}.
Proof.
  destruct C5_weights_are_never_validated as (_ & H & _).
  apply (H RankingAlgorithm.__init__ Scenario.weights095); reflexivity.
Defined.

(** C5, as stated, fails.  Weights summing to 0.95, and weights with a
    negative entry, raise nothing: the configuration is built, and the three
    jobs are scored and ranked with them. *)
Lemma C5_weights_summing_to_095_are_used :
  map_fold (fun _ v acc => acc + v) 0 Scenario.weights095 == 0.95 /\
  Scenario.report
    (JobMatcher.match_resume_to_jobs Scenario.env_down
       (Scenario.matcher 0 10 Scenario.weights095) Scenario.resume0
       [Scenario.job73; Scenario.job40; Scenario.job90] None)
  = Ok [("J90", 85); ("J73", 68); ("J40", 40)] /\
  Scenario.weights_neg !! "experience" = Some (-0.5) /\
  Scenario.report
    (JobMatcher.match_resume_to_jobs Scenario.env_down
       (Scenario.matcher 0 10 Scenario.weights_neg) Scenario.resume0
       [Scenario.job73; Scenario.job40; Scenario.job90] None)
  = Ok [("J73", 100); ("J90", 100); ("J40", 0)].
Proof.
  repeat split; vm_compute; reflexivity.
Qed.

(** C6, as the code has it.  [generate_embedding] never raises.  When the
    call to the embedding service fails on a text that is not blank, the
    error is caught and the zero vector of the generator's dimension is
    returned, the same vector a blank text gets; a successful call returns
    the vector of the service.  A batch whose calls to the service all fail
    is therefore returned as one zero vector per text; a batch raises only
    in its closing [np.array], when the embeddings differ in shape, and
    never with the error of the service.  [match_resume_to_jobs] returns its
    matches whether the service is available or not. *)
Theorem C6_embedding_failure_gives_zero_vector :
  (forall (E : Env) (self : EmbeddingGenerator.t) (text : string),
     exists v, EmbeddingGenerator.generate_embedding E self text = Ok v) /\
  (forall (E : Env) (self : EmbeddingGenerator.t) (text : string) (e : exn),
     EmbeddingGenerator.provider self = "openai" ->
     all_space text = false ->
     openai_embeddings_create E (EmbeddingGenerator.model self)
       (str_take 8000 text) = Raise e ->
     EmbeddingGenerator.generate_embedding E self text =
     Ok (Some (EmbeddingGenerator.np_zeros (EmbeddingGenerator.dimension self)))) /\
  (forall (E : Env) (self : EmbeddingGenerator.t) (text : string),
     all_space text = true ->
     EmbeddingGenerator.generate_embedding E self text =
     Ok (Some (EmbeddingGenerator.np_zeros (EmbeddingGenerator.dimension self)))) /\
  (forall (E : Env) (self : EmbeddingGenerator.t) (text : string) (v : list Q),
     EmbeddingGenerator.provider self = "openai" ->
     all_space text = false ->
     openai_embeddings_create E (EmbeddingGenerator.model self)
       (str_take 8000 text) = Ok v ->
     EmbeddingGenerator.generate_embedding E self text = Ok (Some v)) /\
  (forall (E : Env) (self : EmbeddingGenerator.t) (texts : list string),
     EmbeddingGenerator.provider self = "openai" ->
     (forall text, In text texts -> all_space text = false ->
        exists e,
          openai_embeddings_create E (EmbeddingGenerator.model self)
            (str_take 8000 text) = Raise e) ->
     EmbeddingGenerator.generate_batch_embeddings E self texts =
     Ok (map (fun _ =>
                Some (EmbeddingGenerator.np_zeros
                        (EmbeddingGenerator.dimension self)))
           texts)) /\
  (forall (E : Env) (self : EmbeddingGenerator.t) (texts : list string)
          (e : exn),
     EmbeddingGenerator.generate_batch_embeddings E self texts = Raise e ->
     e = ValueError "inhomogeneous shape" /\
     exists vs,
       Forall2 (fun text v =>
                  EmbeddingGenerator.generate_embedding E self text = Ok v)
         texts vs /\
       EmbeddingGenerator.homogeneous vs = false) /\
  (forall (E : Env) (self : JobMatcher.t) (resume : Resume) (jobs : list Job)
          (top_k : option Z),
     exists out,
       JobMatcher.match_resume_to_jobs E self resume jobs top_k = Ok out).
Proof.
  split; [exact generate_embedding_total |].
  split; [exact generate_embedding_failure |].
  split; [exact generate_embedding_blank |].
  split; [exact generate_embedding_success |].
  split; [exact generate_batch_embeddings_down |].
  split; [exact generate_batch_embeddings_Raise |].
  exact match_resume_to_jobs_total.
Qed.

Lemma C6_embedding_failure_gives_zero_vector_witness :
  EmbeddingGenerator.generate_embedding Scenario.env_down
    (EmbeddingGenerator.__init__ "openai" "text-embedding-3-small")
    "Python developer" =
  Ok (Some (EmbeddingGenerator.np_zeros 1536)).
Proof.
  destruct C6_embedding_failure_gives_zero_vector as (_ & H & _).
  apply (H Scenario.env_down
           (EmbeddingGenerator.__init__ "openai" "text-embedding-3-small")
           "Python developer" (APIError "unavailable")); reflexivity.
Defined.

(** C6, as stated, fails.  With the embedding service down, a text that is
    not blank gets the zero vector instead of a failure, a batch of two such
    texts gets two zero vectors, and the enclosing match still returns a
    result. *)
Lemma C6_unavailable_service_is_not_reported :
  let gen := EmbeddingGenerator.__init__ "openai" "text-embedding-3-small" in
  all_space "Python developer" = false /\
  openai_embeddings_create Scenario.env_down (EmbeddingGenerator.model gen)
    (str_take 8000 "Python developer") = Raise (APIError "unavailable") /\
  EmbeddingGenerator.generate_embedding Scenario.env_down gen "Python developer"
  = Ok (Some (repeat 0 1536)) /\
  EmbeddingGenerator.generate_batch_embeddings Scenario.env_down gen
    ["Python developer"; "Data engineer"]
  = Ok [Some (repeat 0 1536); Some (repeat 0 1536)] /\
  Scenario.report
    (JobMatcher.match_resume_to_jobs Scenario.env_down
       (Scenario.matcher 0 10 Scenario.weights73) Scenario.resume0
       [Scenario.job90] None)
  = Ok [("J90", 90)].
Proof.
  repeat split; vm_compute; reflexivity.
Qed.

(** C9, as the code has it.  [match_resume_to_jobs] always returns, and what
    it returns is the ranking [ranked] of the jobs whose scoring succeeded,
    filtered and cut: every job scored without error is in [ranked] with its
    recomputed overall score, and a job whose scoring raised is the job of no
    match in it.  Only the list of matches is returned; nothing records the
    jobs passed over. *)
Theorem C9_failing_job_is_passed_over
    (E : Env) (self : JobMatcher.t) (resume : Resume) (jobs : list Job)
    (top_k : option Z) :
  let k :=
    JobMatcher.top_k_or top_k (MatchingConfig.top_k (JobMatcher.config self)) in
  let thr := MatchingConfig.similarity_threshold (JobMatcher.config self) in
  let w :=
    RankingAlgorithm._get_weights (JobMatcher.ranker self)
      (Some (MatchingConfig.weights (JobMatcher.config self))) in
  exists remb out ranked,
    JobMatcher._generate_resume_embedding E self resume = Ok remb /\
    JobMatcher.match_resume_to_jobs E self resume jobs top_k = Ok out /\
    out = slice_to k
            (List.filter (fun m => Qle_bool (thr * 100) (overall_score m))
               ranked) /\
    StronglySorted (fun a b => overall_score b <= overall_score a) ranked /\
    (forall j e m0,
       In j jobs ->
       JobMatcher._generate_job_embedding E self j = Ok e ->
       JobMatcher._calculate_match E self resume remb j e = Ok m0 ->
       In (rescore w m0) ranked) /\
    (forall j e x,
       In j jobs ->
       JobMatcher._generate_job_embedding E self j = Ok e ->
       JobMatcher._calculate_match E self resume remb j e = Raise x ->
       forall m, In m ranked -> job m <> Some j).
Proof.
  intros k thr w.
  destruct (match_resume_to_jobs_closed E self resume jobs top_k)
    as (remb & jembs & Hr & _ & Hemb & Hpairs & H).
  fold k thr in H.
  set (ranked := RankingAlgorithm.rank_matches _ _ _) in H.
  exists remb. eexists. exists ranked.
  split; [exact Hr |]. split; [exact H |]. split; [reflexivity |].
  split; [unfold ranked; rewrite rank_matches_unfold;
          apply (sorted_reverse_sorted overall_score) |].
  split.
  - intros j e m0 Hj He Hm0.
    apply rank_matches_In. exists m0. split; [| reflexivity].
    apply scored_jobs_In. exists j, e. split; [| exact Hm0].
    destruct (Hpairs j Hj) as [e' He'].
    pose proof (Hemb j e' He') as Heq. rewrite He in Heq.
    injection Heq as ->. exact He'.
  - intros j e x Hj He Hx m Hm Hjob.
    apply rank_matches_In in Hm. destruct Hm as (m0 & Hm0 & ->).
    apply scored_jobs_In in Hm0. destruct Hm0 as (j' & e' & Hin & Hc).
    pose proof (_calculate_match_Ok_inv _ _ _ _ _ _ _ Hc) as Hinv.
    destruct Hinv as (? & ? & ? & ? & ? & _ & _ & _ & _ & _ & Hj' & _).
    change (job (rescore (RankingAlgorithm._get_weights (JobMatcher.ranker self)
                            (Some (MatchingConfig.weights (JobMatcher.config self))))
                   m0)) with (job m0) in Hjob.
    rewrite Hj' in Hjob. injection Hjob as ->.
    pose proof (Hemb j e' Hin) as Heq. rewrite He in Heq.
    injection Heq as <-. congruence.
Qed.

Lemma C9_failing_job_is_passed_over_witness :
  exists out,
    JobMatcher.match_resume_to_jobs Scenario.env_mixed
      (Scenario.matcher 0 10 Scenario.weights73) Scenario.resume0
      [Scenario.job_good; Scenario.job_bad] None = Ok out /\
    forall m, In m out -> job m <> Some Scenario.job_bad.
Proof.
  destruct (C9_failing_job_is_passed_over Scenario.env_mixed
              (Scenario.matcher 0 10 Scenario.weights73) Scenario.resume0
              [Scenario.job_good; Scenario.job_bad] None)
    as (remb & out & ranked & Hr & Hout & Hslice & _ & _ & Hskip).
  exists out. split; [exact Hout |].
  intros m Hm. rewrite Hslice in Hm.
  apply slice_to_In in Hm. apply filter_In in Hm. destruct Hm as [Hm _].
  vm_compute in Hr. injection Hr as <-.
  apply (Hskip Scenario.job_bad (Some [1; 0; 0])
           (ValueError "shapes not aligned")); [| | | exact Hm].
  - right. left. reflexivity.
  - vm_compute. reflexivity.
  - vm_compute. reflexivity.
Defined.

(** C9, as stated, fails on the diagnostics.  Scoring the posting ["Bad"]
    raises, since its embedding has another dimension than the candidate's; a
    pool with it and the same pool without it return the very same value, so
    nothing in what is returned tells that a job was passed over. *)
Lemma C9_no_diagnostics_are_returned :
  let self := Scenario.matcher 0 10 Scenario.weights73 in
  JobMatcher._generate_resume_embedding Scenario.env_mixed self Scenario.resume0
  = Ok (Some [1; 0]) /\
  JobMatcher._generate_job_embedding Scenario.env_mixed self Scenario.job_bad
  = Ok (Some [1; 0; 0]) /\
  JobMatcher._calculate_match Scenario.env_mixed self Scenario.resume0
    (Some [1; 0]) Scenario.job_bad (Some [1; 0; 0])
  = Raise (ValueError "shapes not aligned") /\
  skipped_jobs Scenario.env_mixed self Scenario.resume0 (Some [1; 0])
    [(Scenario.job_good, Some [1; 0]); (Scenario.job_bad, Some [1; 0; 0])]
  = [Scenario.job_bad] /\
  skipped_jobs Scenario.env_mixed self Scenario.resume0 (Some [1; 0])
    [(Scenario.job_good, Some [1; 0])]
  = [] /\
  JobMatcher.match_resume_to_jobs Scenario.env_mixed self Scenario.resume0
    [Scenario.job_good; Scenario.job_bad] None
  = JobMatcher.match_resume_to_jobs Scenario.env_mixed self Scenario.resume0
      [Scenario.job_good] None /\
  Scenario.report
    (JobMatcher.match_resume_to_jobs Scenario.env_mixed self Scenario.resume0
       [Scenario.job_good; Scenario.job_bad] None)
  = Ok [("Good", 100)].
Proof.
  repeat split; vm_compute; reflexivity.
Qed.

(** ** Skills *)

Lemma elem_of_set_lower (xs : list string) (k : string) :
  k ∈ set_lower xs <-> exists s, In s xs /\ lower s = k.
Proof.
  unfold set_lower. rewrite elem_of_list_to_set, list_elem_of_In, in_map_iff.
  split; intros (s & H1 & H2); exists s; tauto.
Qed.

Lemma set_lower_empty_iff (xs : list string) : set_lower xs = ∅ <-> xs = [].
Proof.
  split; [| intros ->; reflexivity].
  destruct xs as [|x xs]; [reflexivity |]. intros Hempty. exfalso.
  assert (Hin : lower x ∈ set_lower (x :: xs)).
  { apply elem_of_set_lower. exists x. split; [left |]; reflexivity. }
  rewrite Hempty in Hin. exact (not_elem_of_empty _ Hin).
Qed.

Lemma partial_with_iff (S : gset string) (r : string) :
  JobMatcher.partial_with S r = true <->
  set_Exists (fun s => str_in r s = true \/ str_in s r = true) S.
Proof.
  unfold JobMatcher.partial_with, set_Exists. rewrite existsb_exists.
  split; intros (s & Hs & H); exists s.
  - apply list_elem_of_In, elem_of_elements in Hs.
    apply orb_true_iff in H. tauto.
  - split; [apply list_elem_of_In, elem_of_elements; tauto |].
    apply orb_true_iff. tauto.
Qed.

Lemma size_filter_elements (P : string -> Prop) `{!forall x, Decision (P x)}
    (X : gset string) :
  size (filter P X) = List.length (filter P (elements X)).
Proof.
  unfold size, set_size. simpl. apply Permutation_length.
  apply NoDup_Permutation.
  - apply NoDup_elements.
  - apply NoDup_filter, NoDup_elements.
  - intros x. rewrite elem_of_elements, elem_of_filter, list_elem_of_filter,
      elem_of_elements. reflexivity.
Qed.

(** The loop accumulating [partial_matches]: half a point for each required
    skill that has a partial match. *)
Lemma partial_matches_loop (S R : gset string) (l : list string) (acc : Q) :
  (forall r, In r l -> r ∈ R) ->
  fold_left
    (fun partial_matches req_skill =>
       if bool_decide (req_skill ∉ S ∩ R) then
         if JobMatcher.partial_with S req_skill
         then partial_matches + 0.5
         else partial_matches
       else partial_matches) l acc
  == acc + 0.5 * inject_Z (Z.of_nat (List.length (filter (partial_match S) l))).
Proof.
  revert acc. induction l as [|r l IH]; intros acc Hl; simpl fold_left.
  - simpl. ring.
  - rewrite IH by (intros r' Hr'; apply Hl; right; exact Hr').
    assert (Hr : r ∈ R) by (apply Hl; left; reflexivity).
    rewrite filter_cons.
    destruct (decide (partial_match S r)) as [Hp | Hp].
    + destruct Hp as [Hnot Hex].
      rewrite bool_decide_eq_true_2
        by (intros Hin; apply elem_of_intersection in Hin; tauto).
      apply partial_with_iff in Hex. rewrite Hex.
      simpl List.length. rewrite Nat2Z.inj_succ, <- Z.add_1_r, inject_Z_plus.
      ring.
    + destruct (bool_decide (r ∉ S ∩ R)) eqn:Hb; [| reflexivity].
      apply bool_decide_eq_true_1 in Hb.
      destruct (JobMatcher.partial_with S r) eqn:Hw; [| reflexivity].
      exfalso. apply Hp. split; [| apply partial_with_iff, Hw].
      intros HS. apply Hb, elem_of_intersection. tauto.
Qed.

Lemma exact_matches_count (S R : gset string) :
  size (S ∩ R) = exact_count S R.
Proof.
  unfold exact_count. f_equal. apply set_eq. intros x.
  rewrite elem_of_filter, elem_of_intersection. unfold exact_match. tauto.
Qed.

Lemma skills_match_refines (resume_skills required_skills : list string) :
  JobMatcher._calculate_skills_match resume_skills required_skills ==
  skills_score_spec (set_lower resume_skills) (set_lower required_skills).
Proof.
  unfold JobMatcher._calculate_skills_match, skills_score_spec.
  destruct required_skills as [|q qs].
  - rewrite decide_True by reflexivity. reflexivity.
  - rewrite decide_False by (rewrite set_lower_empty_iff; discriminate).
    set (R := set_lower (q :: qs)).
    destruct resume_skills as [|s ss].
    + assert (He : exact_count (set_lower []) R = 0%nat).
      { rewrite <- exact_matches_count.
        change (set_lower []) with (∅ : gset string).
        apply size_empty_iff. intros x.
        rewrite elem_of_intersection. split; [intros [Hx _] | intros Hx];
          exfalso; exact (not_elem_of_empty _ Hx). }
      assert (Hp : partial_count (set_lower []) R = 0%nat).
      { unfold partial_count. apply size_empty_iff.
        change (set_lower []) with (∅ : gset string).
        intros x. rewrite elem_of_filter. unfold partial_match, set_Exists.
        split; [| intros Hx; exfalso; exact (not_elem_of_empty _ Hx)].
        intros [(_ & y & Hy & _) _]. exfalso. exact (not_elem_of_empty _ Hy). }
      rewrite He, Hp.
      assert (Hz : (inject_Z (Z.of_nat 0) + 0.5 * inject_Z (Z.of_nat 0)) /
                   inject_Z (Z.of_nat (size R)) == 0).
      { unfold Qdiv. change (inject_Z (Z.of_nat 0)) with 0. ring. }
      rewrite Hz. symmetry. apply Q.min_r. discriminate.
    + set (S := set_lower (s :: ss)).
      rewrite py_min_Qmin, Q.min_comm.
      rewrite partial_matches_loop
        by (intros r Hr; apply elem_of_elements, list_elem_of_In, Hr).
      rewrite exact_matches_count.
      unfold partial_count. rewrite size_filter_elements.
      rewrite Qplus_0_l. reflexivity.
Qed.

(** C3.  The skills sub-score equals the specified one on the lower-cased
    skill sets: 1 when no skill is required, otherwise the smaller of 1 and
    the number of exact matches plus half the number of partial matches over
    the number of required skills.  The candidate skills Python and AWS
    against the required skills Python, Django and AWS score 2/3, with two
    exact matches and no partial one. *)
Theorem C3_skills_score_formula :
  (forall resume_skills required_skills : list string,
     JobMatcher._calculate_skills_match resume_skills required_skills ==
     skills_score_spec (set_lower resume_skills) (set_lower required_skills)) /\
  (forall resume_skills : list string,
     JobMatcher._calculate_skills_match resume_skills [] = 1) /\
  (forall required_skills : list string,
     set_lower required_skills = ∅ <-> required_skills = []) /\
  JobMatcher._calculate_skills_match
    ["Python"; "AWS"] ["Python"; "Django"; "AWS"] == 2 / 3 /\
  exact_count (set_lower ["Python"; "AWS"])
    (set_lower ["Python"; "Django"; "AWS"]) = 2%nat /\
  partial_count (set_lower ["Python"; "AWS"])
    (set_lower ["Python"; "Django"; "AWS"]) = 0%nat.
Proof.
  split; [exact skills_match_refines |].
  split; [reflexivity |].
  split; [exact set_lower_empty_iff |].
  repeat split; vm_compute; reflexivity.
Qed.

(** ** Matched and missing skills *)

Lemma dict_lower_fold_lookup (xs : list string) (d : gmap string string)
    (k s : string) :
  fold_left (fun d s => <[lower s := s]> d) xs d !! k = Some s ->
  d !! k = Some s \/ (In s xs /\ lower s = k).
Proof.
  revert d. induction xs as [|x xs IH]; intros d; simpl.
  - tauto.
  - intros H. apply IH in H. destruct H as [H | [H1 H2]]; [| tauto].
    destruct (decide (lower x = k)) as [<- | Hne].
    + rewrite lookup_insert_eq in H. injection H as <-. tauto.
    + rewrite lookup_insert_ne in H by exact Hne. tauto.
Qed.

Lemma dict_lower_lookup (xs : list string) (k s : string) :
  dict_lower xs !! k = Some s -> In s xs /\ lower s = k.
Proof.
  intros H. apply dict_lower_fold_lookup in H.
  destruct H as [H | H]; [| exact H].
  rewrite lookup_empty in H. discriminate.
Qed.

Lemma dict_lower_fold_is_Some (xs : list string) (d : gmap string string)
    (k : string) :
  is_Some (d !! k) \/ (exists s, In s xs /\ lower s = k) ->
  is_Some (fold_left (fun d s => <[lower s := s]> d) xs d !! k).
Proof.
  revert d. induction xs as [|x xs IH]; intros d; simpl.
  - intros [H | (s & [] & _)]. exact H.
  - intros [H | (s & [<- | Hin] & Hk)]; apply IH.
    + left. destruct (decide (lower x = k)) as [<- | Hne].
      * rewrite lookup_insert_eq. eauto.
      * rewrite lookup_insert_ne by exact Hne. exact H.
    + left. rewrite <- Hk, lookup_insert_eq. eauto.
    + right. eauto.
Qed.

Lemma dict_lower_is_Some (xs : list string) (k : string) :
  k ∈ set_lower xs -> is_Some (dict_lower xs !! k).
Proof.
  intros H. apply elem_of_set_lower in H.
  apply dict_lower_fold_is_Some. right. exact H.
Qed.

Lemma matched_fold_In (d : gmap string string) (l acc : list string)
    (s : string) :
  In s (fold_left
          (fun matched req_skill_lower =>
             match d !! req_skill_lower with
             | Some s => matched ++ [s]
             | None => matched
             end) l acc) <->
  In s acc \/ exists r, In r l /\ d !! r = Some s.
Proof.
  revert acc. induction l as [|r l IH]; intros acc; simpl.
  - split; [tauto | intros [H | (r & [] & _)]; exact H].
  - rewrite IH. destruct (d !! r) as [s'|] eqn:Hr.
    + rewrite in_app_iff. simpl. split.
      * intros [[H | [<- | []]] | (r' & Hin & Hl)]; eauto.
      * intros [H | (r' & [<- | Hin] & Hl)]; [tauto | | eauto].
        rewrite Hr in Hl. injection Hl as <-. tauto.
    + split.
      * intros [H | (r' & Hin & Hl)]; eauto.
      * intros [H | (r' & [<- | Hin] & Hl)]; [tauto | congruence | eauto].
Qed.

Lemma get_matched_skills_In (resume_skills required_skills : list string)
    (s : string) :
  In s (JobMatcher._get_matched_skills resume_skills required_skills) <->
  exists r, r ∈ set_lower required_skills /\
            dict_lower resume_skills !! r = Some s.
Proof.
  unfold JobMatcher._get_matched_skills. rewrite matched_fold_In.
  split.
  - intros [[] | (r & Hr & Hl)]. exists r.
    split; [apply elem_of_elements, list_elem_of_In, Hr | exact Hl].
  - intros (r & Hr & Hl). right. exists r.
    split; [apply list_elem_of_In, elem_of_elements, Hr | exact Hl].
Qed.

Lemma dict_set_In (k v : string) (d : list (string * string))
    (k' v' : string) :
  In (k', v') (dict_set k v d) -> (k', v') = (k, v) \/ In (k', v') d.
Proof.
  induction d as [|[k0 v0] d IH]; simpl.
  - intros [H | []]. left. congruence.
  - destruct (String.eqb k k0); simpl; intros [H | H]; auto.
    apply IH in H. tauto.
Qed.

Lemma dict_set_key (k v : string) (d : list (string * string)) :
  exists v', In (k, v') (dict_set k v d).
Proof.
  induction d as [|[k0 v0] d (v' & IH)]; simpl.
  - exists v. left. reflexivity.
  - destruct (String.eqb k k0); [exists v | exists v']; simpl; tauto.
Qed.

Lemma dict_set_keeps_key (k v : string) (d : list (string * string))
    (k0 v0 : string) :
  In (k0, v0) d -> exists v', In (k0, v') (dict_set k v d).
Proof.
  induction d as [|[k1 v1] d IH]; simpl; [intros [] |].
  intros [[= -> ->] | Hin].
  - destruct (String.eqb k k0) eqn:Heq.
    + apply String.eqb_eq in Heq. subst k. exists v. left. reflexivity.
    + exists v0. left. reflexivity.
  - destruct (String.eqb k k1).
    + exists v0. right. exact Hin.
    + destruct (IH Hin) as [v' Hv']. exists v'. right. exact Hv'.
Qed.

Lemma dict_lower_items_fold_In (xs : list string) (d : list (string * string))
    (k v : string) :
  In (k, v) (fold_left (fun d s => dict_set (lower s) s d) xs d) ->
  In (k, v) d \/ (In v xs /\ lower v = k).
Proof.
  revert d. induction xs as [|x xs IH]; intros d; simpl.
  - tauto.
  - intros H. apply IH in H. destruct H as [H | [H1 H2]]; [| tauto].
    apply dict_set_In in H. destruct H as [[= -> ->] | H]; tauto.
Qed.

Lemma dict_lower_items_In (xs : list string) (k v : string) :
  In (k, v) (dict_lower_items xs) -> In v xs /\ lower v = k.
Proof.
  intros H. apply dict_lower_items_fold_In in H. destruct H as [[] | H].
  exact H.
Qed.

Lemma dict_lower_items_fold_key (xs : list string) (d : list (string * string))
    (k : string) :
  (exists v, In (k, v) d) \/ (exists s, In s xs /\ lower s = k) ->
  exists v, In (k, v) (fold_left (fun d s => dict_set (lower s) s d) xs d).
Proof.
  revert d. induction xs as [|x xs IH]; intros d; simpl.
  - intros [H | (s & [] & _)]. exact H.
  - intros [(v & Hin) | (s & [<- | Hin] & Hk)]; apply IH.
    + left. eapply dict_set_keeps_key, Hin.
    + left. rewrite <- Hk. apply dict_set_key.
    + right. eauto.
Qed.

Lemma missing_fold_In (S : gset string) (items : list (string * string))
    (acc : list string) (q : string) :
  In q (fold_left
          (fun missing '(req_skill_lower, req_skill) =>
             if bool_decide (req_skill_lower ∉ S) then
               let found_partial := JobMatcher.partial_with S req_skill_lower in
               if negb found_partial then missing ++ [req_skill] else missing
             else missing) items acc) <->
  In q acc \/
  exists k, In (k, q) items /\ (k ∉ S) /\ JobMatcher.partial_with S k = false.
Proof.
  revert acc. induction items as [|[k0 q0] items IH]; intros acc; simpl.
  - split; [tauto | intros [H | (k & [] & _)]; exact H].
  - rewrite IH. clear IH.
    destruct (bool_decide (k0 ∉ S)) eqn:Hb.
    + apply bool_decide_eq_true_1 in Hb.
      destruct (JobMatcher.partial_with S k0) eqn:Hp; simpl.
      * split.
        -- intros [H | (k & Hin & Hk)]; [left; exact H |].
           right. exists k. tauto.
        -- intros [H | (k & [Heq | Hin] & Hk & Hpk)]; [left; exact H | |].
           ++ injection Heq as <- <-. congruence.
           ++ right. exists k. tauto.
      * rewrite in_app_iff. simpl. split.
        -- intros [[H | [<- | []]] | (k & Hin & Hk)].
           ++ left. exact H.
           ++ right. exists k0. tauto.
           ++ right. exists k. tauto.
        -- intros [H | (k & [Heq | Hin] & Hk)].
           ++ tauto.
           ++ injection Heq as <- <-. tauto.
           ++ right. exists k. tauto.
    + apply bool_decide_eq_false_1 in Hb. split.
      * intros [H | (k & Hin & Hk)]; [left; exact H |].
        right. exists k. tauto.
      * intros [H | (k & [Heq | Hin] & Hk & Hpk)]; [left; exact H | |].
        -- injection Heq as <- <-. exfalso. exact (Hb Hk).
        -- right. exists k. tauto.
Qed.

Lemma identify_missing_skills_In (resume_skills required_skills : list string)
    (q : string) :
  In q (JobMatcher._identify_missing_skills resume_skills required_skills) <->
  exists k, In (k, q) (dict_lower_items required_skills) /\
            (k ∉ set_lower resume_skills) /\
            JobMatcher.partial_with (set_lower resume_skills) k = false.
Proof.
  unfold JobMatcher._identify_missing_skills. rewrite missing_fold_In.
  split; [intros [[] | H]; exact H | intros H; right; exact H].
Qed.

(** C8.  The matched and the missing skills of a match share no skill, not
    even up to case.  A matched skill is a résumé skill equal, ignoring case,
    to a required skill, and every such exact match is among the matched
    skills; a missing skill is a required skill with neither an exact nor a
    partial match, and every such required skill is among the missing ones in
    one of its spellings. *)
Theorem C8_matched_and_missing_are_disjoint
    (resume_skills required_skills : list string) :
  let matched := JobMatcher._get_matched_skills resume_skills required_skills in
  let missing :=
    JobMatcher._identify_missing_skills resume_skills required_skills in
  let S := set_lower resume_skills in
  (forall s, In s matched -> ~ In s missing) /\
  (forall s q, In s matched -> In q missing -> lower s <> lower q) /\
  (forall s, In s matched ->
             In s resume_skills /\ lower s ∈ set_lower required_skills) /\
  (forall r, r ∈ S -> r ∈ set_lower required_skills ->
             exists s, In s matched /\ lower s = r) /\
  (forall q, In q missing ->
             In q required_skills /\
             ~ exact_match S (lower q) /\ ~ partial_match S (lower q)) /\
  (forall q, In q required_skills ->
             ~ exact_match S (lower q) -> ~ partial_match S (lower q) ->
             exists q', In q' missing /\ lower q' = lower q).
Proof.
  intros matched missing S.
  assert (Hmatched : forall s, In s matched ->
            In s resume_skills /\ lower s ∈ set_lower required_skills).
  { intros s Hs. apply get_matched_skills_In in Hs.
    destruct Hs as (r & Hr & Hl). apply dict_lower_lookup in Hl.
    destruct Hl as [Hin <-]. tauto. }
  assert (Hmissing : forall q, In q missing ->
            In q required_skills /\ (lower q ∉ S) /\
            JobMatcher.partial_with S (lower q) = false).
  { intros q Hq. apply identify_missing_skills_In in Hq.
    destruct Hq as (k & Hin & Hk & Hp). apply dict_lower_items_In in Hin.
    destruct Hin as [Hin <-]. tauto. }
  assert (Hcase : forall s q, In s matched -> In q missing -> lower s <> lower q).
  { intros s q Hs Hq Heq.
    destruct (Hmatched s Hs) as [Hin _]. destruct (Hmissing q Hq) as (_ & Hno & _).
    apply Hno. rewrite <- Heq. apply elem_of_set_lower. eauto. }
  split; [| split; [exact Hcase |]].
  { intros s Hs Hq. exact (Hcase s s Hs Hq eq_refl). }
  split; [exact Hmatched |]. split; [| split].
  - intros r HrS HrR.
    destruct (dict_lower_is_Some resume_skills r HrS) as [s Hs].
    exists s. split.
    + apply get_matched_skills_In. eauto.
    + apply dict_lower_lookup in Hs. tauto.
  - intros q Hq. destruct (Hmissing q Hq) as (Hin & Hno & Hp).
    split; [exact Hin |]. split; [exact Hno |].
    intros [_ Hex]. apply partial_with_iff in Hex. congruence.
  - intros q Hin Hno Hnp.
    destruct (dict_lower_items_fold_key required_skills [] (lower q))
      as [q' Hq']; [right; eauto |].
    exists q'. split.
    + apply identify_missing_skills_In. exists (lower q).
      split; [exact Hq' |]. split; [exact Hno |].
      apply not_true_is_false. intros Hp.
      apply Hnp. split; [exact Hno | apply partial_with_iff, Hp].
    + apply dict_lower_items_In in Hq'. tauto.
Qed.

Lemma C8_matched_and_missing_are_disjoint_witness :
  In "Python" (JobMatcher._get_matched_skills
                 ["Python"; "AWS"] ["python"; "Django"; "AWS"; "Py"]) /\
  ~ In "Python" (JobMatcher._identify_missing_skills
                   ["Python"; "AWS"] ["python"; "Django"; "AWS"; "Py"]).
Proof.
  assert (Hin : In "Python" (JobMatcher._get_matched_skills
                               ["Python"; "AWS"]
                               ["python"; "Django"; "AWS"; "Py"])).
  { vm_compute. right. left. reflexivity. }
  split; [exact Hin |].
  destruct (C8_matched_and_missing_are_disjoint
              ["Python"; "AWS"] ["python"; "Django"; "AWS"; "Py"]) as [H _].
  apply H, Hin.
Defined.

(** ** The overall score *)

Ltac case_ifs :=
  repeat match goal with
         | |- context [if ?b then _ else _] => destruct b
         end.

Lemma skills_match_bounds (resume_skills required_skills : list string) :
  0 <= JobMatcher._calculate_skills_match resume_skills required_skills <= 1.
Proof.
  rewrite skills_match_refines. unfold skills_score_spec.
  destruct (decide (set_lower required_skills = ∅)) as [He | Hne];
    [split; discriminate |].
  set (S := set_lower resume_skills). set (R := set_lower required_skills).
  split; [| apply Q.le_min_l].
  apply Q.min_glb; [discriminate |].
  assert (Hpos : 0 < inject_Z (Z.of_nat (size R))).
  { change 0 with (inject_Z 0). rewrite <- Zlt_Qlt.
    change 0%Z with (Z.of_nat 0). apply Nat2Z.inj_lt.
    destruct (size R) eqn:Hsz; [| lia].
    exfalso. apply Hne. apply size_empty_iff, leibniz_equiv in Hsz. exact Hsz. }
  apply Qle_shift_div_l; [exact Hpos |]. rewrite Qmult_0_l.
  assert (He : 0 <= inject_Z (Z.of_nat (exact_count S R)))
    by (change 0 with (inject_Z 0); rewrite <- Zle_Qle; lia).
  assert (Hp : 0 <= inject_Z (Z.of_nat (partial_count S R)))
    by (change 0 with (inject_Z 0); rewrite <- Zle_Qle; lia).
  lra.
Qed.

Lemma experience_match_bounds (resume : Resume) (j : Job) :
  0 <= JobMatcher._calculate_experience_match resume j <= 1.
Proof.
  unfold JobMatcher._calculate_experience_match. case_ifs; split; discriminate.
Qed.

Lemma education_match_bounds (resume : Resume) (j : Job) :
  0 <= JobMatcher._calculate_education_match resume j <= 1.
Proof.
  unfold JobMatcher._calculate_education_match.
  destruct (negb (str_truthy (education_required j))); [split; discriminate |].
  destruct (education resume); [split; discriminate |].
  case_ifs; split; discriminate.
Qed.

(** The overall score [_calculate_match] stores is the weighted sum of the
    sub-scores it stores, under the weights the ranking will read from the
    same configuration. *)
Lemma _calculate_match_overall (E : Env) (self : JobMatcher.t) (resume : Resume)
    (remb : option (list Q)) (j : Job) (jemb : option (list Q))
    (m : MatchResult) :
  JobMatcher._calculate_match E self resume remb j jemb = Ok m ->
  overall_score m ==
  weighted_sum m
    (RankingAlgorithm._get_weights (JobMatcher.ranker self)
       (Some (MatchingConfig.weights (JobMatcher.config self)))).
Proof.
  intros Hm. apply _calculate_match_Ok_inv in Hm.
  destruct Hm as (sem & wse & wsk & wex & wed & _ & Hse & Hsk & Hex & Hed & _ &
                  Hsem & Hskl & Hexp & Hedu & _ & _ & Hov).
  unfold weighted_sum, RankingAlgorithm._get_weights.
  rewrite (weights_truthy_lookup _ _ _ Hse). simpl.
  rewrite Hse, Hsk, Hex, Hed, Hsem, Hskl, Hexp, Hedu, Hov. simpl. ring.
Qed.

(** C1.  The overall score computed by the ranking is the weighted linear
    combination of the four sub-scores clamped to the interval from 0 to 100,
    for every match and every weights, and so is the overall score of every
    ranked result and of every result of [match_resume_to_jobs].  The
    sub-scores that [_calculate_match] stores are scaled to the interval from
    0 to 100, and the overall score it stores is their weighted sum.  With
    weights skills 0.5, experience 0.3, education 0.1, semantic 0.1 and
    sub-scores 80, 60, 100 and 50 the overall score is exactly 73. *)
Theorem C1_overall_score_weighted_and_clamped :
  (forall (m : MatchResult) (w : RankingWeights),
     RankingAlgorithm._calculate_weighted_score m w
       == clamp 0 100 (weighted_sum m w) /\
     0 <= RankingAlgorithm._calculate_weighted_score m w <= 100) /\
  (forall (self : RankingAlgorithm.t) (ms : list MatchResult)
          (cw : option (gmap string Q)) (r : MatchResult),
     In r (RankingAlgorithm.rank_matches self ms cw) ->
     overall_score r
       == clamp 0 100 (weighted_sum r (RankingAlgorithm._get_weights self cw)) /\
     0 <= overall_score r <= 100) /\
  (forall (E : Env) (self : JobMatcher.t) (resume : Resume)
          (remb : option (list Q)) (j : Job) (jemb : option (list Q))
          (m : MatchResult),
     JobMatcher._calculate_match E self resume remb j jemb = Ok m ->
     0 <= skills_match_score m <= 100 /\
     0 <= experience_match_score m <= 100 /\
     0 <= education_match_score m <= 100 /\
     0 <= semantic_similarity_score m <= 100 /\
     overall_score m ==
     weighted_sum m
       (RankingAlgorithm._get_weights (JobMatcher.ranker self)
          (Some (MatchingConfig.weights (JobMatcher.config self))))) /\
  (forall (E : Env) (self : JobMatcher.t) (resume : Resume) (jobs : list Job)
          (top_k : option Z) (out : list MatchResult) (m : MatchResult),
     JobMatcher.match_resume_to_jobs E self resume jobs top_k = Ok out ->
     In m out ->
     overall_score m ==
     clamp 0 100
       (weighted_sum m
          (RankingAlgorithm._get_weights (JobMatcher.ranker self)
             (Some (MatchingConfig.weights (JobMatcher.config self))))) /\
     0 <= overall_score m <= 100) /\
  (forall m : MatchResult,
     skills_match_score m == 80 -> experience_match_score m == 60 ->
     education_match_score m == 100 -> semantic_similarity_score m == 50 ->
     RankingAlgorithm._calculate_weighted_score m
       (RankingAlgorithm._get_weights RankingAlgorithm.__init__
          (Some Scenario.weights73)) == 73).
Proof.
  assert (Hrank : forall (self : RankingAlgorithm.t) (ms : list MatchResult)
                         (cw : option (gmap string Q)) (r : MatchResult),
             In r (RankingAlgorithm.rank_matches self ms cw) ->
             overall_score r
               == clamp 0 100
                    (weighted_sum r (RankingAlgorithm._get_weights self cw)) /\
             0 <= overall_score r <= 100).
  { intros self ms cw r Hin.
    apply rank_matches_In in Hin. destruct Hin as (m & _ & ->).
    set (w := RankingAlgorithm._get_weights self cw).
    change (overall_score (rescore w m))
      with (RankingAlgorithm._calculate_weighted_score m w).
    change (weighted_sum (rescore w m) w) with (weighted_sum m w).
    split; [apply weighted_score_clamp | apply weighted_score_bounds]. }
  split; [| split; [exact Hrank | split; [| split]]].
  - intros m w. split; [apply weighted_score_clamp | apply weighted_score_bounds].
  - intros E self resume remb j jemb m Hm.
    pose proof (_calculate_match_overall _ _ _ _ _ _ _ Hm) as Hov.
    apply _calculate_match_Ok_inv in Hm.
    destruct Hm as (sem & wse & wsk & wex & wed & Hcos & _ & _ & _ & _ & _ &
                    -> & -> & -> & -> & _).
    apply cosine_similarity_Ok_bounds in Hcos.
    pose proof (skills_match_bounds (skills resume) (required_skills j)).
    pose proof (experience_match_bounds resume j).
    pose proof (education_match_bounds resume j).
    repeat split; first [exact Hov | lra].
  - intros E self resume jobs top_k out m Hout Hin.
    destruct (match_resume_to_jobs_closed E self resume jobs top_k)
      as (remb & jembs & _ & _ & _ & _ & H).
    rewrite H in Hout. injection Hout as <-.
    apply slice_to_In in Hin. apply filter_In in Hin. destruct Hin as [Hin _].
    exact (Hrank _ _ _ _ Hin).
  - intros m Hsk Hex Hed Hse.
    rewrite weighted_score_clamp. unfold weighted_sum.
    rewrite Hsk, Hex, Hed, Hse. vm_compute. reflexivity.
Qed.

Lemma C1_overall_score_weighted_and_clamped_witness :
  RankingAlgorithm._calculate_weighted_score
    (Scenario.mk_match "J" 80 60 100 50)
    (RankingAlgorithm._get_weights RankingAlgorithm.__init__
       (Some Scenario.weights73)) == 73.
Proof.
  destruct C1_overall_score_weighted_and_clamped as (_ & _ & _ & _ & H).
  apply (H (Scenario.mk_match "J" 80 60 100 50)); reflexivity.
Defined.

(** * Further properties *)

(** ** Ranking *)

Lemma sorted_reverse_fixed {A : Type} (key : A -> Q) (l : list A) :
  StronglySorted (desc key) l -> sorted_reverse key l = l.
Proof.
  induction 1 as [|x l Hs IH Hall]; simpl; [reflexivity |].
  rewrite IH. destruct l as [|y l]; [reflexivity |]. simpl.
  apply List.Forall_inv in Hall. unfold desc in Hall.
  apply Qle_bool_iff in Hall. rewrite Hall. reflexivity.
Qed.

Lemma map_fixed {A : Type} (f : A -> A) (l : list A) :
  (forall x, In x l -> f x = x) -> map f l = l.
Proof.
  induction l as [|x l IH]; intros Hf; simpl; [reflexivity |].
  rewrite Hf by (left; reflexivity).
  rewrite IH by (intros y Hy; apply Hf; right; exact Hy). reflexivity.
Qed.

(** X1.  Ranking is idempotent: ranking an already ranked list again, under
    the same weights, returns it unchanged. *)
Theorem X1_rank_matches_idempotent (self : RankingAlgorithm.t)
    (ms : list MatchResult) (cw : option (gmap string Q)) :
  RankingAlgorithm.rank_matches self
    (RankingAlgorithm.rank_matches self ms cw) cw =
  RankingAlgorithm.rank_matches self ms cw.
Proof.
  rewrite (rank_matches_unfold self (RankingAlgorithm.rank_matches self ms cw)).
  rewrite map_fixed.
  - apply sorted_reverse_fixed. rewrite rank_matches_unfold.
    apply sorted_reverse_sorted.
  - intros r Hr. apply rank_matches_In in Hr. destruct Hr as (m & _ & ->).
    reflexivity.
Qed.

Lemma component_key_lookup (component : string) :
  RankingAlgorithm.items_lookup
    match RankingAlgorithm.items_lookup component
            RankingAlgorithm.component_map with
    | Some _ => component
    | None => "overall"
    end RankingAlgorithm.component_map = Some (component_of component).
Proof.
  unfold component_of, RankingAlgorithm.component_map. simpl.
  destruct (String.eqb component "skills") eqn:H1; [simpl; rewrite H1; reflexivity |].
  destruct (String.eqb component "experience") eqn:H2;
    [simpl; rewrite H1, H2; reflexivity |].
  destruct (String.eqb component "education") eqn:H3;
    [simpl; rewrite H1, H2, H3; reflexivity |].
  destruct (String.eqb component "semantic") eqn:H4;
    [simpl; rewrite H1, H2, H3, H4; reflexivity |].
  destruct (String.eqb component "overall") eqn:H5.
  - simpl. rewrite H1, H2, H3, H4, H5. reflexivity.
  - reflexivity.
Qed.

(** X2.  [rank_by_component] always returns.  Its output is a rearrangement
    of the input with no score recomputed, sorted non-increasing by the named
    sub-score, and stable; a name that is none of skills, experience,
    education, semantic and overall ranks by the overall score. *)
Theorem X2_rank_by_component_sorted (self : RankingAlgorithm.t)
    (ms : list MatchResult) (component : string) :
  exists out,
    RankingAlgorithm.rank_by_component self ms component = Ok out /\
    Permutation out ms /\
    StronglySorted
      (fun a b => component_of component b <= component_of component a) out /\
    (forall q : Q,
       List.filter (fun m => Qeq_bool (component_of component m) q) out =
       List.filter (fun m => Qeq_bool (component_of component m) q) ms) /\
    (component <> "skills" -> component <> "experience" ->
     component <> "education" -> component <> "semantic" ->
     component_of component = overall_score).
Proof.
  exists (sorted_reverse (component_of component) ms).
  split; [| split; [| split; [| split]]].
  - unfold RankingAlgorithm.rank_by_component.
    rewrite component_key_lookup. reflexivity.
  - apply sorted_reverse_perm.
  - apply (sorted_reverse_sorted (component_of component)).
  - intros q. apply sorted_reverse_stable.
  - intros H1 H2 H3 H4. unfold component_of.
    apply String.eqb_neq in H1, H2, H3, H4. rewrite H1, H2, H3, H4.
    reflexivity.
Qed.

Lemma X2_rank_by_component_sorted_witness :
  component_of "match quality" = overall_score.
Proof.
  destruct (X2_rank_by_component_sorted RankingAlgorithm.__init__ []
              "match quality") as (out & _ & _ & _ & _ & H).
  apply H; discriminate.
Defined.

(** X3.  Ranking by the overall component leaves the output of
    [rank_matches] as it is: the two rankings agree. *)
Theorem X3_rank_by_overall_after_rank_matches (self : RankingAlgorithm.t)
    (ms : list MatchResult) (cw : option (gmap string Q)) :
  RankingAlgorithm.rank_by_component self
    (RankingAlgorithm.rank_matches self ms cw) "overall" =
  Ok (RankingAlgorithm.rank_matches self ms cw).
Proof.
  unfold RankingAlgorithm.rank_by_component. simpl. f_equal.
  apply sorted_reverse_fixed. rewrite rank_matches_unfold.
  apply sorted_reverse_sorted.
Qed.

Lemma StronglySorted_firstn {A : Type} (R : A -> A -> Prop) (n : nat)
    (l : list A) :
  StronglySorted R l -> StronglySorted R (firstn n l).
Proof.
  intros Hs. revert n. induction Hs as [|x l Hs IH Hall]; intros n.
  - rewrite firstn_nil. constructor.
  - destruct n as [|n]; simpl; [constructor |].
    constructor; [apply IH |].
    apply List.Forall_forall. intros y Hy.
    rewrite List.Forall_forall in Hall. apply Hall.
    rewrite <- (firstn_skipn n l). apply in_or_app. left. exact Hy.
Qed.

Lemma slice_to_sorted {A : Type} (R : A -> A -> Prop) (k : Z) (l : list A) :
  StronglySorted R l -> StronglySorted R (slice_to k l).
Proof.
  intros Hs. unfold slice_to.
  destruct (0 <=? k)%Z; apply StronglySorted_firstn, Hs.
Qed.

(** X4.  Every result of [get_top_k] is an input match whose stored overall
    score reached the threshold, with its overall score recomputed under the
    default weights; the results are sorted non-increasing by that new score,
    and there are at most [k] of them when [k] is not negative. *)
Theorem X4_get_top_k_filters_then_ranks (self : RankingAlgorithm.t)
    (ms : list MatchResult) (k : Z) (threshold : Q) :
  let out := RankingAlgorithm.get_top_k self ms k threshold in
  (forall r, In r out ->
     exists m, In m ms /\ threshold <= overall_score m /\
               r = rescore (RankingAlgorithm.default_weights self) m) /\
  StronglySorted (fun a b => overall_score b <= overall_score a) out /\
  ((0 <= k)%Z -> (Z.of_nat (List.length out) <= k)%Z).
Proof.
  unfold RankingAlgorithm.get_top_k. split; [| split].
  - intros r Hr. apply slice_to_In in Hr. apply rank_matches_In in Hr.
    destruct Hr as (m & Hm & ->). apply filter_In in Hm.
    destruct Hm as [Hm Hle]. exists m. split; [exact Hm |].
    split; [apply Qle_bool_iff, Hle | reflexivity].
  - apply slice_to_sorted. rewrite rank_matches_unfold.
    apply (sorted_reverse_sorted overall_score).
  - apply slice_to_length.
Qed.

Lemma X4_get_top_k_filters_then_ranks_witness :
  (Z.of_nat (List.length
     (RankingAlgorithm.get_top_k RankingAlgorithm.__init__
        [Scenario.mk_match "A" 40 100 0 0; Scenario.mk_match "B" 60 72 0 0]
        1 0)) <= 1)%Z.
Proof.
  destruct (X4_get_top_k_filters_then_ranks RankingAlgorithm.__init__
              [Scenario.mk_match "A" 40 100 0 0; Scenario.mk_match "B" 60 72 0 0]
              1 0) as (_ & _ & H).
  apply H. discriminate.
Defined.

(** ** Cosine similarity, further *)

Lemma Qmult_comm_eq (a b : Q) : a * b = b * a.
Proof.
  destruct a as [an ad], b as [bn bd]. unfold Qmult. simpl.
  f_equal; [apply Z.mul_comm | apply Pos.mul_comm].
Qed.

Lemma np_dot_comm (v1 v2 : list Q) :
  SimilarityScorer.np_dot v1 v2 = SimilarityScorer.np_dot v2 v1.
Proof.
  unfold SimilarityScorer.np_dot.
  rewrite (Nat.eqb_sym (List.length v1) (List.length v2)).
  destruct (List.length v2 =? List.length v1)%nat; [| reflexivity].
  f_equal. generalize 0. revert v2.
  induction v1 as [|a v1 IH]; intros [|b v2] acc; simpl; try reflexivity.
  rewrite (Qmult_comm_eq a b). apply IH.
Qed.

(** X5.  Cosine similarity is symmetric: exchanging the two vectors gives the
    same result, and the same error when the call raises. *)
Theorem X5_cosine_similarity_symmetric (E : Env) (a b : option (list Q)) :
  SimilarityScorer.cosine_similarity E a b =
  SimilarityScorer.cosine_similarity E b a.
Proof.
  unfold SimilarityScorer.cosine_similarity.
  destruct a as [v1|], b as [v2|]; try reflexivity.
  rewrite (np_dot_comm v1 v2).
  destruct (SimilarityScorer.np_dot v2 v1) as [d|e]; [| reflexivity]. simpl.
  rewrite (orb_comm (Qeq_bool (np_linalg_norm E v1) 0)).
  rewrite (Qmult_comm_eq (np_linalg_norm E v1)). reflexivity.
Qed.

(** X6.  A vector compared with itself scores 1, provided its norm is not 0
    and the norm oracle is the Euclidean norm on it (its square is the dot
    product of the vector with itself). *)
Theorem X6_cosine_similarity_self (E : Env) (v : list Q) (d : Q) :
  SimilarityScorer.np_dot v v = Ok d ->
  ~ np_linalg_norm E v == 0 ->
  np_linalg_norm E v * np_linalg_norm E v == d ->
  exists s,
    SimilarityScorer.cosine_similarity E (Some v) (Some v) = Ok s /\ s == 1.
Proof.
  intros Hd Hn Hsq. unfold SimilarityScorer.cosine_similarity.
  rewrite Hd. simpl.
  destruct (Qeq_bool (np_linalg_norm E v) 0) eqn:Hz;
    [apply Qeq_bool_iff in Hz; contradiction |]. simpl.
  eexists. split; [reflexivity |].
  rewrite py_clamp, <- Hsq. unfold clamp.
  assert (H1 : np_linalg_norm E v * np_linalg_norm E v /
               (np_linalg_norm E v * np_linalg_norm E v) == 1).
  { apply Qmult_inv_r. intros H. apply Qmult_integral in H. tauto. }
  rewrite H1. reflexivity.
Qed.

Lemma X6_cosine_similarity_self_witness :
  exists s,
    SimilarityScorer.cosine_similarity Scenario.env_down
      (Some [3; 4]) (Some [3; 4]) = Ok s /\ s == 1.
Proof.
  apply (X6_cosine_similarity_self Scenario.env_down [3; 4] 25).
  - vm_compute. reflexivity.
  - vm_compute. discriminate.
  - vm_compute. reflexivity.
Defined.

(** ** Similar jobs *)

Lemma job_embedding_total (E : Env) (self : JobMatcher.t) (j : Job) :
  exists e, JobMatcher._generate_job_embedding E self j = Ok e.
Proof.
  apply (generate_embedding_total E (JobMatcher.embedding_gen self)).
Qed.

(** What the loop appended when it ran to its end. *)
Lemma similarities_loop_Ok (E : Env) (self : JobMatcher.t) (target : Job)
    (temb : option (list Q)) (pool : list Job) (acc res : list (Job * Q)) :
  JobMatcher.similarities_loop E self target temb pool acc = Ok res ->
  exists added,
    res = acc ++ added /\
    (forall j s, In (j, s) added ->
       In j pool /\ job_id j <> job_id target /\
       exists e, JobMatcher._generate_job_embedding E self j = Ok e /\
                 SimilarityScorer.cosine_similarity E temb e = Ok s) /\
    (forall j, In j pool -> job_id j <> job_id target ->
               exists s, In (j, s) added).
Proof.
  revert acc. induction pool as [|j pool IH]; intros acc; simpl.
  - intros [= <-]. exists []. rewrite app_nil_r.
    split; [reflexivity |]. split; [intros j s [] | intros j []].
  - destruct (String.eqb (job_id j) (job_id target)) eqn:Hid.
    + apply String.eqb_eq in Hid. intros H.
      destruct (IH _ H) as (added & -> & Hall & Hcov).
      exists added. split; [reflexivity |]. split.
      * intros j' s Hin. destruct (Hall j' s Hin) as (Hp & Hne & He).
        split; [right; exact Hp | split; assumption].
      * intros j' [<- | Hin] Hne; [contradiction | apply Hcov; assumption].
    + apply String.eqb_neq in Hid.
      destruct (JobMatcher._generate_job_embedding E self j) as [e|x] eqn:He;
        [| discriminate]. simpl.
      destruct (SimilarityScorer.cosine_similarity E temb e) as [s|x] eqn:Hs;
        [| discriminate]. simpl. intros H.
      destruct (IH _ H) as (added & -> & Hall & Hcov).
      exists ((j, s) :: added). split; [rewrite <- app_assoc; reflexivity |].
      split.
      * intros j' s' [[= <- <-] | Hin].
        -- split; [left; reflexivity |]. split; [exact Hid |]. eauto.
        -- destruct (Hall j' s' Hin) as (Hp & Hne & Hex).
           split; [right; exact Hp | split; assumption].
      * intros j' [<- | Hin] Hne.
        -- exists s. left. reflexivity.
        -- destruct (Hcov j' Hin Hne) as [s' Hs']. exists s'. right. exact Hs'.
Qed.

Lemma similarities_loop_length (E : Env) (self : JobMatcher.t) (target : Job)
    (temb : option (list Q)) (pool : list Job) (acc res : list (Job * Q)) :
  JobMatcher.similarities_loop E self target temb pool acc = Ok res ->
  (List.length res <= List.length acc + List.length pool)%nat.
Proof.
  revert acc. induction pool as [|j pool IH]; intros acc; simpl.
  - intros [= <-]. lia.
  - destruct (String.eqb (job_id j) (job_id target)).
    + intros H. apply IH in H. lia.
    + destruct (JobMatcher._generate_job_embedding E self j) as [e|x];
        [| discriminate]. simpl.
      destruct (SimilarityScorer.cosine_similarity E temb e) as [s|x];
        [| discriminate]. simpl.
      intros H. apply IH in H. rewrite length_app in H. simpl in H. lia.
Qed.

Lemma slice_to_all {A : Type} (k : Z) (l : list A) :
  (Z.of_nat (List.length l) <= k)%Z -> slice_to k l = l.
Proof.
  intros Hk. unfold slice_to.
  destruct (0 <=? k)%Z eqn:H0; [| apply Z.leb_gt in H0; lia].
  apply firstn_all2. lia.
Qed.

(** X7.  When [find_similar_jobs] returns, every pair it returns is a job of
    the pool whose identifier differs from the target's, with a similarity
    between 0 and 1 (not scaled to 100); the pairs are sorted non-increasing
    by similarity, there are at most [top_k] of them when [top_k] is not
    negative, and when [top_k] is at least the size of the pool every job of
    the pool with another identifier is among them. *)
Theorem X7_find_similar_jobs_result (E : Env) (self : JobMatcher.t)
    (target : Job) (pool : list Job) (top_k : Z) (out : list (Job * Q)) :
  JobMatcher.find_similar_jobs E self target pool top_k = Ok out ->
  (forall j s, In (j, s) out ->
     In j pool /\ job_id j <> job_id target /\ 0 <= s <= 1) /\
  StronglySorted (fun a b => snd b <= snd a) out /\
  ((0 <= top_k)%Z -> (Z.of_nat (List.length out) <= top_k)%Z) /\
  ((Z.of_nat (List.length pool) <= top_k)%Z ->
   forall j, In j pool -> job_id j <> job_id target ->
             exists s, In (j, s) out).
Proof.
  unfold JobMatcher.find_similar_jobs.
  destruct (JobMatcher._generate_job_embedding E self target) as [temb|x];
    [| discriminate]. simpl.
  destruct (JobMatcher.similarities_loop E self target temb pool [])
    as [sims|x] eqn:Hloop; [| discriminate]. simpl.
  intros [= <-].
  pose proof (similarities_loop_length _ _ _ _ _ _ _ Hloop) as Hlen.
  apply similarities_loop_Ok in Hloop.
  destruct Hloop as (added & -> & Hall & Hcov). simpl in *.
  split; [| split; [| split]].
  - intros j s Hin. apply slice_to_In in Hin.
    apply (Permutation_in _ (sorted_reverse_perm snd added)) in Hin.
    destruct (Hall j s Hin) as (Hp & Hne & e & _ & Hcos).
    split; [exact Hp |]. split; [exact Hne |].
    eapply cosine_similarity_Ok_bounds, Hcos.
  - apply slice_to_sorted. apply (sorted_reverse_sorted snd).
  - apply slice_to_length.
  - intros Hk j Hin Hne. destruct (Hcov j Hin Hne) as [s Hs]. exists s.
    rewrite slice_to_all.
    + apply (Permutation_in _ (Permutation_sym (sorted_reverse_perm snd added))).
      exact Hs.
    + rewrite (Permutation_length (sorted_reverse_perm snd added)). lia.
Qed.

Lemma X7_find_similar_jobs_result_witness :
  exists out,
    JobMatcher.find_similar_jobs Scenario.env_mixed
      (Scenario.matcher 0 10 Scenario.weights73) Scenario.job_good
      [Scenario.job90; Scenario.job_good; Scenario.job73] 5 = Ok out /\
    forall j s, In (j, s) out -> job_id j <> "Good".
Proof.
  eexists. split; [vm_compute; reflexivity |].
  intros j s Hin.
  eapply (X7_find_similar_jobs_result Scenario.env_mixed
            (Scenario.matcher 0 10 Scenario.weights73) Scenario.job_good
            [Scenario.job90; Scenario.job_good; Scenario.job73] 5).
  - vm_compute. reflexivity.
  - exact Hin.
Defined.

(** X8.  [find_similar_jobs] isolates nothing: as soon as comparing the
    target with one job of the pool (of another identifier) raises, the whole
    call raises. *)
Theorem X8_find_similar_jobs_propagates (E : Env) (self : JobMatcher.t)
    (target : Job) (pool : list Job) (top_k : Z) (j : Job)
    (temb e : option (list Q)) (x : exn) :
  In j pool -> job_id j <> job_id target ->
  JobMatcher._generate_job_embedding E self target = Ok temb ->
  JobMatcher._generate_job_embedding E self j = Ok e ->
  SimilarityScorer.cosine_similarity E temb e = Raise x ->
  exists x', JobMatcher.find_similar_jobs E self target pool top_k = Raise x'.
Proof.
  intros Hin Hne Ht He Hx. unfold JobMatcher.find_similar_jobs.
  rewrite Ht. simpl.
  assert (Hloop : forall acc, exists x',
            JobMatcher.similarities_loop E self target temb pool acc = Raise x').
  { induction pool as [|j' pool IH]; [destruct Hin |]. intros acc. simpl.
    destruct (String.eqb (job_id j') (job_id target)) eqn:Hid.
    - apply String.eqb_eq in Hid.
      destruct Hin as [-> | Hin]; [contradiction | apply IH, Hin].
    - destruct (job_embedding_total E self j') as [e' He']. rewrite He'. simpl.
      destruct (SimilarityScorer.cosine_similarity E temb e') as [s|x'] eqn:Hs;
        simpl; [| eauto].
      destruct Hin as [-> | Hin]; [| apply IH, Hin].
      rewrite He in He'. injection He' as <-. congruence. }
  destruct (Hloop []) as [x' Hx']. rewrite Hx'. simpl. eauto.
Qed.

Lemma X8_find_similar_jobs_propagates_witness :
  exists x',
    JobMatcher.find_similar_jobs Scenario.env_mixed
      (Scenario.matcher 0 10 Scenario.weights73) Scenario.job_good
      [Scenario.job90; Scenario.job_bad] 5 = Raise x'.
Proof.
  apply (X8_find_similar_jobs_propagates Scenario.env_mixed
           (Scenario.matcher 0 10 Scenario.weights73) Scenario.job_good
           [Scenario.job90; Scenario.job_bad] 5 Scenario.job_bad
           (Some [1; 0]) (Some [1; 0; 0]) (ValueError "shapes not aligned")).
  - right. left. reflexivity.
  - vm_compute. discriminate.
  - vm_compute. reflexivity.
  - vm_compute. reflexivity.
  - vm_compute. reflexivity.
Defined.

(** ** The orchestrator, further *)

Lemma _calculate_match_missing_key (E : Env) (self : JobMatcher.t)
    (resume : Resume) (remb : option (list Q)) (j : Job)
    (jemb : option (list Q)) :
  let w := MatchingConfig.weights (JobMatcher.config self) in
  w !! "semantic" = None \/ w !! "skills" = None \/
  w !! "experience" = None \/ w !! "education" = None ->
  exists x, JobMatcher._calculate_match E self resume remb j jemb = Raise x.
Proof.
  intros w Hmiss.
  destruct (JobMatcher._calculate_match E self resume remb j jemb) as [m|x] eqn:Hm;
    [| eauto].
  apply _calculate_match_Ok_inv in Hm.
  destruct Hm as (? & ? & ? & ? & ? & _ & H1 & H2 & H3 & H4 & _).
  fold w in H1, H2, H3, H4.
  destruct Hmiss as [H | [H | [H | H]]]; congruence.
Qed.

Lemma scored_jobs_all_raise (E : Env) (self : JobMatcher.t) (resume : Resume)
    (remb : option (list Q)) (pairs : list (Job * option (list Q))) :
  (forall j e, exists x,
     JobMatcher._calculate_match E self resume remb j e = Raise x) ->
  scored_jobs E self resume remb pairs = [].
Proof.
  intros Hall. induction pairs as [|[j e] pairs IH]; [reflexivity |].
  unfold scored_jobs in *. simpl. destruct (Hall j e) as [x ->]. exact IH.
Qed.

(** X9.  A weights dictionary that lacks one of the keys semantic, skills,
    experience and education makes the scoring of every job raise; every job
    is passed over and [match_resume_to_jobs] returns the empty list, for
    every pool. *)
Theorem X9_missing_weight_key_gives_no_match (E : Env) (self : JobMatcher.t)
    (resume : Resume) (jobs : list Job) (top_k : option Z) :
  let w := MatchingConfig.weights (JobMatcher.config self) in
  w !! "semantic" = None \/ w !! "skills" = None \/
  w !! "experience" = None \/ w !! "education" = None ->
  JobMatcher.match_resume_to_jobs E self resume jobs top_k = Ok [].
Proof.
  intros w Hmiss.
  destruct (match_resume_to_jobs_closed E self resume jobs top_k)
    as (remb & jembs & _ & _ & _ & _ & ->).
  rewrite scored_jobs_all_raise
    by (intros j e; apply _calculate_match_missing_key; exact Hmiss).
  simpl. f_equal. unfold slice_to.
  destruct (0 <=? _)%Z; apply firstn_nil.
Qed.

Lemma X9_missing_weight_key_gives_no_match_witness :
  JobMatcher.match_resume_to_jobs Scenario.env_down
    (Scenario.matcher 0 10 {["skills" := 1]}) Scenario.resume0
    [Scenario.job90; Scenario.job73] None = Ok [].
Proof.
  apply X9_missing_weight_key_gives_no_match. left. reflexivity.
Defined.

Lemma _calculate_match_confidence (E : Env) (self : JobMatcher.t)
    (resume : Resume) (remb : option (list Q)) (j : Job)
    (jemb : option (list Q)) (m : MatchResult) :
  JobMatcher._calculate_match E self resume remb j jemb = Ok m ->
  confidence_level m = JobMatcher._calculate_confidence (overall_score m).
Proof.
  unfold JobMatcher._calculate_match, weights_index.
  destruct (SimilarityScorer.cosine_similarity E remb jemb); [| discriminate].
  simpl.
  destruct (_ !! "semantic"); [| discriminate]. simpl.
  destruct (_ !! "skills"); [| discriminate]. simpl.
  destruct (_ !! "experience"); [| discriminate]. simpl.
  destruct (_ !! "education"); [| discriminate]. simpl.
  intros [= <-]. reflexivity.
Qed.

(** In a result of [match_resume_to_jobs], where it came from. *)
Lemma match_resume_to_jobs_In (E : Env) (self : JobMatcher.t)
    (resume : Resume) (jobs : list Job) (top_k : option Z)
    (out : list MatchResult) (m : MatchResult) :
  JobMatcher.match_resume_to_jobs E self resume jobs top_k = Ok out ->
  In m out ->
  exists remb j e m0,
    JobMatcher._generate_resume_embedding E self resume = Ok remb /\
    In j jobs /\
    JobMatcher._generate_job_embedding E self j = Ok e /\
    JobMatcher._calculate_match E self resume remb j e = Ok m0 /\
    m = rescore
          (RankingAlgorithm._get_weights (JobMatcher.ranker self)
             (Some (MatchingConfig.weights (JobMatcher.config self)))) m0 /\
    MatchingConfig.similarity_threshold (JobMatcher.config self) * 100
      <= overall_score m.
Proof.
  intros Hout Hin.
  destruct (match_resume_to_jobs_closed E self resume jobs top_k)
    as (remb & jembs & Hr & _ & Hemb & _ & H).
  rewrite H in Hout. injection Hout as <-.
  apply slice_to_In in Hin. apply filter_In in Hin. destruct Hin as [Hin Hthr].
  apply rank_matches_In in Hin. destruct Hin as (m0 & Hm0 & ->).
  apply scored_jobs_In in Hm0. destruct Hm0 as (j & e & Hpair & Hc).
  exists remb, j, e, m0. split; [exact Hr |].
  split; [eapply in_combine_l, Hpair |].
  split; [apply Hemb, Hpair |]. split; [exact Hc |].
  split; [reflexivity | apply Qle_bool_iff, Hthr].
Qed.

Ltac conf_case :=
  repeat split; intros;
  first [ reflexivity
        | discriminate
        | left; reflexivity
        | right; reflexivity
        | match goal with H : _ \/ _ |- _ => destruct H; discriminate end
        | match goal with H : ?a <> ?a |- _ => exfalso; apply H; reflexivity end ].

(** X10.  The confidence level of a match is the level of the overall score
    that [_calculate_match] stored with it: a match as scored is a strong
    match (threshold 75) exactly when its confidence is High or Very High,
    and a good match (threshold 60) exactly when its confidence is not Low.
    The ranking recomputes the overall score but not the confidence level:
    every result of [match_resume_to_jobs] carries the level of the score its
    job had when it was scored. *)
Theorem X10_confidence_follows_scored_match :
  (forall (E : Env) (self : JobMatcher.t) (resume : Resume)
          (remb : option (list Q)) (j : Job) (jemb : option (list Q))
          (m : MatchResult),
     JobMatcher._calculate_match E self resume remb j jemb = Ok m ->
     confidence_level m = JobMatcher._calculate_confidence (overall_score m) /\
     (is_strong_match m 75 = true <->
      confidence_level m = "High" \/ confidence_level m = "Very High") /\
     (is_good_match m 60 = true <-> confidence_level m <> "Low")) /\
  (forall (E : Env) (self : JobMatcher.t) (resume : Resume) (jobs : list Job)
          (top_k : option Z) (out : list MatchResult) (m : MatchResult),
     JobMatcher.match_resume_to_jobs E self resume jobs top_k = Ok out ->
     In m out ->
     exists remb j e m0,
       JobMatcher._generate_resume_embedding E self resume = Ok remb /\
       In j jobs /\
       JobMatcher._generate_job_embedding E self j = Ok e /\
       JobMatcher._calculate_match E self resume remb j e = Ok m0 /\
       job m = job m0 /\
       confidence_level m = confidence_level m0 /\
       confidence_level m = JobMatcher._calculate_confidence (overall_score m0)).
Proof.
  split.
  - intros E self resume remb j jemb m Hc.
    pose proof (_calculate_match_confidence _ _ _ _ _ _ _ Hc) as Hconf.
    split; [exact Hconf |].
    rewrite Hconf. unfold is_strong_match, is_good_match,
      JobMatcher._calculate_confidence.
    set (s := overall_score m).
    assert (Hcases :
              Qle_bool 85 s = true /\ Qle_bool 75 s = true /\ Qle_bool 60 s = true \/
              Qle_bool 85 s = false /\ Qle_bool 75 s = true /\ Qle_bool 60 s = true \/
              Qle_bool 85 s = false /\ Qle_bool 75 s = false /\ Qle_bool 60 s = true \/
              Qle_bool 85 s = false /\ Qle_bool 75 s = false /\ Qle_bool 60 s = false).
    { destruct (Qle_bool 85 s) eqn:H85.
      - apply Qle_bool_iff in H85. left.
        repeat split; apply Qle_bool_iff; lra.
      - destruct (Qle_bool 75 s) eqn:H75.
        + apply Qle_bool_iff in H75. right. left.
          repeat split; apply Qle_bool_iff; lra.
        + destruct (Qle_bool 60 s); tauto. }
    destruct Hcases as [(-> & -> & ->) | [(-> & -> & ->) | [(-> & -> & ->) |
                        (-> & -> & ->)]]]; conf_case.
  - intros E self resume jobs top_k out m Hout Hin.
    destruct (match_resume_to_jobs_In _ _ _ _ _ _ _ Hout Hin)
      as (remb & j & e & m0 & Hr & Hj & He & Hc & -> & _).
    exists remb, j, e, m0.
    split; [exact Hr |]. split; [exact Hj |]. split; [exact He |].
    split; [exact Hc |]. split; [reflexivity |]. split; [reflexivity |].
    exact (_calculate_match_confidence _ _ _ _ _ _ _ Hc).
Qed.

Lemma X10_confidence_follows_scored_match_witness :
  exists m,
    JobMatcher._calculate_match Scenario.env_mixed
      (Scenario.matcher 0 10 Scenario.weights73) Scenario.resume0
      (Some [1; 0]) Scenario.job73 (Some [1; 0]) = Ok m /\
    confidence_level m = "High" /\
    is_strong_match m 75 = true.
Proof.
  eexists. split; [vm_compute; reflexivity |].
  split; [reflexivity |].
  destruct X10_confidence_follows_scored_match as [H _].
  eapply (H Scenario.env_mixed (Scenario.matcher 0 10 Scenario.weights73)
            Scenario.resume0 (Some [1; 0]) Scenario.job73 (Some [1; 0])).
  - vm_compute. reflexivity.
  - left. reflexivity.
Defined.

Lemma generate_embedding_down (E : Env) (self : EmbeddingGenerator.t)
    (text : string) :
  EmbeddingGenerator.provider self = "openai" ->
  (forall model input, exists x,
     openai_embeddings_create E model input = Raise x) ->
  EmbeddingGenerator.generate_embedding E self text =
  Ok (Some (EmbeddingGenerator.np_zeros (EmbeddingGenerator.dimension self))).
Proof.
  intros Hp Hdown. destruct (all_space text) eqn:Hb.
  - apply generate_embedding_blank, Hb.
  - destruct (Hdown (EmbeddingGenerator.model self) (str_take 8000 text))
      as [x Hx].
    eapply generate_embedding_failure; eassumption.
Qed.

(** X11.  While the embedding service is down (every call raises), a matcher
    built by [JobMatcher.__init__] gives every result a semantic sub-score of
    0, provided the norm oracle gives 0 on the zero vector; the jobs are
    still matched on skills, experience and education. *)
Theorem X11_service_down_semantic_score_zero (E : Env)
    (cfg : option MatchingConfig.t) (resume : Resume) (jobs : list Job)
    (top_k : option Z) (out : list MatchResult) (m : MatchResult) :
  (forall model input, exists x,
     openai_embeddings_create E model input = Raise x) ->
  np_linalg_norm E (repeat 0 1536) == 0 ->
  JobMatcher.match_resume_to_jobs E (JobMatcher.__init__ cfg) resume jobs top_k
    = Ok out ->
  In m out ->
  semantic_similarity_score m == 0.
Proof.
  intros Hdown Hnorm Hout Hin.
  destruct (match_resume_to_jobs_In _ _ _ _ _ _ _ Hout Hin)
    as (remb & j & e & m0 & Hr & _ & He & Hc & -> & _).
  unfold JobMatcher._generate_resume_embedding,
    JobMatcher._generate_job_embedding in Hr, He.
  rewrite generate_embedding_down in Hr by (reflexivity || exact Hdown).
  rewrite generate_embedding_down in He by (reflexivity || exact Hdown).
  injection Hr as <-. injection He as <-.
  apply _calculate_match_Ok_inv in Hc.
  destruct Hc as (sem & ? & ? & ? & ? & Hcos & _ & _ & _ & _ & _ & Hsem & _).
  change (semantic_similarity_score (rescore _ m0))
    with (semantic_similarity_score m0).
  rewrite Hsem.
  apply cosine_similarity_Ok_inv in Hcos.
  destruct Hcos as (v1 & v2 & d & [= <-] & _ & _ & [[_ ->] | (Hn & _)]).
  - reflexivity.
  - exfalso. apply Hn. exact Hnorm.
Qed.

Lemma X11_service_down_semantic_score_zero_witness :
  exists out,
    JobMatcher.match_resume_to_jobs Scenario.env_down
      (JobMatcher.__init__ None) Scenario.resume0 [Scenario.job90] None
      = Ok out /\
    forall m, In m out -> semantic_similarity_score m == 0.
Proof.
  destruct (match_resume_to_jobs_total Scenario.env_down
              (JobMatcher.__init__ None) Scenario.resume0 [Scenario.job90] None)
    as [out Hout].
  exists out. split; [exact Hout |]. intros m Hm.
  apply (X11_service_down_semantic_score_zero Scenario.env_down None
           Scenario.resume0 [Scenario.job90] None out m).
  - intros model input. exists (APIError "unavailable"). reflexivity.
  - vm_compute. reflexivity.
  - exact Hout.
  - exact Hm.
Defined.

(** X12.  The [remote] flag of a posting, and with it the location
    sub-score, has no influence on the match: changing the flag changes the
    text to embed and every other score of the match, overall score and
    confidence included, in nothing; only [location_match_score] follows the
    flag, 100 for a remote posting and 80 otherwise. *)
Theorem X12_remote_flag_only_moves_location_score (E : Env)
    (self : JobMatcher.t) (resume : Resume) (remb : option (list Q)) (j : Job)
    (jemb : option (list Q)) (b : bool) (m : MatchResult) :
  JobMatcher._calculate_match E self resume remb j jemb = Ok m ->
  JobMatcher._prepare_job_for_embedding (with_remote j b) =
  JobMatcher._prepare_job_for_embedding j /\
  exists m',
    JobMatcher._calculate_match E self resume remb (with_remote j b) jemb
      = Ok m' /\
    overall_score m' = overall_score m /\
    confidence_level m' = confidence_level m /\
    explanation m' = explanation m /\
    skills_match_score m' = skills_match_score m /\
    experience_match_score m' = experience_match_score m /\
    education_match_score m' = education_match_score m /\
    semantic_similarity_score m' = semantic_similarity_score m /\
    matched_skills m' = matched_skills m /\
    missing_skills m' = missing_skills m /\
    location_match_score m' == (if b then 100 else 80).
Proof.
  intros Hm. split; [reflexivity |].
  unfold JobMatcher._calculate_match, weights_index in *.
  destruct (SimilarityScorer.cosine_similarity E remb jemb); [| discriminate].
  simpl in *.
  destruct (_ !! "semantic"); [| discriminate]. simpl in *.
  destruct (_ !! "skills"); [| discriminate]. simpl in *.
  destruct (_ !! "experience"); [| discriminate]. simpl in *.
  destruct (_ !! "education"); [| discriminate]. simpl in *.
  injection Hm as <-. eexists. split; [reflexivity |]. simpl.
  repeat (split; [reflexivity |]).
  unfold JobMatcher._calculate_location_match. simpl.
  destruct b; reflexivity.
Qed.

Lemma X12_remote_flag_only_moves_location_score_witness :
  exists m',
    JobMatcher._calculate_match Scenario.env_down
      (Scenario.matcher 0 10 Scenario.weights73) Scenario.resume0
      (Some [0; 0]) (with_remote Scenario.job90 true) (Some [0; 0]) = Ok m' /\
    Qred (overall_score m') = 90 /\ Qred (location_match_score m') = 100.
Proof.
  destruct (JobMatcher._calculate_match Scenario.env_down
              (Scenario.matcher 0 10 Scenario.weights73) Scenario.resume0
              (Some [0; 0]) Scenario.job90 (Some [0; 0])) as [m|x] eqn:Hm;
    [| vm_compute in Hm; discriminate].
  destruct (X12_remote_flag_only_moves_location_score _ _ _ _ _ _ true _ Hm)
    as (_ & m' & Hm' & _).
  exists m'. split; [exact Hm' |].
  vm_compute in Hm'. injection Hm' as <-. split; reflexivity.
Defined.

(** ** Skills, further *)

Lemma skills_match_sets (rs rs' qs qs' : list string) :
  set_lower rs = set_lower rs' -> set_lower qs = set_lower qs' ->
  JobMatcher._calculate_skills_match rs qs =
  JobMatcher._calculate_skills_match rs' qs'.
Proof.
  intros Hrs Hqs. unfold JobMatcher._calculate_skills_match.
  destruct qs as [|q qs], qs' as [|q' qs']; [reflexivity | | |].
  - symmetry in Hqs. apply set_lower_empty_iff in Hqs. discriminate.
  - apply set_lower_empty_iff in Hqs. discriminate.
  - destruct rs as [|r rs], rs' as [|r' rs']; [reflexivity | | |].
    + symmetry in Hrs. apply set_lower_empty_iff in Hrs. discriminate.
    + apply set_lower_empty_iff in Hrs. discriminate.
    + rewrite Hrs, Hqs. reflexivity.
Qed.

Lemma set_lower_perm (xs ys : list string) :
  Permutation xs ys -> set_lower xs = set_lower ys.
Proof.
  intros Hp. apply set_eq. intros k. rewrite !elem_of_set_lower.
  split; intros (s & Hin & Hk); exists s; split; try exact Hk.
  - eapply Permutation_in; eassumption.
  - eapply Permutation_in; [symmetry |]; eassumption.
Qed.

Lemma lower_char_idempotent (c : ascii) :
  lower_char (lower_char c) = lower_char c.
Proof.
  destruct c as [[] [] [] [] [] [] [] []]; reflexivity.
Qed.

Lemma lower_idempotent (s : string) : lower (lower s) = lower s.
Proof.
  induction s as [|c s IH]; simpl; [reflexivity |].
  rewrite lower_char_idempotent, IH. reflexivity.
Qed.

Lemma set_lower_map_lower (xs : list string) :
  set_lower (map lower xs) = set_lower xs.
Proof.
  apply set_eq. intros k. rewrite !elem_of_set_lower. split.
  - intros (s & Hin & Hk). apply in_map_iff in Hin.
    destruct Hin as (s0 & <- & Hin0). exists s0.
    rewrite lower_idempotent in Hk. tauto.
  - intros (s & Hin & Hk). exists (lower s).
    split; [apply in_map, Hin | rewrite lower_idempotent; exact Hk].
Qed.

(** X13.  The skills sub-score depends only on the two sets of lower-cased
    skills: the order of the lists, repeated entries and the case of the
    letters change nothing. *)
Theorem X13_skills_score_ignores_order_and_case :
  (forall rs rs' qs qs' : list string,
     set_lower rs = set_lower rs' -> set_lower qs = set_lower qs' ->
     JobMatcher._calculate_skills_match rs qs =
     JobMatcher._calculate_skills_match rs' qs') /\
  (forall rs rs' qs qs' : list string,
     Permutation rs rs' -> Permutation qs qs' ->
     JobMatcher._calculate_skills_match rs qs =
     JobMatcher._calculate_skills_match rs' qs') /\
  (forall rs qs : list string,
     JobMatcher._calculate_skills_match (map lower rs) (map lower qs) =
     JobMatcher._calculate_skills_match rs qs) /\
  (forall (r : string) (rs qs : list string),
     In r rs ->
     JobMatcher._calculate_skills_match (r :: rs) qs =
     JobMatcher._calculate_skills_match rs qs).
Proof.
  split; [exact skills_match_sets |]. split; [| split].
  - intros rs rs' qs qs' Hr Hq.
    apply skills_match_sets; apply set_lower_perm; assumption.
  - intros rs qs. apply skills_match_sets; apply set_lower_map_lower.
  - intros r rs qs Hin. apply skills_match_sets; [| reflexivity].
    apply set_eq. intros k. rewrite !elem_of_set_lower. split.
    + intros (s & [<- | Hs] & Hk); eauto.
    + intros (s & Hs & Hk). exists s. split; [right; exact Hs | exact Hk].
Qed.

Lemma X13_skills_score_ignores_order_and_case_witness :
  JobMatcher._calculate_skills_match ["AWS"; "Python"] ["Django"; "AWS"] =
  JobMatcher._calculate_skills_match ["Python"; "AWS"] ["AWS"; "Django"].
Proof.
  destruct X13_skills_score_ignores_order_and_case as (_ & H & _).
  apply H; apply perm_swap.
Defined.

Lemma exact_partial_counts (S R : gset string) :
  (exact_count S R + partial_count S R <= size R)%nat.
Proof.
  unfold exact_count, partial_count. rewrite <- size_union.
  - apply subseteq_size. intros x Hx. apply elem_of_union in Hx.
    destruct Hx as [Hx | Hx]; apply elem_of_filter in Hx; tauto.
  - intros x H1 H2. apply elem_of_filter in H1, H2.
    destruct H1 as [H1 _], H2 as [[H2 _] _]. exact (H2 H1).
Qed.

Lemma exact_count_all (S R : gset string) :
  exact_count S R = size R <-> R ⊆ S.
Proof.
  unfold exact_count. split.
  - intros Hsz x Hx.
    assert (Heq : filter (exact_match S) R = R).
    { apply set_subseteq_size_eq; [| lia].
      intros y Hy. apply elem_of_filter in Hy. tauto. }
    rewrite <- Heq in Hx. apply elem_of_filter in Hx. tauto.
  - intros Hsub. f_equal. apply set_eq. intros x. rewrite elem_of_filter.
    unfold exact_match. split; [tauto | intros Hx; split; [apply Hsub |]; exact Hx].
Qed.

Lemma size_set_lower_pos (q : string) (qs : list string) :
  0 < inject_Z (Z.of_nat (size (set_lower (q :: qs)))).
Proof.
  change 0 with (inject_Z 0). rewrite <- Zlt_Qlt.
  change 0%Z with (Z.of_nat 0). apply Nat2Z.inj_lt.
  destruct (size (set_lower (q :: qs))) eqn:Hsz; [| lia].
  apply size_empty_iff, leibniz_equiv, set_lower_empty_iff in Hsz.
  discriminate.
Qed.

Lemma Qle_div_iff (a b c : Q) : 0 < c -> (a <= b / c <-> a * c <= b).
Proof.
  intros Hc. split; [| apply Qle_shift_div_l, Hc].
  intros H. apply (Qmult_le_compat_r _ _ c) in H; [| apply Qlt_le_weak, Hc].
  assert (Hbc : b / c * c == b).
  { rewrite Qmult_comm. apply Qmult_div_r. intros H0. rewrite H0 in Hc.
    exact (Qlt_irrefl _ Hc). }
  rewrite Hbc in H. exact H.
Qed.

Lemma identify_missing_nil_iff (rs qs : list string) :
  JobMatcher._identify_missing_skills rs qs = [] <->
  forall r, r ∈ set_lower qs ->
            exact_match (set_lower rs) r \/ partial_match (set_lower rs) r.
Proof.
  split.
  - intros Hnil r Hr.
    destruct (decide (exact_match (set_lower rs) r)) as [He | Hne]; [tauto |].
    right. split; [exact Hne |]. apply partial_with_iff.
    destruct (JobMatcher.partial_with (set_lower rs) r) eqn:Hp; [reflexivity |].
    exfalso. apply elem_of_set_lower in Hr.
    destruct (dict_lower_items_fold_key qs [] r) as [q' Hq']; [right; exact Hr |].
    assert (Hin : In q' (JobMatcher._identify_missing_skills rs qs)).
    { apply identify_missing_skills_In. exists r. tauto. }
    rewrite Hnil in Hin. exact Hin.
  - intros Hall.
    destruct (JobMatcher._identify_missing_skills rs qs) as [|q l] eqn:Hm;
      [reflexivity |].
    exfalso.
    assert (Hin : In q (JobMatcher._identify_missing_skills rs qs))
      by (rewrite Hm; left; reflexivity).
    apply identify_missing_skills_In in Hin.
    destruct Hin as (k & Hk & Hno & Hp).
    apply dict_lower_items_In in Hk. destruct Hk as [Hq <-].
    destruct (Hall (lower q)) as [He | [_ Hex]].
    + apply elem_of_set_lower. eauto.
    + exact (Hno He).
    + apply partial_with_iff in Hex. congruence.
Qed.

(** X14.  Against a non-empty list of required skills the skills sub-score
    is 1 exactly when every required skill equals, ignoring case, a skill of
    the candidate; no skill is then reported missing. *)
Theorem X14_full_skills_score_iff_all_exact (rs qs : list string) :
  qs <> [] ->
  (JobMatcher._calculate_skills_match rs qs == 1 <->
   set_lower qs ⊆ set_lower rs) /\
  (JobMatcher._calculate_skills_match rs qs == 1 ->
   JobMatcher._identify_missing_skills rs qs = []).
Proof.
  intros Hqs. destruct qs as [|q qs]; [contradiction |]. clear Hqs.
  set (S := set_lower rs). set (R := set_lower (q :: qs)).
  assert (Hiff : JobMatcher._calculate_skills_match rs (q :: qs) == 1 <-> R ⊆ S).
  { rewrite skills_match_refines. unfold skills_score_spec. fold S R.
    rewrite decide_False by (unfold R; rewrite set_lower_empty_iff; discriminate).
    rewrite Q.min_l_iff, Qle_div_iff by apply size_set_lower_pos.
    fold R. rewrite <- exact_count_all.
    pose proof (exact_partial_counts S R) as Hle.
    set (e := exact_count S R) in *. set (p := partial_count S R) in *.
    set (n := size R) in *.
    split.
    - intros H.
      assert (H2 : inject_Z (2 * Z.of_nat n) <=
                   inject_Z (2 * Z.of_nat e + Z.of_nat p)).
      { rewrite inject_Z_plus, !inject_Z_mult.
        change (inject_Z 2) with 2. lra. }
      rewrite <- Zle_Qle in H2. lia.
    - intros ->.
      assert (Hp : 0 <= inject_Z (Z.of_nat p))
        by (change 0 with (inject_Z 0); rewrite <- Zle_Qle; lia).
      lra. }
  split; [exact Hiff |].
  intros H1. apply Hiff in H1. apply identify_missing_nil_iff.
  intros r Hr. left. apply H1, Hr.
Qed.

Lemma X14_full_skills_score_iff_all_exact_witness :
  JobMatcher._calculate_skills_match ["AWS"; "python"] ["Python"; "aws"] == 1 /\
  JobMatcher._identify_missing_skills ["AWS"; "python"] ["Python"; "aws"] = [].
Proof.
  destruct (X14_full_skills_score_iff_all_exact
              ["AWS"; "python"] ["Python"; "aws"]) as [_ H]; [discriminate |].
  assert (H1 : JobMatcher._calculate_skills_match
                 ["AWS"; "python"] ["Python"; "aws"] == 1)
    by (vm_compute; reflexivity).
  split; [exact H1 | exact (H H1)].
Defined.

(** X15.  When no required skill is reported missing, every required skill
    has an exact or a partial match, and the skills sub-score is at least
    one half. *)
Theorem X15_no_missing_skill_scores_half (rs qs : list string) :
  JobMatcher._identify_missing_skills rs qs = [] ->
  0.5 <= JobMatcher._calculate_skills_match rs qs.
Proof.
  intros Hnil. destruct qs as [|q qs]; [discriminate |].
  set (S := set_lower rs). set (R := set_lower (q :: qs)).
  rewrite skills_match_refines. unfold skills_score_spec. fold S R.
  rewrite decide_False by (unfold R; rewrite set_lower_empty_iff; discriminate).
  apply Q.min_glb; [discriminate |].
  apply Qle_div_iff; [apply size_set_lower_pos |]. fold R.
  assert (Hsum : (exact_count S R + partial_count S R = size R)%nat).
  { unfold exact_count, partial_count. rewrite <- size_union.
    - f_equal. apply set_eq. intros x.
      rewrite elem_of_union, !elem_of_filter. split; [tauto |].
      intros Hx.
      destruct (proj1 (identify_missing_nil_iff rs (q :: qs)) Hnil x Hx);
        tauto.
    - intros x H1 H2. apply elem_of_filter in H1, H2.
      destruct H1 as [H1 _], H2 as [[H2 _] _]. exact (H2 H1). }
  rewrite <- Hsum. rewrite Nat2Z.inj_add, inject_Z_plus.
  assert (He : 0 <= inject_Z (Z.of_nat (exact_count S R)))
    by (change 0 with (inject_Z 0); rewrite <- Zle_Qle; lia).
  lra.
Qed.

Lemma X15_no_missing_skill_scores_half_witness :
  0.5 <= JobMatcher._calculate_skills_match
           ["JavaScript"] ["Java"; "Script"].
Proof.
  apply X15_no_missing_skill_scores_half. vm_compute. reflexivity.
Defined.

(** ** Experience, further *)

Ltac qle_hyps :=
  repeat match goal with
         | H : Qle_bool _ _ = true |- _ => apply Qle_bool_iff in H
         | H : Qle_bool _ _ = false |- _ => apply Qle_bool_false in H
         end.

Lemma experience_score_spec_mono (c c' : Q) (req : option Q) :
  c <= c' -> experience_score_spec c req <= experience_score_spec c' req.
Proof.
  intros Hc. unfold experience_score_spec. destruct req as [r|]; [| lra].
  destruct (Qle_bool r c) eqn:H1; destruct (Qle_bool r c') eqn:H1';
    destruct (Qle_bool (0.7 * r) c) eqn:H2;
    destruct (Qle_bool (0.7 * r) c') eqn:H2';
    destruct (Qle_bool (0.5 * r) c) eqn:H3;
    destruct (Qle_bool (0.5 * r) c') eqn:H3';
    qle_hyps; lra.
Qed.

(** X16.  More experience entries never lower the experience sub-score: a
    résumé with at least as many entries as another scores at least as much
    against the same posting. *)
Theorem X16_experience_score_monotone (r r' : Resume) (j : Job) :
  (List.length (experience r) <= List.length (experience r'))%nat ->
  JobMatcher._calculate_experience_match r j <=
  JobMatcher._calculate_experience_match r' j.
Proof.
  intros Hlen. rewrite !experience_match_step.
  apply experience_score_spec_mono.
  assert (H : inject_Z (Z.of_nat (List.length (experience r))) <=
              inject_Z (Z.of_nat (List.length (experience r'))))
    by (rewrite <- Zle_Qle; lia).
  lra.
Qed.

Lemma X16_experience_score_monotone_witness :
  JobMatcher._calculate_experience_match
    {| resume_id := ""; summary := ""; experience := [∅]; education := [];
       skills := [] |} Scenario.job5 <=
  JobMatcher._calculate_experience_match Scenario.resume0 Scenario.job5.
Proof.
  apply X16_experience_score_monotone. simpl. lia.
Defined.

Lemma get_total_experience_years_eq (r : Resume) :
  get_total_experience_years r ==
  inject_Z (Z.of_nat (List.length (experience r))) * 2.5.
Proof.
  unfold get_total_experience_years.
  destruct (experience r); [reflexivity | reflexivity].
Qed.

(** X17.  The experience sub-score never exceeds the one the step function
    gives for the years of [Resume.get_total_experience_years]: counting two
    years per entry instead of two and a half can only lower a score. *)
Theorem X17_experience_score_below_model_years (r : Resume) (j : Job) :
  JobMatcher._calculate_experience_match r j <=
  experience_score_spec (get_total_experience_years r)
    (if str_truthy (experience_required j)
     then Some (inject_Z (JobMatcher._parse_experience_years
                            (experience_required j)))
     else None).
Proof.
  rewrite experience_match_step. apply experience_score_spec_mono.
  rewrite get_total_experience_years_eq.
  assert (H : 0 <= inject_Z (Z.of_nat (List.length (experience r))))
    by (change 0 with (inject_Z 0); rewrite <- Zle_Qle; lia).
  lra.
Qed.

(** *** Reading the number of years *)

Lemma lower_app (a b : string) : lower (a +:+ b) = lower a +:+ lower b.
Proof.
  induction a as [|c a IH]; simpl; [reflexivity | rewrite IH; reflexivity].
Qed.

Lemma is_digit_lower_char (c : ascii) : is_digit (lower_char c) = is_digit c.
Proof. destruct c as [[] [] [] [] [] [] [] []]; reflexivity. Qed.

Lemma is_space_lower_char (c : ascii) : is_space (lower_char c) = is_space c.
Proof. destruct c as [[] [] [] [] [] [] [] []]; reflexivity. Qed.

Lemma digit_lower_char (c : ascii) : is_digit c = true -> lower_char c = c.
Proof. destruct c as [[] [] [] [] [] [] [] []]; (reflexivity || discriminate). Qed.

Lemma no_digit_lower (s : string) : no_digit (lower s) = no_digit s.
Proof.
  induction s as [|c s IH]; simpl; [reflexivity |].
  rewrite is_digit_lower_char, IH. reflexivity.
Qed.

Lemma all_space_lower (s : string) : all_space (lower s) = all_space s.
Proof.
  induction s as [|c s IH]; simpl; [reflexivity |].
  rewrite is_space_lower_char, IH. reflexivity.
Qed.

Lemma all_digits_lower (s : string) : all_digits s = true -> lower s = s.
Proof.
  induction s as [|c s IH]; simpl; [reflexivity |].
  intros H. apply andb_true_iff in H. destruct H as [Hc Hs].
  rewrite (digit_lower_char c Hc), (IH Hs). reflexivity.
Qed.

Lemma span_digits_app (ds rest : string) :
  all_digits ds = true -> starts_without_digit rest ->
  span_digits (ds +:+ rest) = (ds, rest).
Proof.
  intros Hds Hrest. induction ds as [|c ds IH]; simpl.
  - destruct rest as [|c rest]; [reflexivity |]. simpl in *.
    rewrite Hrest. reflexivity.
  - simpl in Hds. apply andb_true_iff in Hds. destruct Hds as [Hc Hds].
    rewrite Hc, (IH Hds). reflexivity.
Qed.

Lemma drop_space_app (ws rest : string) :
  all_space ws = true -> drop_space (ws +:+ rest) = drop_space rest.
Proof.
  induction ws as [|c ws IH]; simpl; [reflexivity |].
  intros H. apply andb_true_iff in H. destruct H as [Hc Hws].
  rewrite Hc. apply IH, Hws.
Qed.

Lemma match_years_at_no_digit (s : string) :
  starts_without_digit s -> match_years_at s = None.
Proof.
  destruct s as [|c s]; [reflexivity |]. simpl. intros Hc.
  unfold match_years_at. simpl. rewrite Hc. reflexivity.
Qed.

Lemma find_years_skip (pre s : string) :
  no_digit pre = true -> find_years (pre +:+ s) = find_years s.
Proof.
  induction pre as [|c pre IH]; simpl; [reflexivity |].
  intros H. apply andb_true_iff in H. destruct H as [Hc Hpre].
  apply negb_true_iff in Hc.
  rewrite match_years_at_no_digit by exact Hc. apply IH, Hpre.
Qed.

Lemma find_years_no_digit (s : string) :
  no_digit s = true -> find_years s = None.
Proof.
  induction s as [|c s IH]; simpl; [reflexivity |].
  intros H. apply andb_true_iff in H. destruct H as [Hc Hs].
  apply negb_true_iff in Hc.
  rewrite match_years_at_no_digit by exact Hc. apply IH, Hs.
Qed.

Lemma find_years_match (s digits : string) :
  s <> "" -> match_years_at s = Some digits -> find_years s = Some digits.
Proof.
  destruct s as [|c s]; [contradiction |]. intros _ H. simpl find_years.
  rewrite H. reflexivity.
Qed.

Lemma all_space_starts_without_digit (ws rest : string) :
  all_space ws = true -> starts_without_digit rest ->
  starts_without_digit (ws +:+ rest).
Proof.
  destruct ws as [|c ws]; simpl; [tauto |].
  intros H _. apply andb_true_iff in H. destruct H as [Hc _].
  revert Hc. destruct c as [[] [] [] [] [] [] [] []];
    (reflexivity || discriminate).
Qed.

Lemma all_space_no_plus (ws rest : string) :
  all_space ws = true -> rest <> EmptyString ->
  (forall rest', rest <> String "+" rest') ->
  drop_plus (ws +:+ rest) = ws +:+ rest.
Proof.
  destruct ws as [|c ws]; simpl.
  - intros _ Hne Hplus. destruct rest as [|c rest]; [contradiction |].
    unfold drop_plus.
    destruct c as [[] [] [] [] [] [] [] []]; try reflexivity.
    exfalso. eapply Hplus. reflexivity.
  - intros H _ _. apply andb_true_iff in H. destruct H as [Hc _].
    revert Hc. unfold drop_plus.
    destruct c as [[] [] [] [] [] [] [] []]; (reflexivity || discriminate).
Qed.

(** X18.  Reading a requirement: when the text, before its first digit,
    holds no digit, and goes on with a run of digits, an optional plus sign,
    optional white space and the word year or yr in any case, the number of
    years read is the number those digits write, whatever follows. *)
Theorem X18_parse_experience_years_reads_number
    (pre ds plus ws unit tail : string) :
  no_digit pre = true ->
  all_digits ds = true -> ds <> "" ->
  plus = "" \/ plus = "+" ->
  all_space ws = true ->
  lower unit = "year" \/ lower unit = "yr" ->
  JobMatcher._parse_experience_years
    (pre +:+ ds +:+ plus +:+ ws +:+ unit +:+ tail) = int_of_digits ds.
Proof.
  intros Hpre Hds Hne Hplus Hws Hunit.
  unfold JobMatcher._parse_experience_years.
  rewrite !lower_app, (all_digits_lower ds Hds).
  rewrite find_years_skip by (rewrite no_digit_lower; exact Hpre).
  assert (Hplus' : lower plus = plus) by (destruct Hplus; subst; reflexivity).
  rewrite Hplus'.
  set (rest := lower ws +:+ lower unit +:+ lower tail).
  assert (Hwsl : all_space (lower ws) = true)
    by (rewrite all_space_lower; exact Hws).
  assert (Hunit_rest : forall t, drop_space (lower unit +:+ t) = lower unit +:+ t)
    by (intros t; destruct Hunit as [-> | ->]; reflexivity).
  assert (Hrest_drop : drop_space rest = lower unit +:+ lower tail).
  { unfold rest. rewrite drop_space_app by exact Hwsl. apply Hunit_rest. }
  assert (Hrest_nd : starts_without_digit rest).
  { unfold rest. apply all_space_starts_without_digit; [exact Hwsl |].
    destruct Hunit as [-> | ->]; reflexivity. }
  assert (Hrest_plus : drop_plus rest = rest).
  { unfold rest. apply all_space_no_plus; [exact Hwsl | |].
    - destruct Hunit as [-> | ->]; discriminate.
    - intros rest'. destruct Hunit as [-> | ->]; discriminate. }
  assert (Hmatch : match_years_at (ds +:+ plus +:+ rest) = Some ds).
  { unfold match_years_at.
    rewrite span_digits_app;
      [| exact Hds | destruct Hplus; subst; [exact Hrest_nd | reflexivity]].
    assert (Ht : str_truthy ds = true) by (destruct ds; [contradiction | reflexivity]).
    rewrite Ht.
    assert (Hdp : drop_space (drop_plus (plus +:+ rest)) =
                  lower unit +:+ lower tail).
    { destruct Hplus; subst plus.
      - change ("" +:+ rest) with rest. rewrite Hrest_plus. exact Hrest_drop.
      - change (drop_plus ("+" +:+ rest)) with rest. exact Hrest_drop. }
    rewrite Hdp. destruct Hunit as [-> | ->]; destruct (lower tail); reflexivity. }
  rewrite (find_years_match _ ds); [reflexivity | | exact Hmatch].
  destruct ds; [contradiction | discriminate].
Qed.

Lemma X18_parse_experience_years_reads_number_witness :
  JobMatcher._parse_experience_years
    ("At least " +:+ "12" +:+ "+" +:+ "  " +:+ "Year" +:+ "s of Python")
  = 12%Z.
Proof.
  apply (X18_parse_experience_years_reads_number
           "At least " "12" "+" "  " "Year" "s of Python").
  - reflexivity.
  - reflexivity.
  - discriminate.
  - right. reflexivity.
  - reflexivity.
  - left. reflexivity.
Defined.

(** X19.  A requirement text without any digit states no number of years:
    it reads as 0 years, and every candidate, even one without experience,
    gets the full experience sub-score. *)
Theorem X19_requirement_without_number_scores_full (r : Resume) (j : Job) :
  no_digit (experience_required j) = true ->
  JobMatcher._parse_experience_years (experience_required j) = 0%Z /\
  JobMatcher._calculate_experience_match r j = 1.
Proof.
  intros Hnd.
  assert (Hp : JobMatcher._parse_experience_years (experience_required j) = 0%Z).
  { unfold JobMatcher._parse_experience_years.
    rewrite find_years_no_digit by (rewrite no_digit_lower; exact Hnd).
    reflexivity. }
  split; [exact Hp |].
  unfold JobMatcher._calculate_experience_match. rewrite Hp.
  destruct (negb (str_truthy (experience_required j))); [reflexivity |].
  assert (Hle : (0 <=? Z.of_nat (List.length (experience r)) * 2)%Z = true)
    by (apply Z.leb_le; lia).
  rewrite Hle. reflexivity.
Qed.

Lemma X19_requirement_without_number_scores_full_witness :
  JobMatcher._calculate_experience_match
    {| resume_id := ""; summary := ""; experience := []; education := [];
       skills := [] |}
    (Scenario.mk_job "J" [] "Senior level, several years" "") = 1.
Proof.
  apply X19_requirement_without_number_scores_full. reflexivity.
Defined.

(** ** Education *)

Lemma education_match_levels (r : Resume) (j : Job) :
  JobMatcher._calculate_education_match r j =
  if negb (str_truthy (education_required j)) then 1
  else
    match education r with
    | [] => 0.5
    | _ =>
        if (required_level_of (education_required j)
              <=? resume_level_of (education r))%Z then 1
        else if (required_level_of (education_required j) - 1
                   <=? resume_level_of (education r))%Z then 0.7
        else 0.5
    end.
Proof. reflexivity. Qed.

Lemma level_fold_max (degree : string) (l : list (string * Z)) (acc : Z) :
  (0 <= acc)%Z ->
  fold_left
    (fun resume_level '(key, level) =>
       if str_in key degree then Z.max resume_level level else resume_level)
    l acc =
  Z.max acc
    (fold_left
       (fun resume_level '(key, level) =>
          if str_in key degree then Z.max resume_level level else resume_level)
       l 0%Z).
Proof.
  revert acc. induction l as [|[key level] l IH]; intros acc Hacc; simpl.
  - lia.
  - destruct (str_in key degree).
    + rewrite (IH (Z.max acc level)) by lia.
      rewrite (IH (Z.max 0 level)) by lia. lia.
    + apply IH, Hacc.
Qed.

Lemma degree_level_in_max (degree : string) (acc : Z) :
  (0 <= acc)%Z ->
  degree_level_in degree acc = Z.max acc (degree_level_in degree 0).
Proof. apply level_fold_max. Qed.

Lemma resume_level_fold_char (edus : list (gmap string string)) (acc L : Z) :
  (0 <= acc)%Z ->
  (L <= fold_left
          (fun resume_level edu =>
             degree_level_in (lower (dict_get edu "degree")) resume_level)
          edus acc)%Z <->
  (L <= acc)%Z \/
  exists e, In e edus /\
            (L <= degree_level_in (lower (dict_get e "degree")) 0)%Z.
Proof.
  revert acc. induction edus as [|e edus IH]; intros acc Hacc; simpl.
  - split; [tauto | intros [H | (e & [] & _)]; exact H].
  - rewrite degree_level_in_max by exact Hacc. rewrite IH by lia. split.
    + intros [H | (e' & Hin & He')].
      * destruct (Z.max_spec acc
                    (degree_level_in (lower (dict_get e "degree")) 0))
          as [[_ Hm] | [_ Hm]]; rewrite Hm in H; [right; exists e | left]; tauto.
      * right. exists e'. tauto.
    + intros [H | (e' & [<- | Hin] & He')].
      * left. lia.
      * left. lia.
      * right. exists e'. tauto.
Qed.

Lemma resume_level_incl (edus edus' : list (gmap string string)) :
  incl edus edus' -> (resume_level_of edus <= resume_level_of edus')%Z.
Proof.
  intros Hincl. unfold resume_level_of.
  apply resume_level_fold_char; [lia |].
  destruct (proj1 (resume_level_fold_char edus 0 (resume_level_of edus)
                     (Z.le_refl 0)) (Z.le_refl _)) as [H | (e & Hin & He)].
  - left. exact H.
  - right. exists e. split; [apply Hincl, Hin | exact He].
Qed.

(** X20.  The education sub-score is at least one half, and education
    entries never hurt: a résumé whose education entries include those of
    another scores at least as much against the same posting. *)
Theorem X20_education_score_monotone (r r' : Resume) (j : Job) :
  incl (education r) (education r') ->
  0.5 <= JobMatcher._calculate_education_match r j /\
  JobMatcher._calculate_education_match r j <=
  JobMatcher._calculate_education_match r' j.
Proof.
  intros Hincl.
  assert (Hhalf : forall r0, 0.5 <= JobMatcher._calculate_education_match r0 j).
  { intros r0. rewrite education_match_levels.
    destruct (negb (str_truthy (education_required j)));
      [apply Qle_bool_iff; reflexivity |].
    destruct (education r0); [apply Qle_bool_iff; reflexivity |].
    case_ifs; apply Qle_bool_iff; reflexivity. }
  split; [apply Hhalf |].
  pose proof (Hhalf r') as Hr'. clear Hhalf.
  rewrite !education_match_levels. rewrite education_match_levels in Hr'.
  destruct (negb (str_truthy (education_required j)));
    [apply Qle_bool_iff; reflexivity |].
  destruct (education r) as [|e edus] eqn:He; [exact Hr' |].
  destruct (education r') as [|e' edus'] eqn:He';
    [exfalso; exact (Hincl e (or_introl eq_refl)) |].
  pose proof (resume_level_incl _ _ Hincl) as Hlev.
  set (req := required_level_of (education_required j)) in *.
  destruct (req <=? resume_level_of (e :: edus))%Z eqn:H1;
    destruct (req <=? resume_level_of (e' :: edus'))%Z eqn:H1';
    destruct (req - 1 <=? resume_level_of (e :: edus))%Z eqn:H2;
    destruct (req - 1 <=? resume_level_of (e' :: edus'))%Z eqn:H2';
    try (apply Qle_bool_iff; reflexivity);
    repeat match goal with
           | H : (_ <=? _)%Z = true |- _ => apply Z.leb_le in H
           | H : (_ <=? _)%Z = false |- _ => apply Z.leb_gt in H
           end; lia.
Qed.

Lemma X20_education_score_monotone_witness :
  JobMatcher._calculate_education_match Scenario.resume0 Scenario.job73 <=
  JobMatcher._calculate_education_match
    {| resume_id := "r1"; summary := ""; experience := [];
       education := [{["degree" := "PhD in Physics"]};
                     {["degree" := "Bachelor of Science"]}];
       skills := [] |} Scenario.job73.
Proof.
  apply X20_education_score_monotone.
  intros e [<- | []]. right. left. reflexivity.
Defined.

(** ** Texts to embed *)

Lemma job_text_not_blank (j : Job) :
  all_space (JobMatcher._prepare_job_for_embedding j) = false.
Proof.
  unfold JobMatcher._prepare_job_for_embedding.
  destruct (str_truthy (description j)), (required_skills j),
    (str_truthy (requirements j)); reflexivity.
Qed.

(** X21.  The text prepared for a posting is never blank, so with a matcher
    built by [JobMatcher.__init__] a posting's embedding is the vector of the
    embedding service whenever the call succeeds.  A résumé without summary,
    skills, experience and education yields the empty text and gets the zero
    vector whatever the service would answer. *)
Theorem X21_job_text_reaches_service :
  (forall j : Job,
     all_space (JobMatcher._prepare_job_for_embedding j) = false) /\
  (forall (E : Env) (cfg : option MatchingConfig.t) (j : Job) (v : list Q),
     openai_embeddings_create E "text-embedding-3-small"
       (str_take 8000 (JobMatcher._prepare_job_for_embedding j)) = Ok v ->
     JobMatcher._generate_job_embedding E (JobMatcher.__init__ cfg) j
     = Ok (Some v)) /\
  (forall (E : Env) (cfg : option MatchingConfig.t) (r : Resume),
     summary r = "" -> skills r = [] -> experience r = [] ->
     education r = [] ->
     JobMatcher._prepare_resume_for_embedding r = "" /\
     JobMatcher._generate_resume_embedding E (JobMatcher.__init__ cfg) r
     = Ok (Some (repeat 0 1536))).
Proof.
  split; [exact job_text_not_blank |]. split.
  - intros E cfg j v Hv. unfold JobMatcher._generate_job_embedding.
    apply generate_embedding_success;
      [reflexivity | apply job_text_not_blank | exact Hv].
  - intros E cfg r Hs Hk He Hd.
    assert (Ht : JobMatcher._prepare_resume_for_embedding r = "").
    { unfold JobMatcher._prepare_resume_for_embedding.
      rewrite Hs, Hk, He, Hd. reflexivity. }
    split; [exact Ht |].
    unfold JobMatcher._generate_resume_embedding. rewrite Ht. reflexivity.
Qed.

Lemma X21_job_text_reaches_service_witness :
  JobMatcher._generate_job_embedding Scenario.env_mixed
    (JobMatcher.__init__ None) Scenario.job_good = Ok (Some [1; 0]).
Proof.
  destruct X21_job_text_reaches_service as (_ & H & _).
  apply H. reflexivity.
Defined.

(** ** Methods of the data classes *)

(** X22.  The ratio of matched skills is guarded against an empty
    denominator: it is 0 when a match has neither matched nor missing
    skills, it always lies between 0 and 1, and it is 1 exactly when the
    skills gap is 0 and some skill matched. *)
Theorem X22_skills_match_ratio_bounds (m : MatchResult) :
  0 <= get_skills_match_ratio m <= 1 /\
  (matched_skills m = [] -> get_skills_match_ratio m == 0) /\
  (get_skills_match_ratio m == 1 <->
   get_skills_gap m = 0%nat /\ matched_skills m <> []).
Proof.
  unfold get_skills_match_ratio, get_skills_gap.
  set (a := List.length (matched_skills m)).
  set (b := List.length (missing_skills m)).
  assert (Ha : matched_skills m = [] <-> a = 0%nat).
  { unfold a. destruct (matched_skills m); simpl; split;
      (reflexivity || discriminate). }
  destruct (a + b =? 0)%nat eqn:Ht.
  - apply Nat.eqb_eq in Ht.
    split; [split; discriminate |]. split; [reflexivity |].
    split; [discriminate |]. intros [_ Hne]. exfalso. apply Hne, Ha. lia.
  - apply Nat.eqb_neq in Ht.
    assert (Hpos : 0 < inject_Z (Z.of_nat (a + b))).
    { change 0 with (inject_Z 0). rewrite <- Zlt_Qlt. lia. }
    assert (Hq : inject_Z (Z.of_nat (a + b)) ==
                 inject_Z (Z.of_nat a) + inject_Z (Z.of_nat b)).
    { rewrite Nat2Z.inj_add, inject_Z_plus. reflexivity. }
    assert (Ha0 : 0 <= inject_Z (Z.of_nat a))
      by (change 0 with (inject_Z 0); rewrite <- Zle_Qle; lia).
    assert (Hb0 : 0 <= inject_Z (Z.of_nat b))
      by (change 0 with (inject_Z 0); rewrite <- Zle_Qle; lia).
    split; [split |]; [| | split].
    + apply Qle_div_iff; [exact Hpos | lra].
    + apply Qle_shift_div_r; [exact Hpos | lra].
    + intros Hm. apply Ha in Hm. rewrite Hm. unfold Qdiv.
      change (inject_Z (Z.of_nat 0)) with 0. ring.
    + split.
      * intros H1.
        assert (Hle : 1 <= inject_Z (Z.of_nat a) / inject_Z (Z.of_nat (a + b)))
          by (rewrite H1; apply Qle_refl).
        apply Qle_div_iff in Hle; [| exact Hpos].
        assert (Hb : inject_Z (Z.of_nat b) <= inject_Z 0)
          by (change (inject_Z 0) with 0; lra).
        rewrite <- Zle_Qle in Hb.
        split; [lia |]. intros Hm. apply Ha in Hm. lia.
      * intros [Hb _]. fold b in Hb.
        assert (Hab : (a + b)%nat = a) by lia.
        rewrite Hab in *. apply Qmult_inv_r. intros H0.
        rewrite H0 in Hpos. exact (Qlt_irrefl _ Hpos).
Qed.

Lemma X22_skills_match_ratio_bounds_witness :
  get_skills_match_ratio (Scenario.mk_match "J" 0 0 0 0) == 0.
Proof.
  destruct (X22_skills_match_ratio_bounds (Scenario.mk_match "J" 0 0 0 0))
    as (_ & H & _).
  apply H. reflexivity.
Defined.

Lemma prefix_refl (a : string) : String.prefix a a = true.
Proof.
  induction a as [|c a IH]; simpl; [reflexivity |].
  destruct (ascii_dec c c); [exact IH | congruence].
Qed.

Lemma str_in_refl (a : string) : str_in a a = true.
Proof.
  destruct a as [|c a]; [reflexivity |].
  change (str_in (String c a) (String c a))
    with (String.prefix (String c a) (String c a) || str_in (String c a) a)%bool.
  rewrite prefix_refl. reflexivity.
Qed.

Lemma str_in_empty (b : string) : str_in "" b = true.
Proof. destruct b; reflexivity. Qed.

(** X23.  [Job.has_skill] finds every required skill whatever the case of
    the query, finds nothing in a posting without required skills, and takes
    the empty query for a skill of every posting that requires any. *)
Theorem X23_has_skill_ignores_case (job : Job) :
  (forall s q, In s (required_skills job) -> lower q = lower s ->
               has_skill job q = true) /\
  (required_skills job = [] -> forall q, has_skill job q = false) /\
  (has_skill job "" = true <-> required_skills job <> []).
Proof.
  unfold has_skill. split; [| split].
  - intros s q Hin Heq. apply existsb_exists. exists s.
    split; [exact Hin |]. rewrite Heq. apply str_in_refl.
  - intros Hnil q. rewrite Hnil. reflexivity.
  - destruct (required_skills job) as [|s l]; simpl.
    + split; [discriminate | intros H; exfalso; apply H; reflexivity].
    + rewrite str_in_empty. split; [discriminate | reflexivity].
Qed.

Lemma X23_has_skill_ignores_case_witness :
  has_skill Scenario.job73 "PYTHON" = true.
Proof.
  destruct (X23_has_skill_ignores_case Scenario.job73) as (H & _).
  apply (H "python"); [left; reflexivity | reflexivity].
Defined.

Lemma highest_step_inv (edu : gmap string string) (l : list (string * Z))
    (highest : string * Z) :
  let degree := lower (dict_get edu "degree") in
  let res :=
    fold_left
      (fun highest '(key, level) =>
         if (str_in key degree && (snd highest <? level)%Z)%bool
         then (dict_get edu "degree", level)
         else highest) l highest in
  res = highest \/
  (fst res = dict_get edu "degree" /\
   exists key, In (key, snd res) l /\ str_in key degree = true).
Proof.
  revert highest. induction l as [|[key level] l IH]; intros highest; simpl.
  - left. reflexivity.
  - destruct (str_in key (lower (dict_get edu "degree"))) eqn:Hk; simpl.
    + destruct (snd highest <? level)%Z.
      * destruct (IH (dict_get edu "degree", level)) as [-> | (Hf & k & Hin & Hs)].
        -- right. simpl. split; [reflexivity |]. exists key. tauto.
        -- right. split; [exact Hf |]. exists k. tauto.
      * destruct (IH highest) as [-> | (Hf & k & Hin & Hs)]; [tauto |].
        right. split; [exact Hf |]. exists k. tauto.
    + destruct (IH highest) as [-> | (Hf & k & Hin & Hs)]; [tauto |].
      right. split; [exact Hf |]. exists k. tauto.
Qed.

(** X24.  [Resume.get_highest_degree] never invents a degree: it returns the
    empty string, always so for a résumé without education, or else the
    degree of one of the education entries, whose lower-cased text contains
    a key of the degree hierarchy. *)
Theorem X24_highest_degree_is_an_entry (r : Resume) :
  (education r = [] -> get_highest_degree r = "") /\
  (get_highest_degree r = "" \/
   exists e key level,
     In e (education r) /\
     get_highest_degree r = dict_get e "degree" /\
     In (key, level) degree_hierarchy /\
     str_in key (lower (get_highest_degree r)) = true).
Proof.
  unfold get_highest_degree. split; [intros ->; reflexivity |].
  destruct (education r) as [|e0 edus0] eqn:Hed; [left; reflexivity |].
  rewrite <- Hed. clear Hed e0 edus0.
  assert (Hinv : forall edus highest,
            let res := fold_left highest_step edus highest in
            res = highest \/
            exists e key level,
              In e edus /\ fst res = dict_get e "degree" /\
              In (key, level) degree_hierarchy /\
              str_in key (lower (fst res)) = true).
  { induction edus as [|e edus IH]; intros highest; simpl.
    - left. reflexivity.
    - destruct (IH (highest_step highest e))
        as [-> | (e' & key & level & Hin & Hf & Hk & Hs)].
      + destruct (highest_step_inv e degree_hierarchy highest)
          as [Heq | (Hf & key & Hin & Hs)].
        * left. exact Heq.
        * right. exists e, key. eexists.
          split; [left; reflexivity |]. split; [exact Hf |].
          split; [exact Hin |]. unfold highest_step. rewrite Hf. exact Hs.
      + right. exists e', key, level. tauto. }
  destruct (Hinv (education r) ("", 0%Z)) as [-> | H]; [left; reflexivity |].
  right. exact H.
Qed.

Lemma X24_highest_degree_is_an_entry_witness :
  get_highest_degree
    {| resume_id := ""; summary := ""; experience := []; education := [];
       skills := [] |} = "".
Proof.
  destruct (X24_highest_degree_is_an_entry
              {| resume_id := ""; summary := ""; experience := [];
                 education := []; skills := [] |}) as [H _].
  apply H. reflexivity.
Defined.

(** ** Results and batches *)

Lemma _calculate_match_ids (E : Env) (self : JobMatcher.t) (resume : Resume)
    (remb : option (list Q)) (j : Job) (jemb : option (list Q))
    (m : MatchResult) :
  JobMatcher._calculate_match E self resume remb j jemb = Ok m ->
  job m = Some j /\ mr_resume_id m = resume_id resume.
Proof.
  unfold JobMatcher._calculate_match, weights_index.
  destruct (SimilarityScorer.cosine_similarity E remb jemb); [| discriminate].
  simpl.
  destruct (_ !! "semantic"); [| discriminate]. simpl.
  destruct (_ !! "skills"); [| discriminate]. simpl.
  destruct (_ !! "experience"); [| discriminate]. simpl.
  destruct (_ !! "education"); [| discriminate]. simpl.
  intros [= <-]. split; reflexivity.
Qed.

Lemma scored_jobs_length (E : Env) (self : JobMatcher.t) (resume : Resume)
    (remb : option (list Q)) (pairs : list (Job * option (list Q))) :
  (List.length (scored_jobs E self resume remb pairs) <= List.length pairs)%nat.
Proof.
  unfold scored_jobs.
  induction pairs as [|[j e] pairs IH]; simpl; [lia |].
  destruct (JobMatcher._calculate_match E self resume remb j e); simpl.
  - apply (proj1 (Nat.succ_le_mono _ _)), IH.
  - apply Nat.le_le_succ_r, IH.
Qed.

Lemma slice_to_length_le {A : Type} (k : Z) (l : list A) :
  (List.length (slice_to k l) <= List.length l)%nat.
Proof.
  unfold slice_to. destruct (0 <=? k)%Z; rewrite length_firstn;
    apply Nat.le_min_r.
Qed.

(** X25.  [match_resume_to_jobs] returns at most one match per job of the
    pool, and every match it returns is for the résumé given and for a job of
    the pool, with an overall score that reaches the threshold. *)
Theorem X25_results_come_from_the_pool (E : Env) (self : JobMatcher.t)
    (resume : Resume) (jobs : list Job) (top_k : option Z)
    (out : list MatchResult) :
  JobMatcher.match_resume_to_jobs E self resume jobs top_k = Ok out ->
  (List.length out <= List.length jobs)%nat /\
  forall m, In m out ->
    mr_resume_id m = resume_id resume /\
    (exists j, In j jobs /\ job m = Some j) /\
    MatchingConfig.similarity_threshold (JobMatcher.config self) * 100
      <= overall_score m.
Proof.
  intros Hout. split.
  - destruct (match_resume_to_jobs_closed E self resume jobs top_k)
      as (remb & jembs & _ & _ & _ & _ & H).
    rewrite H in Hout. injection Hout as <-.
    etransitivity; [apply slice_to_length_le |].
    etransitivity; [apply List.filter_length_le |].
    rewrite rank_matches_length.
    etransitivity; [apply scored_jobs_length |].
    rewrite length_combine. lia.
  - intros m Hin.
    destruct (match_resume_to_jobs_In _ _ _ _ _ _ _ Hout Hin)
      as (remb & j & e & m0 & _ & Hj & _ & Hc & -> & Hthr).
    apply _calculate_match_ids in Hc. destruct Hc as [Hjob Hid].
    split; [exact Hid |]. split; [exists j; tauto | exact Hthr].
Qed.

Lemma X25_results_come_from_the_pool_witness :
  exists out,
    JobMatcher.match_resume_to_jobs Scenario.env_down
      (Scenario.matcher 0.5 2 Scenario.weights73) Scenario.resume0
      [Scenario.job73; Scenario.job40; Scenario.job90] None = Ok out /\
    (List.length out <= 3)%nat.
Proof.
  destruct (match_resume_to_jobs_total Scenario.env_down
              (Scenario.matcher 0.5 2 Scenario.weights73) Scenario.resume0
              [Scenario.job73; Scenario.job40; Scenario.job90] None)
    as [out Hout].
  exists out. split; [exact Hout |].
  apply (X25_results_come_from_the_pool _ _ _ _ _ _ Hout).
Defined.

(** With the provider ["openai"], an embedding is a vector: the zero vector
    of the generator's dimension, or the vector of the service. *)
Lemma generate_embedding_openai_shape (E : Env) (self : EmbeddingGenerator.t)
    (text : string) (row : option (list Q)) :
  EmbeddingGenerator.provider self = "openai" ->
  (forall v,
     openai_embeddings_create E (EmbeddingGenerator.model self)
       (str_take 8000 text) = Ok v ->
     List.length v = EmbeddingGenerator.dimension self) ->
  EmbeddingGenerator.generate_embedding E self text = Ok row ->
  EmbeddingGenerator.row_shape row = Some (EmbeddingGenerator.dimension self).
Proof.
  intros Hp Hdim. unfold EmbeddingGenerator.generate_embedding.
  destruct (negb (str_truthy text) || all_space text)%bool.
  - intros [= <-]. simpl. unfold EmbeddingGenerator.np_zeros.
    rewrite repeat_length. reflexivity.
  - rewrite Hp. change (String.eqb "openai" "openai") with true. cbv iota.
    destruct (openai_embeddings_create E (EmbeddingGenerator.model self)
                (str_take 8000 text)) as [v|x] eqn:Hcall; simpl.
    + intros [= <-]. simpl. rewrite (Hdim v eq_refl). reflexivity.
    + intros [= <-]. simpl. unfold EmbeddingGenerator.np_zeros.
      rewrite repeat_length. reflexivity.
Qed.

(** X26.  A batch of embeddings is [np.array] applied to the single
    embeddings [vs] of its texts, one per text in the order of the texts,
    each being what [generate_embedding] returns for that text.  The batch
    returns [vs] when they all have one shape, which is when
    [homogeneous vs] holds, and raises [ValueError] otherwise.  With the
    provider ["openai"] and a service whose vectors have the generator's
    dimension the batch returns, every row having that dimension; with the
    dimension 1536 of [__init__] and a service answering with vectors of
    length two, a blank text next to a text that is not blank makes the
    batch raise. *)
Theorem X26_batch_is_pointwise :
  (forall (E : Env) (self : EmbeddingGenerator.t) (texts : list string),
     exists vs,
       Forall2 (fun text v =>
                  EmbeddingGenerator.generate_embedding E self text = Ok v)
         texts vs /\
       (EmbeddingGenerator.homogeneous vs = true ->
        EmbeddingGenerator.generate_batch_embeddings E self texts = Ok vs) /\
       (EmbeddingGenerator.homogeneous vs = false ->
        EmbeddingGenerator.generate_batch_embeddings E self texts =
        Raise (ValueError "inhomogeneous shape")) /\
       (EmbeddingGenerator.homogeneous vs = true <->
        exists shape,
          Forall (fun row => EmbeddingGenerator.row_shape row = shape) vs)) /\
  (forall (E : Env) (self : EmbeddingGenerator.t) (texts : list string),
     EmbeddingGenerator.provider self = "openai" ->
     (forall text v,
        In text texts ->
        openai_embeddings_create E (EmbeddingGenerator.model self)
          (str_take 8000 text) = Ok v ->
        List.length v = EmbeddingGenerator.dimension self) ->
     exists vs,
       EmbeddingGenerator.generate_batch_embeddings E self texts = Ok vs /\
       Forall2 (fun text v =>
                  EmbeddingGenerator.generate_embedding E self text = Ok v)
         texts vs /\
       Forall (fun row =>
                 EmbeddingGenerator.row_shape row =
                 Some (EmbeddingGenerator.dimension self)) vs) /\
  EmbeddingGenerator.generate_batch_embeddings Scenario.env_mixed
    (EmbeddingGenerator.__init__ "openai" "text-embedding-3-small")
    [""; "Python"]
  = Raise (ValueError "inhomogeneous shape").
Proof.
  split; [| split; [| vm_compute; reflexivity]].
  - intros E self texts.
    destruct (generate_batch_embeddings_np_array E self texts)
      as (vs & HF & Hb).
    exists vs. split; [exact HF |].
    rewrite Hb. unfold EmbeddingGenerator.np_array.
    split; [intros ->; reflexivity |].
    split; [intros ->; reflexivity |].
    split; [apply homogeneous_shape |].
    intros [shape Hall]. exact (homogeneous_same_shape vs shape Hall).
  - intros E self texts Hp Hdim.
    destruct (generate_batch_embeddings_np_array E self texts)
      as (vs & HF & Hb).
    assert (Hall : Forall (fun row =>
                             EmbeddingGenerator.row_shape row =
                             Some (EmbeddingGenerator.dimension self)) vs).
    { clear Hb. induction HF as [|text v texts vs Hv HF IH]; constructor.
      - apply (generate_embedding_openai_shape E self text v Hp); [| exact Hv].
        intros v'. apply Hdim. left. reflexivity.
      - apply IH. intros t v' Hin. apply Hdim. right. exact Hin. }
    exists vs. split; [| split; [exact HF | exact Hall]].
    rewrite Hb. unfold EmbeddingGenerator.np_array.
    rewrite (homogeneous_same_shape vs _ Hall). reflexivity.
Qed.

Lemma X26_batch_is_pointwise_witness :
  let gen :=
    {| EmbeddingGenerator.provider := "openai";
       EmbeddingGenerator.model := "text-embedding-3-small";
       EmbeddingGenerator.dimension := 2 |} in
  exists vs,
    EmbeddingGenerator.generate_batch_embeddings Scenario.env_mixed gen
      [""; "Python"] = Ok vs /\
    Forall (fun row => EmbeddingGenerator.row_shape row = Some 2%nat) vs.
Proof.
  intros gen.
  destruct X26_batch_is_pointwise as (_ & H & _).
  destruct (H Scenario.env_mixed gen [""; "Python"]) as (vs & Hb & _ & Hall).
  - reflexivity.
  - intros text v [<- | [<- | []]]; vm_compute; intros [= <-]; reflexivity.
  - exists vs. split; [exact Hb | exact Hall].
Defined.

(** ** Accounting for the required skills *)

Lemma matched_fold_length (d : gmap string string) (l acc : list string) :
  List.length
    (fold_left
       (fun matched req_skill_lower =>
          match d !! req_skill_lower with
          | Some s => matched ++ [s]
          | None => matched
          end) l acc) =
  (List.length acc + List.length (filter (fun r => is_Some (d !! r)) l))%nat.
Proof.
  revert acc. induction l as [|r l IH]; intros acc; simpl.
  - rewrite Nat.add_0_r. reflexivity.
  - rewrite IH, filter_cons. destruct (d !! r) as [s|] eqn:Hr.
    + rewrite decide_True by eauto. rewrite length_app. simpl. lia.
    + rewrite decide_False by (intros [? ?]; discriminate). reflexivity.
Qed.

Lemma dict_lower_is_Some_iff (xs : list string) (k : string) :
  is_Some (dict_lower xs !! k) <-> k ∈ set_lower xs.
Proof.
  split; [| apply dict_lower_is_Some].
  intros [s Hs]. apply dict_lower_lookup in Hs. apply elem_of_set_lower. eauto.
Qed.

Lemma matched_skills_length (rs qs : list string) :
  List.length (JobMatcher._get_matched_skills rs qs) =
  exact_count (set_lower rs) (set_lower qs).
Proof.
  unfold JobMatcher._get_matched_skills, exact_count.
  rewrite matched_fold_length, size_filter_elements. simpl. f_equal.
  apply list_filter_iff. intros k. apply dict_lower_is_Some_iff.
Qed.

Lemma dict_set_keys_In (k v : string) (d : list (string * string))
    (k' : string) :
  In k' (map fst (dict_set k v d)) <-> k' = k \/ In k' (map fst d).
Proof.
  induction d as [|[k0 v0] d IH]; simpl.
  - intuition congruence.
  - destruct (String.eqb k k0) eqn:Heq; simpl.
    + apply String.eqb_eq in Heq. subst k0. intuition congruence.
    + rewrite IH. intuition congruence.
Qed.

Lemma dict_set_keys_NoDup (k v : string) (d : list (string * string)) :
  List.NoDup (map fst d) -> List.NoDup (map fst (dict_set k v d)).
Proof.
  induction d as [|[k0 v0] d IH]; simpl; intros Hnd.
  - constructor; [intros [] | constructor].
  - apply List.NoDup_cons_iff in Hnd. destruct Hnd as [Hk0 Hnd].
    destruct (String.eqb k k0) eqn:Heq; simpl.
    + apply String.eqb_eq in Heq. subst k0.
      apply List.NoDup_cons_iff. tauto.
    + apply String.eqb_neq in Heq. apply List.NoDup_cons_iff.
      split; [| apply IH, Hnd].
      rewrite dict_set_keys_In. intros [H | H]; [congruence | tauto].
Qed.

Lemma dict_lower_items_keys_NoDup (xs : list string) :
  List.NoDup (map fst (dict_lower_items xs)).
Proof.
  unfold dict_lower_items.
  assert (H : forall d, List.NoDup (map fst d) ->
            List.NoDup
              (map fst (fold_left (fun d s => dict_set (lower s) s d) xs d))).
  { induction xs as [|x xs IH]; intros d Hd; simpl; [exact Hd |].
    apply IH, dict_set_keys_NoDup, Hd. }
  apply H. constructor.
Qed.

Lemma dict_lower_items_keys (xs : list string) :
  Permutation (map fst (dict_lower_items xs)) (elements (set_lower xs)).
Proof.
  apply NoDup_Permutation.
  - apply NoDup_ListNoDup, dict_lower_items_keys_NoDup.
  - apply NoDup_elements.
  - intros k. rewrite elem_of_elements, elem_of_set_lower, list_elem_of_In.
    split.
    + intros Hin. apply in_map_iff in Hin. destruct Hin as ([k' v] & <- & Hin).
      apply dict_lower_items_In in Hin. exists v. tauto.
    + intros Hk. destruct (dict_lower_items_fold_key xs [] k) as [v Hv];
        [right; exact Hk |].
      apply in_map_iff. exists (k, v). tauto.
Qed.

Lemma missing_fold_length (S : gset string) (items : list (string * string))
    (acc : list string) :
  List.length
    (fold_left
       (fun missing '(req_skill_lower, req_skill) =>
          if bool_decide (req_skill_lower ∉ S) then
            let found_partial := JobMatcher.partial_with S req_skill_lower in
            if negb found_partial then missing ++ [req_skill] else missing
          else missing) items acc) =
  (List.length acc +
   List.length
     (filter (fun k => ~ exact_match S k /\ ~ partial_match S k)
        (map fst items)))%nat.
Proof.
  revert acc. induction items as [|[k q] items IH]; intros acc; simpl.
  - rewrite Nat.add_0_r. reflexivity.
  - rewrite IH, filter_cons. unfold exact_match at 2.
    destruct (bool_decide (k ∉ S)) eqn:Hb.
    + apply bool_decide_eq_true_1 in Hb.
      destruct (JobMatcher.partial_with S k) eqn:Hp; simpl.
      * rewrite decide_False; [reflexivity |].
        intros [_ Hnp]. apply Hnp. split; [exact Hb | apply partial_with_iff, Hp].
      * rewrite decide_True.
        -- rewrite length_app. simpl. rewrite <- Nat.add_assoc. reflexivity.
        -- split; [exact Hb |]. intros [_ Hex].
           apply partial_with_iff in Hex. congruence.
    + apply bool_decide_eq_false_1 in Hb.
      rewrite decide_False; [reflexivity |]. intros [Hno _]. exact (Hb Hno).
Qed.

(** X27.  The skill lists of a match account for every required skill once:
    there are as many matched skills as exact matches counted by the skills
    sub-score, and matched skills, partial matches and missing skills
    together number the distinct required skills (up to case). *)
Theorem X27_skills_accounting (rs qs : list string) :
  let S := set_lower rs in
  let R := set_lower qs in
  List.length (JobMatcher._get_matched_skills rs qs) = exact_count S R /\
  (List.length (JobMatcher._get_matched_skills rs qs) + partial_count S R +
   List.length (JobMatcher._identify_missing_skills rs qs) = size R)%nat.
Proof.
  intros S R. split; [apply matched_skills_length |].
  rewrite matched_skills_length. fold S R.
  unfold JobMatcher._identify_missing_skills. rewrite missing_fold_length.
  fold S. simpl List.length.
  rewrite (Permutation_length
             (filter_Permutation _ _ _ (dict_lower_items_keys qs))).
  fold R. rewrite <- size_filter_elements.
  unfold exact_count, partial_count. rewrite Nat.add_0_l.
  set (Ex := filter (exact_match S) R).
  set (Pa := filter (partial_match S) R).
  set (No := filter (fun k => ~ exact_match S k /\ ~ partial_match S k) R).
  assert (H1 : size (Ex ∪ Pa) = (size Ex + size Pa)%nat).
  { apply size_union. intros x Hx Hp. apply elem_of_filter in Hx, Hp.
    destruct Hx as [Hx _], Hp as [[Hp _] _]. exact (Hp Hx). }
  assert (H2 : size (Ex ∪ Pa ∪ No) = (size (Ex ∪ Pa) + size No)%nat).
  { apply size_union. intros x Hx Hn. apply elem_of_union in Hx.
    apply elem_of_filter in Hn. destruct Hn as [[Hne Hnp] _].
    destruct Hx as [Hx | Hx]; apply elem_of_filter in Hx; tauto. }
  assert (H3 : Ex ∪ Pa ∪ No = R).
  { apply set_eq. intros x. unfold Ex, Pa, No.
    rewrite !elem_of_union, !elem_of_filter. split; [tauto |].
    intros Hx. destruct (decide (exact_match S x)); [tauto |].
    destruct (decide (partial_match S x)); tauto. }
  rewrite <- H1, <- H2, H3. reflexivity.
Qed.
